(** * videobase-pi: the detection normalizer and the viewer session

    A shallow embedding of the pure detection-normalization layer of the
    [CameraView] component of the dashboard front end ([inferFrameSize],
    [normalizeValue], [normalizeBBox], [extractBoxFromCandidate],
    [buildDetectionsFromInference], [parseDetections]) and of the
    WebSocket life cycle that [CameraView] and [VideoStream] set up in
    their [useEffect] hook; then of what [CameraView] does with the
    detections (the [inferenceSource] and [detections] memos, the labels
    of [buildOpenAIPrompt], the geometry of the drawing effect, the
    analysis request) and of the [DeviceInfo] panel (the colour bands, the
    address it polls, the polling effect and two of its cells).

    JavaScript numbers are IEEE 754 binary64 values; they are modelled by
    the [spec_float] type of the standard library, instantiated at
    precision 53 and maximal exponent 1024, so that infinities, signed
    zeros, NaN and rounding are those of the source language. *)

From Stdlib Require Import ZArith List String Ascii Bool Lia.
From Stdlib Require Import Floats.SpecFloat.
From Stdlib Require Import DecimalString.
Import ListNotations.
Local Open Scope string_scope.
Local Open Scope Z_scope.

Set Warnings "-register-all".

(** ** JavaScript numbers *)

Module Num.

Definition prec : Z := 53.
Definition emax : Z := 1024.

Definition number : Type := spec_float.

Definition NaN : number := S754_nan.
Definition Infinity : number := S754_infinity false.
Definition NegInfinity : number := S754_infinity true.
Definition zero : number := S754_zero false.

(** The binary64 value of an integer literal (round to nearest even). *)
Definition of_Z (z : Z) : number := binary_normalize prec emax z 0 false.

(** [1], that is [2^52 * 2^-52] in canonical form. *)
Definition one : number := S754_finite false 4503599627370496 (-52).

Definition div (a b : number) : number := SFdiv prec emax a b.
Definition sub (a b : number) : number := SFsub prec emax a b.

(** The binary64 value of a decimal literal [n / 10^k] whose numerator and
    denominator are exactly representable: one correctly rounded
    division. *)
Definition of_ratio (n d : Z) : number := div (of_Z n) (of_Z d).

Definition isNaN (a : number) : bool :=
  match a with S754_nan => true | _ => false end.

(** [a < b], [a <= b], [a > b] and [a === b] on numbers: false as soon as
    one side is NaN. *)
Definition lt (a b : number) : bool := SFltb a b.
Definition le (a b : number) : bool := SFleb a b.
Definition gt (a b : number) : bool := SFltb b a.
Definition eqb (a b : number) : bool := SFeqb a b.

Definition is_pos_zero (a : number) : bool :=
  match a with S754_zero false => true | _ => false end.
Definition is_neg_zero (a : number) : bool :=
  match a with S754_zero true => true | _ => false end.

(** [Math.max(a, b)] on two numbers (ECMAScript 21.3.2.24): NaN if either
    is NaN; the running maximum starts at [a]; [+0] beats [-0]. *)
Definition max (a b : number) : number :=
  if isNaN a || isNaN b then NaN
  else if is_pos_zero b && is_neg_zero a then b
  else if gt b a then b
  else a.

(** [Math.min(a, b)] on two numbers (ECMAScript 21.3.2.25). *)
Definition min (a b : number) : number :=
  if isNaN a || isNaN b then NaN
  else if is_neg_zero b && is_pos_zero a then b
  else if lt b a then b
  else a.

(** The idiom [Math.min(Math.max(v, 0), 1)] of the source. *)
Definition clamp01 (v : number) : number := min (max v zero) one.

(** A value lies in the closed unit interval. *)
Definition in_unit (v : number) : Prop := le zero v = true /\ le v one = true.

(** A well-formed binary64 value. *)
Definition binary64 (v : number) : Prop := valid_binary prec emax v = true.

(** The decimal rounding used to print a coordinate with three decimals
    ([toFixed(3)]): the integer nearest to [1000 * v], ties upwards in
    magnitude, computed exactly. *)
Definition milli (v : number) : option Z :=
  match v with
  | S754_zero _ => Some 0
  | S754_finite s m e =>
      let n := match e with
               | Zneg p => (2 * 1000 * Zpos m + 2 ^ Zpos p) / (2 * 2 ^ Zpos p)
               | _ => 1000 * Zpos m * 2 ^ e
               end in
      Some (if s then - n else n)
  | _ => None
  end.

(** A number that is not NaN and carries the sign bit [s]. *)
Definition signed_as (s : bool) (r : number) : Prop :=
  match r with
  | S754_nan => False
  | S754_zero s' | S754_infinity s' | S754_finite s' _ _ => s' = s
  end.

(** [a * b] and [a + b] on numbers. *)
Definition mul (a b : number) : number := SFmul prec emax a b.
Definition add (a b : number) : number := SFadd prec emax a b.

(** Neither NaN nor an infinity. *)
Definition is_finite (a : number) : bool :=
  match a with S754_zero _ | S754_finite _ _ _ => true | _ => false end.

End Num.

Import Num.

(** ** JavaScript values, as [JSON.parse] builds them *)

(** The detection payload reaches the component through [JSON.parse], so a
    value is null, a boolean, a number, a string, an array or a plain
    object; [VUndefined] is what reading a missing property gives.  An
    object is the list of its own properties, keys distinct. *)
Inductive value : Type :=
| VUndefined
| VNull
| VBool (b : bool)
| VNum (n : number)
| VStr (s : string)
| VArr (elems : list value)
| VObj (props : list (string * value)).

(** Results of code that may throw. *)
Inductive result (A : Type) : Type :=
| Ok (a : A)
| Throw.
Arguments Ok {A} a.
Arguments Throw {A}.

Definition bind {A B : Type} (r : result A) (k : A -> result B) : result B :=
  match r with
  | Ok a => k a
  | Throw => Throw
  end.

Notation "x <- r ;; k" := (bind r (fun x => k))
  (at level 61, r at next level, right associativity).

(** [xs.map(f)] when [f] may throw: the first throw aborts the call. *)
Fixpoint mapM {A B : Type} (f : A -> result B) (xs : list A) : result (list B) :=
  match xs with
  | [] => Ok []
  | x :: r => y <- f x ;; ys <- mapM f r ;; Ok (y :: ys)
  end.

(** [xs.map((x, index) => ...)]: the elements paired with their index. *)
Fixpoint indexed_from {A : Type} (i : nat) (xs : list A) : list (nat * A) :=
  match xs with
  | [] => []
  | x :: r => (i, x) :: indexed_from (S i) r
  end.

Definition indexed {A : Type} (xs : list A) : list (nat * A) := indexed_from 0 xs.

(** [xs.filter(Boolean)] on a list whose elements are objects or null. *)
Fixpoint filter_some {A : Type} (xs : list (option A)) : list A :=
  match xs with
  | [] => []
  | Some a :: r => a :: filter_some r
  | None :: r => filter_some r
  end.

(** Own-property lookup. *)
Fixpoint lookup (k : string) (props : list (string * value)) : option value :=
  match props with
  | [] => None
  | (k', v) :: r => if String.eqb k k' then Some v else lookup k r
  end.

(** [v.k] for the property names the component reads.  None of them is
    defined on the prototypes of arrays, strings, numbers or booleans, so
    only plain objects answer; every such read in the source is on a value
    already known not to be null or undefined, or goes through [?.]. *)
Definition get (v : value) (k : string) : value :=
  match v with
  | VObj props => match lookup k props with Some x => x | None => VUndefined end
  | _ => VUndefined
  end.

Definition nat_key (i : nat) : string := NilEmpty.string_of_uint (Nat.to_uint i).

(** A string of the model is the UTF-8 form of the JavaScript string, one
    [ascii] per byte, and JavaScript indexes a string by UTF-16 code unit.
    A sequence of one, two or three bytes is one unit; a sequence of four
    bytes is a pair of surrogates, and a surrogate alone is written in
    the same three-byte form as any other unit of its size. *)
Definition unit_string (u : N) : string :=
  String (ascii_of_N (N.lor 224 (N.shiftr u 12)))
    (String (ascii_of_N (N.lor 128 (N.land (N.shiftr u 6) 63)))
       (String (ascii_of_N (N.lor 128 (N.land u 63))) EmptyString)).

(** The code point, less [0x10000], of a sequence of four bytes. *)
Definition astral (a b c d : ascii) : N :=
  N.lor (N.shiftl (N.land (N_of_ascii a) 7) 18)
    (N.lor (N.shiftl (N.land (N_of_ascii b) 63) 12)
       (N.lor (N.shiftl (N.land (N_of_ascii c) 63) 6) (N.land (N_of_ascii d) 63)))
  - 65536.

(** The code units of a string, each as the string that holds it alone;
    a sequence cut short by the end of the string is left as it is. *)
Fixpoint code_units (s : string) : list string :=
  match s with
  | EmptyString => []
  | String a r =>
      if (N_of_ascii a <? 192)%N then String a EmptyString :: code_units r
      else
        match r with
        | EmptyString => [s]
        | String b r1 =>
            if (N_of_ascii a <? 224)%N
            then String a (String b EmptyString) :: code_units r1
            else
              match r1 with
              | EmptyString => [s]
              | String c r2 =>
                  if (N_of_ascii a <? 240)%N
                  then String a (String b (String c EmptyString)) :: code_units r2
                  else
                    match r2 with
                    | EmptyString => [s]
                    | String d r3 =>
                        unit_string (55296 + N.shiftr (astral a b c d) 10)
                        :: unit_string (56320 + N.land (astral a b c d) 1023)
                        :: code_units r3
                    end
              end
        end
  end.

(** [v?.[i]] for an index [i]; a string answers with the code unit at
    [i]. *)
Definition get_index (v : value) (i : nat) : value :=
  match v with
  | VArr elems => nth i elems VUndefined
  | VObj _ => get v (nat_key i)
  | VStr s => match nth_error (code_units s) i with
              | Some u => VStr u
              | None => VUndefined
              end
  | _ => VUndefined
  end.

Definition typeof_number (v : value) : bool :=
  match v with VNum _ => true | _ => false end.

(** [v == null] *)
Definition nullish (v : value) : bool :=
  match v with VUndefined | VNull => true | _ => false end.

(** [a ?? b] *)
Definition coalesce (a b : value) : value := if nullish a then b else a.
Infix "??" := coalesce (at level 45, right associativity).

(** ToBoolean *)
Definition truthy (v : value) : bool :=
  match v with
  | VUndefined | VNull => false
  | VBool b => b
  | VNum n => match n with S754_zero _ | S754_nan => false | _ => true end
  | VStr s => negb (String.eqb s "")
  | VArr _ | VObj _ => true
  end.

(** [a || b] *)
Definition or_else (a b : value) : value := if truthy a then a else b.

(** [typeof v === 'number' && !Number.isNaN(v)] *)
Definition is_real_number (v : value) : bool :=
  match v with VNum n => negb (isNaN n) | _ => false end.

(** ** Coercion to number

    [Math.max] and the binary [-] apply ToNumber to their operands.  The
    two engine routines that convert between strings and numbers
    (StringToNumber and Number::toString) are taken as they are; all the
    rest of the coercion is spelled out below. *)

Section Coercion.

Variable StringToNumber : string -> number.
Variable NumberToString : number -> string.

Definition has_own (k : string) (props : list (string * value)) : bool :=
  match lookup k props with Some _ => true | None => false end.

(** ToString.  An array is joined with commas, null and undefined
    elements giving the empty string.  A plain object answers
    ["[object Object]"] through [Object.prototype.toString], unless it
    has an own property [toString]: parsed from JSON it is not callable,
    [Object.prototype.valueOf] returns no primitive either, and
    OrdinaryToPrimitive throws a TypeError. *)
Fixpoint ToString (v : value) : result string :=
  match v with
  | VUndefined => Ok "undefined"
  | VNull => Ok "null"
  | VBool true => Ok "true"
  | VBool false => Ok "false"
  | VNum n => Ok (NumberToString n)
  | VStr s => Ok s
  | VArr elems =>
      (fix join (l : list value) : result string :=
         match l with
         | [] => Ok ""
         | x :: r =>
             s <- (if nullish x then Ok "" else ToString x) ;;
             match r with
             | [] => Ok s
             | _ => t <- join r ;; Ok (s ++ "," ++ t)
             end
         end) elems
  | VObj props =>
      if has_own "toString" props then Throw else Ok "[object Object]"
  end.

(** ToNumber *)
Definition ToNumber (v : value) : result number :=
  match v with
  | VUndefined => Ok NaN
  | VNull => Ok zero
  | VBool true => Ok one
  | VBool false => Ok zero
  | VNum n => Ok n
  | VStr s => Ok (StringToNumber s)
  | VArr _ | VObj _ => s <- ToString v ;; Ok (StringToNumber s)
  end.

(** [Math.max(v, 0)] *)
Definition math_max0 (v : value) : result number :=
  n <- ToNumber v ;; Ok (Num.max n zero).

(** [a - b] *)
Definition minus (a b : value) : result number :=
  x <- ToNumber a ;; y <- ToNumber b ;; Ok (Num.sub x y).

End Coercion.

(** ** The normalizer *)

Record FrameSize : Type := { fs_width : value; fs_height : value }.

(** The object literal [{ x, y, width, height }] before normalization: its
    fields still hold raw values. *)
Record BBox : Type :=
  { raw_x : value; raw_y : value; raw_width : value; raw_height : value }.

(** The normalized box. *)
Record Box : Type :=
  { box_x : number; box_y : number; box_width : number; box_height : number }.

Record Detection : Type :=
  { label : value; confidence : value; box : Box }.

Definition DEFAULT_FRAME_DIMENSION : value := VNum one.

Definition inferFrameSize (source : value) : FrameSize :=
  let fallback :=
    {| fs_width := get source "frame_width" ?? get source "image_width"
                   ?? get source "width" ?? DEFAULT_FRAME_DIMENSION;
       fs_height := get source "frame_height" ?? get source "image_height"
                    ?? get source "height" ?? DEFAULT_FRAME_DIMENSION |} in
  match get source "resolution" with
  | VArr elems =>
      if (2 <=? List.length elems)%nat
      then {| fs_width := nth 0 elems VUndefined; fs_height := nth 1 elems VUndefined |}
      else fallback
  | _ => fallback
  end.

(** The dimension [normalizeValue] divides by. *)
Definition safeDimension (dimension : value) : number :=
  match dimension with
  | VNum d => if gt d zero then d else one
  | _ => one
  end.

(** [null] is [None]. *)
Definition normalizeValue (v dimension : value) : option number :=
  match v with
  | VNum n =>
      if isNaN n then None
      else
        let d := safeDimension dimension in
        if gt d one then Some (Num.min (Num.max (div n d) zero) one)
        else if le n one then Some (Num.min (Num.max n zero) one)
        else Some (Num.min (Num.max n zero) one)
  | _ => None
  end.

(** The number [normalizeValue] clamps: the quotient by the dimension when
    that exceeds [1], the value itself otherwise. *)
Definition scaled (n : number) (dimension : value) : number :=
  if gt (safeDimension dimension) one then div n (safeDimension dimension) else n.

Definition first4 (elems : list value) : BBox :=
  {| raw_x := nth 0 elems VUndefined; raw_y := nth 1 elems VUndefined;
     raw_width := nth 2 elems VUndefined; raw_height := nth 3 elems VUndefined |}.

Definition object_label (index : nat) : value :=
  VStr ("object-" ++ nat_key (index + 1)).

(** The object [extractBoxFromCandidate] reads the box from:
    [candidate.bbox ?? candidate.box ?? candidate.rect ?? candidate.region
    ?? candidate]. *)
Definition box_source (candidate : value) : value :=
  get candidate "bbox" ?? get candidate "box" ?? get candidate "rect"
  ?? get candidate "region" ?? candidate.

(** The six reads [extractBoxFromCandidate] makes on an object source. *)
Definition source_x (source : value) : value :=
  get source "x" ?? get source "left" ?? get source "x_min"
  ?? get source "x1" ?? get source "cx" ?? get source "center_x".
Definition source_y (source : value) : value :=
  get source "y" ?? get source "top" ?? get source "y_min"
  ?? get source "y1" ?? get source "cy" ?? get source "center_y".
Definition source_width (source : value) : value := get source "width" ?? get source "w".
Definition source_height (source : value) : value := get source "height" ?? get source "h".
Definition source_x2 (source : value) : value :=
  get source "x2" ?? get source "x_max" ?? get source "right".
Definition source_y2 (source : value) : value :=
  get source "y2" ?? get source "y_max" ?? get source "bottom".

Section Normalizer.

Variable StringToNumber : string -> number.
Variable NumberToString : number -> string.

Abbreviation max0 := (math_max0 StringToNumber NumberToString).
Abbreviation sub_values := (minus StringToNumber NumberToString).

Definition normalizeBBox (bbox : option BBox) (frameSize : FrameSize)
  : result (option Box) :=
  match bbox with
  | None => Ok None
  | Some b =>
      let x := normalizeValue (raw_x b) (fs_width frameSize) in
      let y := normalizeValue (raw_y b) (fs_height frameSize) in
      w <- max0 (raw_width b) ;;
      let width := normalizeValue (VNum w) (fs_width frameSize) in
      h <- max0 (raw_height b) ;;
      let height := normalizeValue (VNum h) (fs_height frameSize) in
      match x, y, width, height with
      | Some x, Some y, Some width, Some height =>
          Ok (Some {| box_x := x; box_y := y; box_width := width; box_height := height |})
      | _, _, _, _ => Ok None
      end
  end.

Definition extractBoxFromCandidate (candidate : value) : result (option BBox) :=
  if negb (truthy candidate) then Ok None
  else
    let source := box_source candidate in
    match source with
    | VArr elems =>
        if (4 <=? List.length elems)%nat && forallb typeof_number (firstn 4 elems)
        then Ok (Some (first4 elems))
        else Ok None
    | VObj _ =>
        let x := source_x source in
        let y := source_y source in
        let width := source_width source in
        let height := source_height source in
        let x2 := source_x2 source in
        let y2 := source_y2 source in
        width <- (if negb (nullish x) && nullish width && negb (nullish x2)
                  then n <- sub_values x2 x ;; Ok (VNum n)
                  else Ok width) ;;
        height <- (if negb (nullish y) && nullish height && negb (nullish y2)
                   then n <- sub_values y2 y ;; Ok (VNum n)
                   else Ok height) ;;
        if forallb is_real_number [x; y; width; height]
        then Ok (Some {| raw_x := x; raw_y := y; raw_width := width; raw_height := height |})
        else Ok None
    | _ => Ok None
    end.

(** The raw box of an element of [inference.boxes]: the first four
    elements of an array of at least four, whatever they are; otherwise
    what [extractBoxFromCandidate] finds in an object. *)
Definition bbox_of_box (b : value) : result (option BBox) :=
  match b with
  | VArr elems =>
      if (4 <=? List.length elems)%nat then Ok (Some (first4 elems))
      else extractBoxFromCandidate b
  | VObj _ => extractBoxFromCandidate b
  | _ => Ok None
  end.

(** The callback of [boxes.map] in [buildDetectionsFromInference]. *)
Definition detection_of_box (inference : value) (frameSize : FrameSize)
  (entry : nat * value) : result (option Detection) :=
  let (index, b) := entry in
  bbox <- bbox_of_box b ;;
  normalizedBox <- normalizeBBox bbox frameSize ;;
  match normalizedBox with
  | None => Ok None
  | Some nb =>
      let label :=
        or_else (get_index (get inference "labels") index)
          (or_else (get b "label") (or_else (get b "name") (object_label index))) in
      let confidence :=
        if typeof_number (get_index b 4) then get_index b 4
        else get b "confidence" ?? get b "score" ?? VNull in
      Ok (Some {| label := label; confidence := confidence; box := nb |})
  end.

Definition buildDetectionsFromInference (inference : value) : result (list Detection) :=
  match get inference "boxes" with
  | VArr [] => Ok []
  | VArr boxes =>
      let frameSize := inferFrameSize inference in
      mapped <- mapM (detection_of_box inference frameSize) (indexed boxes) ;;
      Ok (filter_some mapped)
  | _ => Ok []
  end.

(** The list [parseDetections] falls back to. *)
Definition candidates_of (inferenceSource : value) : list value :=
  match inferenceSource with
  | VArr elems => elems
  | _ =>
      match get inferenceSource "detections" with
      | VArr elems => elems
      | _ =>
          match get inferenceSource "objects" with
          | VArr elems => elems
          | _ => []
          end
      end
  end.

(** The callback of [candidates.map] in [parseDetections]. *)
Definition detection_of_candidate (frameSize : FrameSize)
  (entry : nat * value) : result (option Detection) :=
  let (index, candidate) := entry in
  bbox <- extractBoxFromCandidate candidate ;;
  normalizedBox <- normalizeBBox bbox frameSize ;;
  match normalizedBox with
  | None => Ok None
  | Some nb =>
      let label :=
        get candidate "label" ?? get candidate "name" ?? get candidate "class"
        ?? get candidate "category" ?? object_label index in
      let confidence :=
        get candidate "confidence" ?? get candidate "score"
        ?? get candidate "probability" ?? get candidate "confidence_score"
        ?? VNull in
      Ok (Some {| label := label; confidence := confidence; box := nb |})
  end.

Definition parseDetections (inferenceSource : value) : result (list Detection) :=
  if negb (truthy inferenceSource) then Ok []
  else
    inferenceObjects <- buildDetectionsFromInference inferenceSource ;;
    match inferenceObjects with
    | _ :: _ => Ok inferenceObjects
    | [] =>
        let candidates := candidates_of inferenceSource in
        let frameSize := inferFrameSize inferenceSource in
        mapped <- mapM (detection_of_candidate frameSize) (indexed candidates) ;;
        Ok (filter_some mapped)
    end.

End Normalizer.

(** ** Vocabulary of the statements *)

(** The elements of [inference.boxes], when that is an array. *)
Definition boxes_of (inference : value) : list value :=
  match get inference "boxes" with
  | VArr boxes => boxes
  | _ => []
  end.


(** An object that exposes [cx], [cy] and a width and a height as numbers,
    and none of [x], [left], [x_min], [x1], [y], [top], [y_min], [y1]. *)
Definition center_form (o : value) : bool :=
  nullish (get o "x") && nullish (get o "left") && nullish (get o "x_min")
  && nullish (get o "x1")
  && nullish (get o "y") && nullish (get o "top") && nullish (get o "y_min")
  && nullish (get o "y1")
  && is_real_number (get o "cx") && is_real_number (get o "cy")
  && is_real_number (source_width o) && is_real_number (source_height o).

(** An object that gives its box by two corners [(x1, y1)] and [(x2, y2)]
    and has no width and no height. *)
Definition corner_form (o : value) (x1 y1 x2 y2 : number) : Prop :=
  source_x o = VNum x1 /\ source_y o = VNum y1 /\
  source_x2 o = VNum x2 /\ source_y2 o = VNum y2 /\
  nullish (source_width o) = true /\ nullish (source_height o) = true.

(** A coordinate normalized against [dimension]: within [0, 1], or NaN
    when the dimension is infinite. *)
Definition coordinate_ok (r : number) (dimension : value) : Prop :=
  in_unit r \/ (r = NaN /\ safeDimension dimension = Infinity).


(** A payload none of whose objects, at any depth, has an own property
    [toString]. *)
Fixpoint plain (v : value) : bool :=
  match v with
  | VArr elems => forallb plain elems
  | VObj props =>
      negb (has_own "toString" props) && forallb (fun kv => plain (snd kv)) props
  | _ => true
  end.

Definition plain_bbox (b : BBox) : Prop :=
  plain (raw_x b) = true /\ plain (raw_y b) = true /\
  plain (raw_width b) = true /\ plain (raw_height b) = true.

(** The box with the four given coordinates. *)
Definition box_of (x y w h : number) : Box :=
  {| box_x := x; box_y := y; box_width := w; box_height := h |}.


(** ** The viewer session

    [CameraView] and [VideoStream] run the same effect: [connectWebSocket]
    creates a socket, stores it in [wsRef] and installs its handlers; the
    [onclose] handler arms a timeout that calls [connectWebSocket] again;
    the cleanup of the effect closes the socket [wsRef] holds.  The state
    below is what that code owns, and an event is one callback the browser
    or React runs.  [onmessage] only updates the image and the frame
    counters; it takes no part in the life cycle and is left out. *)

Module Session.

Local Open Scope nat_scope.

(** [WebSocket.readyState] *)
Inductive ReadyState : Type := CONNECTING | OPEN | CLOSING | CLOSED.

(** The two messages [setError] is given: the one of [onerror] and the one
    of the [catch] around [new WebSocket].  Each component has its own
    wording for them. *)
Inductive Failure : Type := ConnectionError | FailedToConnect.

Definition CameraView_text (f : Failure) : string :=
  match f with
  | ConnectionError => "Connection error"
  | FailedToConnect => "Failed to connect"
  end.

Definition VideoStream_text (f : Failure) : string :=
  match f with
  | ConnectionError => "Connection error. Please check if the server is running."
  | FailedToConnect => "Failed to connect to video stream"
  end.

Record State : Type :=
  { sockets : list ReadyState;   (* every socket created so far, oldest first *)
    wsRef : option nat;          (* [wsRef.current]: an index into [sockets] *)
    timers : list nat;           (* due times (ms) of the pending timeouts *)
    clock : nat;                 (* current time (ms) *)
    connected : bool;
    error : option Failure;
    unmounted : bool }.          (* the cleanup of the effect has run *)

Definition RECONNECT_DELAY : nat := 3000.

Inductive Event : Type :=
| Opened (ws : nat)                  (* the handshake of socket [ws] succeeded *)
| Errored (ws : nat)                 (* [onerror] of socket [ws] *)
| Closed (ws : nat)                  (* the transport of socket [ws] closed *)
| Fired (timer : nat) (throws : bool) (* the pending timeout at position [timer] runs *)
| Tick (ms : nat)                    (* time passes *)
| Unmount.                           (* React runs the cleanup *)

Definition set_socket (ws : nat) (r : ReadyState) (l : list ReadyState) : list ReadyState :=
  firstn ws l ++ r :: skipn (S ws) l.

Fixpoint remove_at {A : Type} (k : nat) (l : list A) : list A :=
  match k, l with
  | _, [] => []
  | O, _ :: r => r
  | S k, a :: r => a :: remove_at k r
  end.

(** [connectWebSocket]; [throws] tells whether [new WebSocket] throws,
    which the [catch] turns into an error message. *)
Definition connectWebSocket (throws : bool) (s : State) : State :=
  if throws then
    {| sockets := sockets s; wsRef := wsRef s; timers := timers s; clock := clock s;
       connected := connected s; error := Some FailedToConnect;
       unmounted := unmounted s |}
  else
    {| sockets := sockets s ++ [CONNECTING]; wsRef := Some (List.length (sockets s));
       timers := timers s; clock := clock s;
       connected := connected s; error := error s; unmounted := unmounted s |}.

Definition onopen (s : State) : State :=
  {| sockets := sockets s; wsRef := wsRef s; timers := timers s; clock := clock s;
     connected := true; error := None; unmounted := unmounted s |}.

Definition onerror (s : State) : State :=
  {| sockets := sockets s; wsRef := wsRef s; timers := timers s; clock := clock s;
     connected := connected s; error := Some ConnectionError;
     unmounted := unmounted s |}.

(** [setConnected(false); setTimeout(() => connectWebSocket(), 3000)] *)
Definition onclose (s : State) : State :=
  {| sockets := sockets s; wsRef := wsRef s;
     timers := timers s ++ [clock s + RECONNECT_DELAY]; clock := clock s;
     connected := false; error := error s; unmounted := unmounted s |}.

(** [ws.close()]: an open or connecting socket starts closing. *)
Definition close (ws : nat) (l : list ReadyState) : list ReadyState :=
  match nth_error l ws with
  | Some CONNECTING | Some OPEN => set_socket ws CLOSING l
  | _ => l
  end.

(** The cleanup: [if (wsRef.current) wsRef.current.close()]. *)
Definition cleanup (s : State) : State :=
  {| sockets := match wsRef s with Some ws => close ws (sockets s) | None => sockets s end;
     wsRef := wsRef s; timers := timers s; clock := clock s;
     connected := connected s; error := error s; unmounted := true |}.

Definition with_sockets (l : list ReadyState) (s : State) : State :=
  {| sockets := l; wsRef := wsRef s; timers := timers s; clock := clock s;
     connected := connected s; error := error s; unmounted := unmounted s |}.

(** The state when the effect has run: [connectWebSocket()] on mount. *)
Definition mount (throws : bool) : State :=
  connectWebSocket throws
    {| sockets := []; wsRef := None; timers := []; clock := 0;
       connected := false; error := None; unmounted := false |}.

(** One event; [None] when the browser cannot produce it in this state. *)
Definition step (s : State) (e : Event) : option State :=
  match e with
  | Opened ws =>
      match nth_error (sockets s) ws with
      | Some CONNECTING => Some (onopen (with_sockets (set_socket ws OPEN (sockets s)) s))
      | _ => None
      end
  | Errored ws =>
      match nth_error (sockets s) ws with
      | Some CLOSED | None => None
      | Some _ => Some (onerror s)
      end
  | Closed ws =>
      match nth_error (sockets s) ws with
      | Some CLOSED | None => None
      | Some _ => Some (onclose (with_sockets (set_socket ws CLOSED (sockets s)) s))
      end
  | Fired k throws =>
      match nth_error (timers s) k with
      | Some due =>
          if due <=? clock s then
            Some (connectWebSocket throws
                    {| sockets := sockets s; wsRef := wsRef s;
                       timers := remove_at k (timers s); clock := clock s;
                       connected := connected s; error := error s;
                       unmounted := unmounted s |})
          else None
      | None => None
      end
  | Tick ms =>
      Some {| sockets := sockets s; wsRef := wsRef s; timers := timers s;
              clock := clock s + ms; connected := connected s; error := error s;
              unmounted := unmounted s |}
  | Unmount => if unmounted s then None else Some (cleanup s)
  end.

Fixpoint run (s : State) (trace : list Event) : option State :=
  match trace with
  | [] => Some s
  | e :: r => match step s e with Some s' => run s' r | None => None end
  end.

(** The states of the specification, read off the state of the code. *)
Inductive Phase : Type := Connecting | Open | Closing | Reconnecting.

Definition phase (s : State) : Phase :=
  if unmounted s then Closing
  else match wsRef s with
       | Some ws =>
           match nth_error (sockets s) ws with
           | Some CONNECTING => Connecting
           | Some OPEN => Open
           | _ => Reconnecting
           end
       | None => Reconnecting
       end.

(** The sockets created so far: the connection attempts made. *)
Definition attempts (s : State) : nat := List.length (sockets s).

(** A session whose first socket has opened. *)
Definition opened : State :=
  onopen (with_sockets (set_socket 0 OPEN (sockets (mount false))) (mount false)).

End Session.

(** ** What [CameraView] does with a frame message

    [onmessage] stores [data.ai_data || null]; the [inferenceSource] and
    [detections] memos derive the overlay from it; [buildOpenAIPrompt]
    lists the labels and the drawing effect places the boxes and their
    captions on the canvas. *)

(** [data.type === 'frame' && data.data] *)
Definition is_frame (data : value) : bool :=
  match get data "type" with
  | VStr type => String.eqb type "frame"
  | _ => false
  end && truthy (get data "data").

(** The [inferenceSource] memo; [aiData?.payload] of a value without that
    property is undefined. *)
Definition inferenceSource (aiData : value) : value :=
  if negb (truthy (get aiData "payload")) then VNull
  else if truthy (get (get aiData "payload") "inference")
       then get (get aiData "payload") "inference"
  else if truthy (get (get aiData "payload") "data")
       then get (get aiData "payload") "data"
  else get aiData "payload".

Section CameraView.

Variable StringToNumber : string -> number.
Variable NumberToString : number -> string.

(** [ws.onmessage], as far as [aiData] goes; the frame count and the FPS
    counter are left out.  [message] is what [JSON.parse(event.data)]
    gives, [Throw] when it throws, and [image] tells whether
    [imgRef.current] is set.  Reading [data.type] throws on [null], and
    so may the template literal on [data.data]: the [catch] then leaves
    the state as it was.  A message that is not a frame with data is
    ignored; a frame ends in [setAiData(data.ai_data || null)]. *)
Definition onmessage (image : bool) (aiData : value) (message : result value) : value :=
  match message with
  | Throw => aiData
  | Ok data =>
      if nullish data then aiData
      else if is_frame data then
        match (if image then ToString NumberToString (get data "data") else Ok "") with
        | Throw => aiData
        | Ok _ => or_else (get data "ai_data") VNull
        end
      else aiData
  end.

(** The [detections] memo. *)
Definition detections (aiData : value) : result (list Detection) :=
  parseDetections StringToNumber NumberToString (inferenceSource aiData).



(** [l.join(separator)]: null and undefined elements give the empty
    string, the others their ToString. *)
Fixpoint join (separator : string) (l : list value) : result string :=
  match l with
  | [] => Ok ""
  | x :: r =>
      s <- (if nullish x then Ok "" else ToString NumberToString x) ;;
      match r with
      | [] => Ok s
      | _ => t <- join separator r ;; Ok (s ++ separator ++ t)
      end
  end.


End CameraView.

(** The geometry of the drawing effect, for one detection on a canvas of
    the given size: the rectangle handed to [strokeRect] and the anchor
    handed to [fillText]. *)
Definition rect_x (b : Box) (width : number) : number := mul (box_x b) width.
Definition rect_y (b : Box) (height : number) : number := mul (box_y b) height.
Definition rect_w (b : Box) (width : number) : number := mul (box_width b) width.
Definition rect_h (b : Box) (height : number) : number := mul (box_height b) height.

(** [Math.min(Math.max(x, 4), width - 4)] *)
Definition textX (x width : number) : number :=
  Num.min (Num.max x (of_Z 4)) (sub width (of_Z 4)).

(** [y > 12 ? y - 6 : Math.min(y + 12, height - 4)] *)
Definition textY (y height : number) : number :=
  if gt y (of_Z 12) then sub y (of_Z 6)
  else Num.min (add y (of_Z 12)) (sub height (of_Z 4)).

(** ** The analysis request of [CameraView]

    [handleOpenAIAnalysis] is an async function: everything up to the
    [fetch] runs when the button is clicked, the rest when the response
    settles.  An effect resets the three state variables when the camera
    or the source of the inference changes. *)

Module Analysis.

Local Open Scope nat_scope.

Inductive Status : Type := idle | loading | done | error.

Record State : Type :=
  { analysisStatus : Status;
    analysisResult : value;             (* null until a response is stored *)
    analysisError : option string;
    pending : nat }.                    (* requests sent and not yet settled *)

Inductive Event : Type :=
| Click (prompt_throws : bool)  (* the button; [buildOpenAIPrompt] may throw *)
| Resolved (data : value)       (* the response was ok and its body parsed *)
| Rejected (message : string)   (* network failure, bad status or bad body *)
| Reset.                        (* [cameraId] or [aiSource] changed *)

Definition initial : State :=
  {| analysisStatus := idle; analysisResult := VNull; analysisError := None;
     pending := 0 |}.

(** The synchronous part of [handleOpenAIAnalysis]. *)
Definition handleOpenAIAnalysis (prompt_throws : bool) (s : State) : State :=
  match analysisStatus s with
  | loading => s
  | _ =>
      {| analysisStatus := loading; analysisResult := VNull; analysisError := None;
         pending := if prompt_throws then pending s else S (pending s) |}
  end.

(** [err?.message || 'Unknown error'] *)
Definition message_or_unknown (message : string) : string :=
  if String.eqb message "" then "Unknown error"%string else message.

Definition step (s : State) (e : Event) : option State :=
  match e with
  | Click prompt_throws => Some (handleOpenAIAnalysis prompt_throws s)
  | Resolved data =>
      match pending s with
      | O => None
      | S n =>
          Some {| analysisStatus := done; analysisResult := data;
                  analysisError := analysisError s; pending := n |}
      end
  | Rejected message =>
      match pending s with
      | O => None
      | S n =>
          Some {| analysisStatus := error; analysisResult := analysisResult s;
                  analysisError := Some (message_or_unknown message); pending := n |}
      end
  | Reset =>
      Some {| analysisStatus := idle; analysisResult := VNull; analysisError := None;
              pending := pending s |}
  end.

Fixpoint run (s : State) (trace : list Event) : option State :=
  match trace with
  | [] => Some s
  | e :: r => match step s e with Some s' => run s' r | None => None end
  end.

(** The resets of a trace. *)
Definition resets (trace : list Event) : nat :=
  List.length (filter (fun e => match e with Reset => true | _ => false end) trace).

End Analysis.

(** ** The device panel

    [DeviceInfo] polls [/device-info] every ten seconds and colours the
    temperature and the memory use by thresholds. *)

Module DeviceInfo.

Section Colors.

Variable StringToNumber : string -> number.
Variable NumberToString : number -> string.

(** [v < n] against a number literal: the left operand goes through
    ToNumber, and the comparison is false as soon as it is NaN. *)
Definition less_than (v : value) (n : number) : result bool :=
  x <- ToNumber StringToNumber NumberToString v ;; Ok (lt x n).

Definition getTempColor (temp : value) : result string :=
  if negb (truthy temp) then Ok "text-gray-400"
  else
    below <- less_than temp (of_Z 60) ;;
    if below : bool then Ok "text-green-400"
    else
      below <- less_than temp (of_Z 75) ;;
      if below : bool then Ok "text-yellow-400" else Ok "text-red-400".

Definition getMemoryColor (percent : value) : result string :=
  if negb (truthy percent) then Ok "text-gray-400"
  else
    below <- less_than percent (of_Z 70) ;;
    if below : bool then Ok "text-green-400"
    else
      below <- less_than percent (of_Z 85) ;;
      if below : bool then Ok "text-yellow-400" else Ok "text-red-400".

(** What the two functions share: grey for a falsy reading, then a lower
    and an upper threshold. *)
Definition banded (lo hi : number) (v : value) : result string :=
  if negb (truthy v) then Ok "text-gray-400"
  else
    n <- ToNumber StringToNumber NumberToString v ;;
    Ok (if lt n lo then "text-green-400"
        else if lt n hi then "text-yellow-400" else "text-red-400").

End Colors.

(** *** Two cells of the panel *)

Section Cells.

Variable NumberToString : number -> string.
(** [Number.prototype.toFixed] at two digits, the engine's. *)
Variable toFixed : number -> string.

(** [v !== null] *)
Definition not_null (v : value) : bool :=
  match v with VNull => false | _ => true end.

(** The two UTF-8 bytes of the degree sign, then [C]. *)
Definition degrees_C : string := String "194" (String "176" "C").

(** [deviceInfo.cpu_temp_c !== null ? `${deviceInfo.cpu_temp_c}°C` : 'N/A'] *)
Definition tempText (deviceInfo : value) : result string :=
  let cpu_temp_c := get deviceInfo "cpu_temp_c" in
  if not_null cpu_temp_c
  then s <- ToString NumberToString cpu_temp_c ;; Ok (s ++ degrees_C)
  else Ok "N/A".

(** [deviceInfo.cpu_load !== null ? deviceInfo.cpu_load.toFixed(2) : 'N/A']:
    reading [toFixed] of undefined throws, and on a string, a boolean, an
    array or an object parsed from JSON the property is undefined or not
    callable, so the call throws as well. *)
Definition cpuLoadText (deviceInfo : value) : result string :=
  let cpu_load := get deviceInfo "cpu_load" in
  if not_null cpu_load
  then match cpu_load with
       | VNum n => Ok (toFixed n)
       | _ => Throw
       end
  else Ok "N/A".

End Cells.

(** How alarming a colour class is. *)
Definition severity (cls : string) : nat :=
  if String.eqb cls "text-red-400" then 3
  else if String.eqb cls "text-yellow-400" then 2
  else if String.eqb cls "text-green-400" then 1
  else 0.

(** *** The address polled *)

(** [s.startsWith(p)] *)
Fixpoint startsWith (s p : string) {struct p} : bool :=
  match p with
  | EmptyString => true
  | String a p' =>
      match s with
      | EmptyString => false
      | String b s' => Ascii.eqb a b && startsWith s' p'
      end
  end.

Fixpoint skip (n : nat) (s : string) : string :=
  match n, s with
  | O, _ => s
  | S n, String _ r => skip n r
  | S _, EmptyString => EmptyString
  end.

(** [s.replace(pattern, replacement)] for a string pattern: the first
    occurrence only (the replacements of the source hold no [$]). *)
Fixpoint replace (pattern replacement s : string) : string :=
  if startsWith s pattern then replacement ++ skip (String.length pattern) s
  else match s with
       | EmptyString => EmptyString
       | String c r => String c (replace pattern replacement r)
       end.

(** [s.split(separator)[0]] for a non-empty separator: what precedes its
    first occurrence, or all of [s]. *)
Fixpoint split_head (separator s : string) : string :=
  if startsWith s separator then EmptyString
  else match s with
       | EmptyString => EmptyString
       | String c r => String c (split_head separator r)
       end.

(** A variable of [import.meta.env] is a string or undefined; the empty
    string is falsy too. *)
Definition env_or (variable : option string) (default : string) : string :=
  match variable with
  | Some s => if String.eqb s "" then default else s
  | None => default
  end.

(** [import.meta.env.VITE_WS_URL || `ws://${window.location.host}/ws`] *)
Definition wsUrl (VITE_WS_URL : option string) (host : string) : string :=
  env_or VITE_WS_URL ("ws://" ++ host ++ "/ws").

Definition baseUrl (VITE_API_URL VITE_WS_URL : option string) (host : string) : string :=
  env_or VITE_API_URL
    (let wsUrl := wsUrl VITE_WS_URL host in
     if startsWith wsUrl "ws://"
     then split_head "/ws" (replace "ws://" "http://" wsUrl)
     else if startsWith wsUrl "wss://"
     then split_head "/ws" (replace "wss://" "https://" wsUrl)
     else "http://" ++ host).

(** [`${baseUrl}/device-info`] *)
Definition url (VITE_API_URL VITE_WS_URL : option string) (host : string) : string :=
  baseUrl VITE_API_URL VITE_WS_URL host ++ "/device-info".

(** No [/] in a host name. *)
Fixpoint no_slash (s : string) : bool :=
  match s with
  | EmptyString => true
  | String c r => negb (Ascii.eqb c "/") && no_slash r
  end.

(** *** The polling effect *)

Local Open Scope nat_scope.

Record State : Type :=
  { deviceInfo : value;            (* null until a response is stored *)
    loading : bool;
    error : option string;         (* [err.message], or null *)
    interval : bool;               (* the interval is set and not cleared *)
    pending : nat;                 (* requests sent and not yet settled *)
    fetches : nat }.               (* calls of [fetchDeviceInfo] so far *)

Inductive Event : Type :=
| Interval                   (* ten seconds passed: the interval calls back *)
| Resolved (data : value)    (* the response was ok and its body parsed *)
| Rejected (message : string) (* network failure, bad status or bad body *)
| Unmount.                   (* React runs the cleanup *)

(** The part of [fetchDeviceInfo] that runs at the call: the request is
    sent. *)
Definition fetchDeviceInfo (s : State) : State :=
  {| deviceInfo := deviceInfo s; loading := loading s; error := error s;
     interval := interval s; pending := S (pending s); fetches := S (fetches s) |}.

(** The effect on mount: fetch at once, then every ten seconds. *)
Definition mount : State :=
  fetchDeviceInfo
    {| deviceInfo := VNull; loading := true; error := None; interval := true;
       pending := 0; fetches := 0 |}.

Definition step (s : State) (e : Event) : option State :=
  match e with
  | Interval => if interval s then Some (fetchDeviceInfo s) else None
  | Resolved data =>
      match pending s with
      | O => None
      | S n =>
          Some {| deviceInfo := data; loading := false; error := None;
                  interval := interval s; pending := n; fetches := fetches s |}
      end
  | Rejected message =>
      match pending s with
      | O => None
      | S n =>
          Some {| deviceInfo := deviceInfo s; loading := false; error := Some message;
                  interval := interval s; pending := n; fetches := fetches s |}
      end
  | Unmount =>
      if interval s
      then Some {| deviceInfo := deviceInfo s; loading := loading s; error := error s;
                   interval := false; pending := pending s; fetches := fetches s |}
      else None
  end.

Fixpoint run (s : State) (trace : list Event) : option State :=
  match trace with
  | [] => Some s
  | e :: r => match step s e with Some s' => run s' r | None => None end
  end.

(** A response settled, well or badly. *)
Definition settled (e : Event) : bool :=
  match e with Resolved _ | Rejected _ => true | _ => false end.

(** What the component returns. *)
Inductive View : Type :=
| Spinner
| ErrorBox (message : string)
| Nothing
| Panel (info : value).

Definition render (s : State) : View :=
  if loading s then Spinner
  else match error s with
       | Some message =>
           if negb (String.eqb message "") then ErrorBox message
           else if negb (truthy (deviceInfo s)) then Nothing else Panel (deviceInfo s)
       | None => if negb (truthy (deviceInfo s)) then Nothing else Panel (deviceInfo s)
       end.

End DeviceInfo.

(** ** More vocabulary for the viewer session *)

Module Lifecycle.

Import Session.
Local Open Scope nat_scope.

(** A socket that has not reached CLOSED: it can still call back. *)
Definition live (r : ReadyState) : bool :=
  match r with CLOSED => false | _ => true end.

(** The transports that closed in a trace. *)
Definition closes (trace : list Event) : nat :=
  List.length (filter (fun e => match e with Closed _ => true | _ => false end) trace).

(** What holds of the state after every event: only the newest socket can
    be live, and then no timeout is pending; at most one timeout is
    pending; [wsRef] holds the newest socket; [connected] is set only
    while that socket is live and, before the cleanup, exactly while it
    is OPEN; no socket is CLOSING before the cleanup. *)
Definition invariant (s : State) : Prop :=
  (forall i r, nth_error (sockets s) i = Some r -> live r = true ->
               S i = List.length (sockets s) /\ timers s = []) /\
  List.length (timers s) <= 1 /\
  match wsRef s with
  | Some ws => S ws = List.length (sockets s)
  | None => sockets s = []
  end /\
  (connected s = true ->
   exists ws r, wsRef s = Some ws /\ nth_error (sockets s) ws = Some r /\ live r = true) /\
  (unmounted s = false -> forall i, nth_error (sockets s) i <> Some CLOSING) /\
  (unmounted s = false ->
   (connected s = true <->
    exists ws, wsRef s = Some ws /\ nth_error (sockets s) ws = Some OPEN)).

End Lifecycle.

(** ** More vocabulary for the normalizer *)

(** Indices that grow strictly. *)
Fixpoint increasing (l : list nat) : bool :=
  match l with
  | a :: (b :: _) as r => (a <? b)%nat && increasing r
  | _ => true
  end.

(** ** Payloads of the examples *)

Module Sample.

Definition int (z : Z) : value := VNum (of_Z z).

(** An engine for the closed examples; none of them converts a string. *)
Definition StringToNumber (s : string) : number := NaN.
Definition NumberToString (n : number) : string := "NaN".

(** [{"boxes":[[100,50,40,40,0,0.91]],"labels":["person"],"resolution":[1280,720]}] *)
Definition hailo_payload : value :=
  VObj [("boxes", VArr [VArr [int 100; int 50; int 40; int 40; int 0;
                              VNum (of_ratio 91 100)]]);
        ("labels", VArr [VStr "person"]);
        ("resolution", VArr [int 1280; int 720])].

(** [{"x1":10,"y1":10,"x2":110,"y2":60}] *)
Definition corner_entry : value :=
  VObj [("x1", int 10); ("y1", int 10); ("x2", int 110); ("y2", int 60)].

(** [{"x1":110,"y1":10,"x2":10,"y2":60}]: the corners swapped along x. *)
Definition swapped_entry : value :=
  VObj [("x1", int 110); ("y1", int 10); ("x2", int 10); ("y2", int 60)].

(** [{"cx":0.5,"cy":0.25,"width":0.5,"height":0.25}] *)
Definition center_entry : value :=
  VObj [("cx", VNum (of_ratio 1 2)); ("cy", VNum (of_ratio 1 4));
        ("width", VNum (of_ratio 1 2)); ("height", VNum (of_ratio 1 4))].

(** [{"boxes":[[1,2,null,3]]}] and [{"detections":[[1,2,null,3]]}] *)
Definition null_width_box : value := VArr [int 1; int 2; VNull; int 3].
Definition null_width_boxes : value := VObj [("boxes", VArr [null_width_box])].
Definition null_width_detections : value := VObj [("detections", VArr [null_width_box])].

(** [{"boxes":[[1,2,{"toString":5},3]]}] *)
Definition opaque_width_boxes : value :=
  VObj [("boxes", VArr [VArr [int 1; int 2; VObj [("toString", int 5)]; int 3]])].

(** [{"boxes":[[1e999,0,0,0]],"resolution":[1e999,1e999]}]: [JSON.parse]
    reads the literal [1e999] as [Infinity]. *)
Definition infinite_payload : value :=
  VObj [("boxes", VArr [VArr [VNum Infinity; int 0; int 0; int 0]]);
        ("resolution", VArr [VNum Infinity; VNum Infinity])].


(** [{"detections":[{"x":0,"y":0,"width":1,"height":1,"confidence":87}]}] *)
Definition percent_payload : value :=
  VObj [("detections",
         VArr [VObj [("x", int 0); ("y", int 0); ("width", int 1); ("height", int 1);
                     ("confidence", int 87)]])].



End Sample.

(** ** More payloads *)

Module Frames.

(** [{"boxes":[[64,48,320,240],[0,0,64,48]],"labels":["car"],"resolution":[640,480]}] *)
Definition two_boxes : value :=
  VObj [("boxes", VArr [VArr [Sample.int 64; Sample.int 48; Sample.int 320; Sample.int 240];
                        VArr [Sample.int 0; Sample.int 0; Sample.int 64; Sample.int 48]]);
        ("labels", VArr [VStr "car"]);
        ("resolution", VArr [Sample.int 640; Sample.int 480])].

(** Three entries under [objects]: [{"x":0,"y":0,"w":1,"h":1}], then
    [{"x":"left"}], which has no box, then [{"bbox":[0,0,1,1]}] with an
    empty string as its [label]. *)
Definition three_objects : value :=
  VObj [("objects",
         VArr [VObj [("x", Sample.int 0); ("y", Sample.int 0);
                     ("w", Sample.int 1); ("h", Sample.int 1)];
               VObj [("x", VStr "left")];
               VObj [("bbox", VArr [Sample.int 0; Sample.int 0; Sample.int 1; Sample.int 1]);
                     ("label", VStr "")]])].

(** [{"timestamp":"2025-01-01T00:00:00Z","payload":{"inference":...}}] around
    [two_boxes]. *)
Definition ai_data : value :=
  VObj [("timestamp", VStr "2025-01-01T00:00:00Z");
        ("payload", VObj [("inference", two_boxes)])].

End Frames.

(** ** Facts about comparison and clamping of numbers *)

Module NumFacts.

Lemma one_of_Z : one = of_Z 1.
Proof. reflexivity. Qed.

Lemma compare_antisym (a b : number) :
  SFcompare a b = option_map CompOpp (SFcompare b a).
Proof.
  destruct a as [sa|sa| |sa ma ea], b as [sb|sb| |sb mb eb];
    try destruct sa; try destruct sb; simpl; try reflexivity.
  all: rewrite (Z.compare_antisym ea eb);
    destruct (ea ?= eb); simpl; try reflexivity;
    rewrite (Pos.compare_cont_antisym mb ma Eq); reflexivity.
Qed.

Lemma compare_refl (a : number) : isNaN a = false -> SFcompare a a = Some Eq.
Proof.
  destruct a as [s|s| |s m e]; try destruct s; simpl; try reflexivity; try discriminate;
    intros _; rewrite Z.compare_refl; now rewrite Pos.compare_cont_refl.
Qed.

Lemma compare_nan_iff (a b : number) :
  SFcompare a b = None <-> isNaN a = true \/ isNaN b = true.
Proof.
  destruct a as [sa|sa| |sa ma ea], b as [sb|sb| |sb mb eb]; simpl;
    split; intros H; try discriminate; auto;
    try (destruct H; discriminate).
Qed.

(** [!(b < a)] gives [a <= b] when neither is NaN. *)
Lemma not_lt_le (a b : number) :
  isNaN a = false -> isNaN b = false -> lt b a = false -> le a b = true.
Proof.
  unfold lt, le, SFltb, SFleb. intros Ha Hb.
  rewrite (compare_antisym a b).
  destruct (SFcompare b a) as [[]|] eqn:E; simpl; try reflexivity; try discriminate.
  apply compare_nan_iff in E. destruct E; congruence.
Qed.

Lemma lt_le (a b : number) : lt a b = true -> le a b = true.
Proof.
  unfold lt, le, SFltb, SFleb. now destruct (SFcompare a b) as [[]|].
Qed.

Lemma le_not_lt (a b : number) : le a b = true -> lt b a = false.
Proof.
  unfold lt, le, SFltb, SFleb. rewrite (compare_antisym b a).
  now destruct (SFcompare a b) as [[]|].
Qed.


Lemma le_not_nan_r (a b : number) : le a b = true -> isNaN b = false.
Proof. destruct a, b; auto. Qed.


Lemma isNaN_max (a b : number) :
  isNaN (Num.max a b) = isNaN a || isNaN b.
Proof.
  unfold Num.max.
  destruct (isNaN a) eqn:Ha; [reflexivity|].
  destruct (isNaN b) eqn:Hb; [reflexivity|]. simpl.
  destruct (is_pos_zero b && is_neg_zero a); [assumption|].
  now destruct (gt b a).
Qed.

Lemma isNaN_min (a b : number) :
  isNaN (Num.min a b) = isNaN a || isNaN b.
Proof.
  unfold Num.min.
  destruct (isNaN a) eqn:Ha; [reflexivity|].
  destruct (isNaN b) eqn:Hb; [reflexivity|]. simpl.
  destruct (is_neg_zero b && is_pos_zero a); [assumption|].
  now destruct (lt b a).
Qed.

Lemma isNaN_clamp01 (v : number) : isNaN (clamp01 v) = isNaN v.
Proof.
  unfold clamp01. rewrite isNaN_min, isNaN_max. simpl.
  now rewrite !orb_false_r.
Qed.

(** [Math.max(v, 0)] is [+0] or [v], and never below [0]. *)
Lemma max_zero_cases (v : number) :
  isNaN v = false ->
  (Num.max v zero = zero /\ le v zero = true) \/
  (Num.max v zero = v /\ le zero v = true /\ is_neg_zero v = false).
Proof.
  intros Hv. unfold Num.max. rewrite Hv. simpl.
  destruct (is_neg_zero v) eqn:Hz.
  - left. split; [reflexivity|]. destruct v as [[]| | |]; try discriminate. reflexivity.
  - destruct (gt zero v) eqn:Hg.
    + left. split; [reflexivity|]. now apply lt_le.
    + right. repeat split. now apply not_lt_le.
Qed.

(** The clamp lands in the unit interval whenever its argument is a
    number. *)
Lemma clamp01_in_unit (v : number) : isNaN v = false -> in_unit (clamp01 v).
Proof.
  intros Hv. unfold clamp01.
  assert (Hm : isNaN (Num.max v zero) = false) by (rewrite isNaN_max, Hv; reflexivity).
  assert (H0 : le zero (Num.max v zero) = true).
  { destruct (max_zero_cases v Hv) as [[-> _]|[-> [H _]]]; [reflexivity|assumption]. }
  set (m := Num.max v zero) in *.
  unfold Num.min. rewrite Hm. simpl.
  destruct (lt one m) eqn:Hl.
  - split; reflexivity.
  - split; [assumption|]. now apply not_lt_le.
Qed.



End NumFacts.

(** ** Subtraction and division never invent a NaN on finite operands *)

Module RoundFacts.

Lemma shr_1_nonneg (mrs : shr_record) : 0 <= shr_m mrs -> 0 <= shr_m (shr_1 mrs).
Proof.
  destruct mrs as [m r s]. destruct m as [|[p|p|]|[p|p|]]; simpl; lia.
Qed.

Lemma iter_shr_1_nonneg (p : positive) :
  forall mrs, 0 <= shr_m mrs -> 0 <= shr_m (iter_pos shr_1 p mrs).
Proof.
  induction p as [p IH|p IH|]; simpl; intros mrs H.
  - apply IH, IH. now apply shr_1_nonneg.
  - now apply IH, IH.
  - now apply shr_1_nonneg.
Qed.

Lemma shr_fexp_nonneg (m e : Z) (l : location) :
  0 <= m -> 0 <= shr_m (fst (shr_fexp prec emax m e l)).
Proof.
  intros H. unfold shr_fexp, shr.
  assert (H0 : 0 <= shr_m (shr_record_of_loc m l)) by (destruct l as [|[]]; exact H).
  destruct (fexp prec emax (Zdigits2 m + e) - e); simpl; try assumption.
  now apply iter_shr_1_nonneg.
Qed.

Lemma round_nearest_even_nonneg (m : Z) (l : location) :
  0 <= m -> 0 <= round_nearest_even m l.
Proof.
  intros H. destruct l as [|[]]; simpl; try lia. destruct (Z.even m); lia.
Qed.

(** Rounding a nonnegative mantissa gives a number of the requested sign. *)
Lemma binary_round_aux_signed (s : bool) (m e : Z) (l : location) :
  0 <= m -> signed_as s (binary_round_aux prec emax s m e l).
Proof.
  intros H. unfold binary_round_aux.
  pose proof (shr_fexp_nonneg m e l H) as H1.
  destruct (shr_fexp prec emax m e l) as [mrs' e']. simpl in H1.
  pose proof (shr_fexp_nonneg _ e' loc_Exact
                (round_nearest_even_nonneg _ (loc_of_shr_record mrs') H1)) as H2.
  destruct (shr_fexp prec emax (round_nearest_even (shr_m mrs') (loc_of_shr_record mrs'))
              e' loc_Exact) as [mrs'' e'']. simpl in H2.
  destruct (shr_m mrs'') as [|q|q]; [reflexivity| |lia].
  destruct (e'' <=? emax - prec); reflexivity.
Qed.

Lemma binary_round_signed (s : bool) (m : positive) (e : Z) :
  signed_as s (binary_round prec emax s m e).
Proof.
  unfold binary_round.
  destruct (shl_align m e (fexp prec emax (Z.pos (digits2_pos m) + e))) as [mz ez].
  apply binary_round_aux_signed. lia.
Qed.

(** The quotient of two finite numbers is not NaN. *)
Lemma div_finite_signed (sx sy : bool) (mx my : positive) (ex ey : Z) :
  signed_as (xorb sx sy) (div (S754_finite sx mx ex) (S754_finite sy my ey)).
Proof.
  unfold div, SFdiv, SFdiv_core_binary.
  set (e' := Z.min _ _). set (m' := match _ with Z0 => _ | _ => _ end).
  assert (Hm : 0 <= m').
  { subst m'. destruct (ex - ey - e'); try lia. apply Z.shiftl_nonneg. lia. }
  pose proof (Z_div_mod m' (Z.pos my) eq_refl) as Hd.
  destruct (Z.div_eucl m' (Z.pos my)) as [q r].
  apply binary_round_aux_signed. nia.
Qed.

Lemma signed_not_nan (s : bool) (r : number) : signed_as s r -> isNaN r = false.
Proof. destruct r; simpl; auto. contradiction. Qed.

(** [Math.max(r, 0)] is [+0] as soon as [r] carries the minus sign. *)
Lemma max_negative (r : number) : signed_as true r -> Num.max r zero = zero.
Proof.
  destruct r as [s|s| |s m e]; simpl; intros H; try contradiction; subst; reflexivity.
Qed.

(** *** The sign of a difference *)

Lemma iter_xO_pow (m d : positive) : Z.pos (Pos.iter xO m d) = Z.pos m * 2 ^ Z.pos d.
Proof.
  induction d as [|d IH] using Pos.peano_ind.
  - simpl. lia.
  - rewrite Pos.iter_succ, Pos2Z.inj_succ, Z.pow_succ_r by lia.
    rewrite Pos2Z.inj_xO, IH. lia.
Qed.

Lemma shl_align_fst (m : positive) (e ez : Z) :
  ez <= e -> Z.pos (fst (shl_align m e ez)) = Z.pos m * 2 ^ (e - ez).
Proof.
  intros H. unfold shl_align. destruct (ez - e) as [|d|d] eqn:E; simpl.
  - replace (e - ez) with 0 by lia. rewrite Z.pow_0_r. lia.
  - lia.
  - replace (e - ez) with (Z.pos d) by lia. apply iter_xO_pow.
Qed.

Lemma digits2_pos_bounds (m : positive) :
  2 ^ (Z.pos (digits2_pos m) - 1) <= Z.pos m < 2 ^ Z.pos (digits2_pos m).
Proof.
  induction m as [m IH|m IH|]; simpl digits2_pos.
  - rewrite Pos2Z.inj_succ, Z.pow_succ_r by lia.
    replace (Z.succ (Z.pos (digits2_pos m)) - 1)
      with (Z.succ (Z.pos (digits2_pos m) - 1)) by lia.
    rewrite Z.pow_succ_r by lia. lia.
  - rewrite Pos2Z.inj_succ, Z.pow_succ_r by lia.
    replace (Z.succ (Z.pos (digits2_pos m)) - 1)
      with (Z.succ (Z.pos (digits2_pos m) - 1)) by lia.
    rewrite Z.pow_succ_r by lia. lia.
  - simpl. lia.
Qed.

(** A canonical mantissa has at most 53 bits, and exactly 53 above the
    smallest exponent. *)
Lemma bounded_digits (m : positive) (e : Z) :
  bounded prec emax m e = true ->
  - 1074 <= e /\ Z.pos (digits2_pos m) <= 53 /\
  (- 1074 < e -> Z.pos (digits2_pos m) = 53).
Proof.
  unfold bounded, canonical_mantissa, fexp, SpecFloat.emin, prec, emax.
  intros H. apply andb_true_iff in H. destruct H as [H _].
  apply Z.eqb_eq in H. lia.
Qed.

(** With canonical mantissas, the order on (exponent, mantissa) is the
    order of the mantissas aligned on the smaller exponent. *)
Lemma aligned_lt (ma mb : positive) (ea eb : Z) :
  bounded prec emax ma ea = true -> bounded prec emax mb eb = true ->
  ea < eb \/ (ea = eb /\ (ma < mb)%positive) ->
  Z.pos (fst (shl_align ma ea (Z.min ea eb))) < Z.pos (fst (shl_align mb eb (Z.min ea eb))).
Proof.
  intros Ha Hb H.
  apply bounded_digits in Ha. apply bounded_digits in Hb.
  rewrite !shl_align_fst by lia.
  destruct H as [H|[-> H]].
  - rewrite Z.min_l by lia. rewrite Z.sub_diag, Z.mul_1_r.
    pose proof (digits2_pos_bounds ma) as Da.
    pose proof (digits2_pos_bounds mb) as Db.
    destruct Ha as [Ha1 [Ha2 _]]. destruct Hb as [_ [_ Hb3]].
    rewrite Hb3 in Db by lia. change (2 ^ (53 - 1)) with 4503599627370496 in Db.
    assert (Z.pos ma < 2 ^ 53).
    { eapply Z.lt_le_trans; [apply Da|]. apply Z.pow_le_mono_r; lia. }
    change (2 ^ 53) with 9007199254740992 in *.
    assert (2 ^ 1 <= 2 ^ (eb - ea)) by (apply Z.pow_le_mono_r; lia).
    change (2 ^ 1) with 2 in *. nia.
  - rewrite Z.min_id, Z.sub_diag. lia.
Qed.

Lemma compare_cont_lt (ma mb : positive) :
  Pos.compare_cont Eq ma mb = Lt -> (ma < mb)%positive.
Proof. intros H. exact H. Qed.

Lemma compare_cont_gt (ma mb : positive) :
  Pos.compare_cont Eq ma mb = Gt -> (mb < ma)%positive.
Proof. intros H. apply Pos.gt_lt. exact H. Qed.

Lemma sub_finite (sa sb : bool) (ma mb : positive) (ea eb : Z) :
  sub (S754_finite sa ma ea) (S754_finite sb mb eb) =
  binary_normalize prec emax
    (cond_Zopp sa (Z.pos (fst (shl_align ma ea (Z.min ea eb))))
     - cond_Zopp sb (Z.pos (fst (shl_align mb eb (Z.min ea eb)))))
    (Z.min ea eb) false.
Proof. reflexivity. Qed.

Lemma binary_normalize_neg (z e : Z) :
  z < 0 -> signed_as true (binary_normalize prec emax z e false).
Proof.
  intros H. destruct z as [|q|q]; try lia. apply binary_round_signed.
Qed.

Lemma binary_normalize_not_nan (z e : Z) :
  isNaN (binary_normalize prec emax z e false) = false.
Proof.
  destruct z as [|q|q]; [reflexivity| |];
    eapply signed_not_nan; apply binary_round_signed.
Qed.

(** [a < b] makes [a - b] a number with the minus sign. *)
Lemma sub_lt_signed (a b : number) :
  binary64 a -> binary64 b -> lt a b = true -> signed_as true (sub a b).
Proof.
  unfold binary64, lt, SFltb.
  destruct a as [sa|sa| |sa ma ea], b as [sb|sb| |sb mb eb];
    try (try destruct sa; try destruct sb; simpl; intros Ha Hb H;
         try discriminate; reflexivity).
  intros Ha Hb H. simpl in Ha, Hb, H.
  rewrite sub_finite. apply binary_normalize_neg.
  destruct sa, sb; cbn [cond_Zopp]; try discriminate.
  - (* both negative *)
    assert (Hlt : Z.pos (fst (shl_align mb eb (Z.min eb ea)))
                  < Z.pos (fst (shl_align ma ea (Z.min eb ea)))).
    { apply aligned_lt; try assumption.
      destruct (ea ?= eb) eqn:E; try discriminate.
      - right. apply Z.compare_eq in E. split; [auto|].
        destruct (Pos.compare_cont Eq ma mb) eqn:E'; try discriminate.
        now apply compare_cont_gt.
      - left. apply Z.compare_gt_iff in E. lia. }
    rewrite (Z.min_comm eb ea) in Hlt. lia.
  - (* negative minus positive *)
    lia.
  - (* both positive *)
    assert (Hlt : Z.pos (fst (shl_align ma ea (Z.min ea eb)))
                  < Z.pos (fst (shl_align mb eb (Z.min ea eb)))).
    { apply aligned_lt; try assumption.
      destruct (ea ?= eb) eqn:E; try discriminate.
      - right. apply Z.compare_eq in E. split; [auto|].
        destruct (Pos.compare_cont Eq ma mb) eqn:E'; try discriminate.
        now apply compare_cont_lt.
      - left. now apply Z.compare_lt_iff in E. }
    lia.
Qed.

(** The difference of two numbers is NaN only for NaN operands and for
    two infinities of the same sign. *)
Lemma sub_not_nan (a b : number) :
  isNaN a = false -> isNaN b = false ->
  (forall s, a = S754_infinity s -> b = S754_infinity s -> False) ->
  isNaN (sub a b) = false.
Proof.
  destruct a as [sa|sa| |sa ma ea], b as [sb|sb| |sb mb eb];
    try rewrite sub_finite;
    try destruct sa; try destruct sb; intros Ha Hb H;
    try discriminate; try reflexivity;
    try (exfalso; eapply H; reflexivity).
  all: apply binary_normalize_not_nan.
Qed.

End RoundFacts.

(** ** Lists, [map] with a throwing callback, and [filter(Boolean)] *)

Section ListFacts.

Context {A B : Type}.

Lemma mapM_length (f : A -> result B) (xs : list A) (ys : list B) :
  mapM f xs = Ok ys -> List.length ys = List.length xs.
Proof.
  revert ys. induction xs as [|x xs IH]; simpl; intros ys H.
  - now inversion H.
  - destruct (f x) as [y|]; simpl in H; [|discriminate].
    destruct (mapM f xs) as [zs|]; simpl in H; [|discriminate].
    inversion H; subst. simpl. now rewrite (IH zs).
Qed.

Lemma mapM_In (f : A -> result B) (xs : list A) (ys : list B) (x : A) :
  mapM f xs = Ok ys -> In x xs -> exists y, f x = Ok y /\ In y ys.
Proof.
  revert ys. induction xs as [|a xs IH]; simpl; intros ys H Hin; [contradiction|].
  destruct (f a) as [y|] eqn:Ea; simpl in H; [|discriminate].
  destruct (mapM f xs) as [zs|]; simpl in H; [|discriminate].
  inversion H; subst. destruct Hin as [->|Hin].
  - exists y. split; [assumption|now left].
  - destruct (IH zs eq_refl Hin) as [y' [Hy Hy']]. exists y'. split; [assumption|now right].
Qed.

Lemma mapM_In_inv (f : A -> result B) (xs : list A) (ys : list B) (y : B) :
  mapM f xs = Ok ys -> In y ys -> exists x, In x xs /\ f x = Ok y.
Proof.
  revert ys. induction xs as [|a xs IH]; simpl; intros ys H Hin.
  - inversion H; subst. contradiction.
  - destruct (f a) as [b|] eqn:Ea; simpl in H; [|discriminate].
    destruct (mapM f xs) as [zs|]; simpl in H; [|discriminate].
    inversion H; subst. destruct Hin as [->|Hin].
    + exists a. split; [now left|assumption].
    + destruct (IH zs eq_refl Hin) as [x [Hx Hx']]. exists x. split; [now right|assumption].
Qed.

Lemma filter_some_length (l : list (option A)) :
  (List.length (filter_some l) <= List.length l)%nat.
Proof.
  induction l as [|[a|] l IH]; simpl; lia.
Qed.

Lemma filter_some_In (l : list (option A)) (a : A) :
  In a (filter_some l) <-> In (Some a) l.
Proof.
  induction l as [|[b|] l IH]; simpl.
  - tauto.
  - rewrite IH. split; intros [H|H]; auto; left; congruence.
  - rewrite IH. split; [auto|]. intros [H|H]; [discriminate|assumption].
Qed.

Lemma indexed_from_length (k : nat) (xs : list A) :
  List.length (indexed_from k xs) = List.length xs.
Proof.
  revert k. induction xs as [|x xs IH]; simpl; intros k; [reflexivity|]. now rewrite IH.
Qed.

Lemma indexed_from_In (k i : nat) (xs : list A) (x : A) :
  In (i, x) (indexed_from k xs) <-> (k <= i)%nat /\ nth_error xs (i - k) = Some x.
Proof.
  revert k. induction xs as [|a xs IH]; simpl; intros k.
  - split; [contradiction|]. intros [_ H]. now destruct (i - k)%nat.
  - rewrite IH. split.
    + intros [H|[Hk H]].
      * inversion H; subst. split; [lia|]. now rewrite Nat.sub_diag.
      * split; [lia|]. replace (i - k)%nat with (S (i - S k)) by lia. assumption.
    + intros [Hk H]. destruct (i - k)%nat as [|n] eqn:E.
      * left. inversion H; subst. f_equal. lia.
      * right. split; [lia|]. replace (i - S k)%nat with n by lia. assumption.
Qed.

Lemma indexed_In (i : nat) (xs : list A) (x : A) :
  In (i, x) (indexed xs) <-> nth_error xs i = Some x.
Proof.
  unfold indexed. rewrite indexed_from_In, Nat.sub_0_r.
  split; [now intros [_ H]|]. intros H. split; [lia|assumption].
Qed.

End ListFacts.

(** ** What the steps of the normalizer compute *)

Section NormalizerFacts.

Variable StringToNumber : string -> number.
Variable NumberToString : number -> string.

Abbreviation normalize := (normalizeBBox StringToNumber NumberToString).
Abbreviation extract := (extractBoxFromCandidate StringToNumber NumberToString).
Abbreviation ofBox := (detection_of_box StringToNumber NumberToString).
Abbreviation ofCandidate := (detection_of_candidate StringToNumber NumberToString).
Abbreviation build := (buildDetectionsFromInference StringToNumber NumberToString).
Abbreviation parse := (parseDetections StringToNumber NumberToString).

(** [normalizeValue] on a number: the three [return] statements are the
    same clamp, of the quotient when the dimension exceeds [1] and of the
    value itself otherwise. *)
Lemma normalizeValue_num (n : number) (dimension : value) :
  normalizeValue (VNum n) dimension =
  if isNaN n then None
  else Some (clamp01 (scaled n dimension)).
Proof.
  unfold normalizeValue, clamp01, scaled.
  destruct (isNaN n); [reflexivity|].
  destruct (gt (safeDimension dimension) one); [reflexivity|].
  now destruct (le n one).
Qed.

Lemma normalizeValue_some_num (v dimension : value) (r : number) :
  normalizeValue v dimension = Some r -> exists n, v = VNum n /\ isNaN n = false.
Proof.
  destruct v as [| | |n| | |]; try discriminate.
  simpl. destruct (isNaN n) eqn:E; [discriminate|]. intros _. now exists n.
Qed.


Lemma safeDimension_default : safeDimension DEFAULT_FRAME_DIMENSION = one.
Proof. reflexivity. Qed.

Lemma math_max0_num (w : number) :
  math_max0 StringToNumber NumberToString (VNum w) = Ok (Num.max w zero).
Proof. reflexivity. Qed.

(** [normalizeBBox] on four numbers. *)
Lemma normalizeBBox_numbers (x y w h : number) (frameSize : FrameSize) :
  isNaN x = false -> isNaN y = false -> isNaN w = false -> isNaN h = false ->
  normalize (Some {| raw_x := VNum x; raw_y := VNum y;
                    raw_width := VNum w; raw_height := VNum h |}) frameSize =
  Ok (Some {| box_x := clamp01 (scaled x (fs_width frameSize));
              box_y := clamp01 (scaled y (fs_height frameSize));
              box_width := clamp01 (scaled (Num.max w zero) (fs_width frameSize));
              box_height := clamp01 (scaled (Num.max h zero) (fs_height frameSize)) |}).
Proof.
  intros Hx Hy Hw Hh. unfold normalizeBBox. cbn [raw_x raw_y raw_width raw_height].
  rewrite !math_max0_num. cbn [bind].
  rewrite !normalizeValue_num, Hx, Hy.
  rewrite !NumFacts.isNaN_max, Hw, Hh. reflexivity.
Qed.



(** Whatever [extractBoxFromCandidate] finds holds four numbers, none NaN
    when it comes from an object. *)
Lemma extract_some_numbers (candidate : value) (b : BBox) :
  extract candidate = Ok (Some b) ->
  typeof_number (raw_x b) = true /\ typeof_number (raw_y b) = true /\
  typeof_number (raw_width b) = true /\ typeof_number (raw_height b) = true.
Proof.
  unfold extractBoxFromCandidate.
  destruct (negb (truthy candidate)); [discriminate|].
  destruct (box_source candidate) as [| | | | |elems|props] eqn:Es; try discriminate.
  - destruct ((4 <=? List.length elems)%nat && forallb typeof_number (firstn 4 elems)) eqn:E;
      [|discriminate].
    intros H. inversion H; subst. clear H.
    apply andb_true_iff in E. destruct E as [Hlen Hall].
    apply Nat.leb_le in Hlen.
    destruct elems as [|a [|b' [|c [|d rest]]]]; simpl in Hlen; try lia.
    simpl in Hall. repeat (apply andb_true_iff in Hall; destruct Hall as [? Hall]).
    simpl. auto.
  - match goal with |- (bind ?W _) = _ -> _ => destruct W as [wv|]; [|discriminate] end.
    cbn [bind].
    match goal with |- (bind ?W _) = _ -> _ => destruct W as [hv|]; [|discriminate] end.
    cbn [bind].
    match goal with |- (if ?c then _ else _) = _ -> _ => destruct c eqn:E; [|discriminate] end.
    intros H. inversion H; subst. clear H. simpl in E.
    repeat (apply andb_true_iff in E; destruct E as [? E]).
    cbn [raw_x raw_y raw_width raw_height].
    repeat split;
      match goal with
      | H : is_real_number ?v = true |- typeof_number ?v = true =>
          destruct v; try discriminate; reflexivity
      end.
Qed.

(** On a box found by [extractBoxFromCandidate] the two paths agree. *)
Lemma bbox_of_box_extract (e : value) (b : BBox) :
  extract e = Ok (Some b) -> bbox_of_box StringToNumber NumberToString e = Ok (Some b).
Proof.
  intros H. destruct e as [| | | | |elems|props];
    try (unfold extractBoxFromCandidate in H;
         match type of H with (if ?c then _ else _) = _ => destruct c end;
         discriminate).
  - unfold bbox_of_box. destruct (4 <=? List.length elems)%nat eqn:E; [|assumption].
    unfold extractBoxFromCandidate in H. cbn -[Nat.leb forallb firstn] in H.
    rewrite E in H. cbn [andb] in H.
    destruct (forallb typeof_number (firstn 4 elems)); now inversion H.
  - assumption.
Qed.

End NormalizerFacts.

(** ** [parseDetections] as a filtered map over the entries *)

Section ParseFacts.

Variable StringToNumber : string -> number.
Variable NumberToString : number -> string.

Abbreviation ofBox := (detection_of_box StringToNumber NumberToString).
Abbreviation ofCandidate := (detection_of_candidate StringToNumber NumberToString).
Abbreviation build := (buildDetectionsFromInference StringToNumber NumberToString).
Abbreviation parse := (parseDetections StringToNumber NumberToString).

Lemma build_spec (p : value) :
  build p =
  (mapped <- mapM (ofBox p (inferFrameSize p)) (indexed (boxes_of p)) ;;
   Ok (filter_some mapped)).
Proof.
  unfold buildDetectionsFromInference, boxes_of.
  destruct (get p "boxes") as [| | | | |[|b boxes]|]; reflexivity.
Qed.

Lemma boxes_truthy (p : value) (i : nat) (e : value) :
  nth_error (boxes_of p) i = Some e -> truthy p = true.
Proof.
  destruct p; try reflexivity; unfold boxes_of; simpl; now destruct i.
Qed.

Lemma candidates_truthy (p : value) (i : nat) (e : value) :
  nth_error (candidates_of p) i = Some e -> truthy p = true.
Proof.
  destruct p; try reflexivity; unfold candidates_of; simpl; now destruct i.
Qed.

(** A detection built from a box is in the output. *)
Lemma parse_boxes_member (p : value) (i : nat) (e : value) (d : Detection)
  (ds : list Detection) :
  nth_error (boxes_of p) i = Some e ->
  ofBox p (inferFrameSize p) (i, e) = Ok (Some d) ->
  parse p = Ok ds -> In d ds.
Proof.
  intros Hn Hd. unfold parseDetections. rewrite (boxes_truthy _ _ _ Hn). cbn [negb].
  rewrite build_spec.
  destruct (mapM (ofBox p (inferFrameSize p)) (indexed (boxes_of p))) as [mapped|] eqn:Em;
    [|discriminate].
  cbn [bind].
  assert (Hin : In d (filter_some mapped)).
  { apply filter_some_In.
    destruct (mapM_In _ _ _ (i, e) Em) as [y [Hy Hy']]; [now apply indexed_In|].
    rewrite Hd in Hy. inversion Hy; subst. assumption. }
  destruct (filter_some mapped) as [|d0 l]; [contradiction|].
  intros H. inversion H; subst. exact Hin.
Qed.

(** A detection built from a candidate is in the output, when the boxes
    gave none. *)
Lemma parse_candidates_member (p : value) (i : nat) (e : value) (d : Detection)
  (ds : list Detection) :
  build p = Ok [] ->
  nth_error (candidates_of p) i = Some e ->
  ofCandidate (inferFrameSize p) (i, e) = Ok (Some d) ->
  parse p = Ok ds -> In d ds.
Proof.
  intros Hb Hn Hd. unfold parseDetections. rewrite (candidates_truthy _ _ _ Hn). cbn [negb].
  rewrite Hb. cbn [bind].
  destruct (mapM (ofCandidate (inferFrameSize p)) (indexed (candidates_of p)))
    as [mapped|] eqn:Em; [|discriminate].
  cbn [bind]. intros H. inversion H; subst.
  apply filter_some_In.
  destruct (mapM_In _ _ _ (i, e) Em) as [y [Hy Hy']]; [now apply indexed_In|].
  rewrite Hd in Hy. inversion Hy; subst. assumption.
Qed.

(** Every detection of the output was built from a box or from a
    candidate. *)
Lemma parse_inv (p : value) (ds : list Detection) (d : Detection) :
  parse p = Ok ds -> In d ds ->
  (exists i e, nth_error (boxes_of p) i = Some e /\
               ofBox p (inferFrameSize p) (i, e) = Ok (Some d)) \/
  (exists i e, nth_error (candidates_of p) i = Some e /\
               ofCandidate (inferFrameSize p) (i, e) = Ok (Some d)).
Proof.
  unfold parseDetections. destruct (negb (truthy p)).
  - intros H. inversion H; subst. contradiction.
  - rewrite build_spec.
    destruct (mapM (ofBox p (inferFrameSize p)) (indexed (boxes_of p))) as [mapped|] eqn:Em;
      [|discriminate].
    cbn [bind]. destruct (filter_some mapped) as [|d0 l] eqn:Ef.
    + destruct (mapM (ofCandidate (inferFrameSize p)) (indexed (candidates_of p)))
        as [mapped'|] eqn:Em'; [|discriminate].
      cbn [bind]. intros H Hin. inversion H; subst. right.
      apply filter_some_In in Hin.
      destruct (mapM_In_inv _ _ _ _ Em' Hin) as [[i e] [Hx Hx']].
      exists i, e. split; [now apply indexed_In|assumption].
    + intros H Hin. inversion H; subst. left.
      rewrite <- Ef in Hin. apply filter_some_In in Hin.
      destruct (mapM_In_inv _ _ _ _ Em Hin) as [[i e] [Hx Hx']].
      exists i, e. split; [now apply indexed_In|assumption].
Qed.

(** The output is no longer than the list it was built from. *)
Lemma parse_length (p : value) (ds : list Detection) :
  parse p = Ok ds ->
  (List.length ds <= Nat.max (List.length (boxes_of p)) (List.length (candidates_of p)))%nat.
Proof.
  unfold parseDetections. destruct (negb (truthy p)).
  - intros H. inversion H; subst. simpl. lia.
  - rewrite build_spec.
    destruct (mapM (ofBox p (inferFrameSize p)) (indexed (boxes_of p))) as [mapped|] eqn:Em;
      [|discriminate].
    cbn [bind]. pose proof (filter_some_length mapped) as Hl.
    apply mapM_length in Em. unfold indexed in Em. rewrite indexed_from_length in Em.
    destruct (filter_some mapped) as [|d0 l] eqn:Ef.
    + destruct (mapM (ofCandidate (inferFrameSize p)) (indexed (candidates_of p)))
        as [mapped'|] eqn:Em'; [|discriminate].
      cbn [bind]. intros H. inversion H; subst.
      pose proof (filter_some_length mapped') as Hl'.
      apply mapM_length in Em'. unfold indexed in Em'. rewrite indexed_from_length in Em'.
      lia.
    + intros H. inversion H; subst. lia.
Qed.

End ParseFacts.

(** ** Payloads on which nothing throws *)

(** Induction on values, with the elements and property values as
    induction hypotheses. *)
Lemma value_ind_nested (P : value -> Prop) :
  P VUndefined -> P VNull -> (forall b, P (VBool b)) -> (forall n, P (VNum n)) ->
  (forall s, P (VStr s)) ->
  (forall elems, Forall P elems -> P (VArr elems)) ->
  (forall props, Forall (fun kv => P (snd kv)) props -> P (VObj props)) ->
  forall v, P v.
Proof.
  intros Hu Hn Hb Hnum Hs Ha Ho.
  fix IH 1.
  intros [| |b|n|s|elems|props];
    [exact Hu | exact Hn | apply Hb | apply Hnum | apply Hs | | ].
  - apply Ha. induction elems as [|x l IHl]; constructor; [apply IH|exact IHl].
  - apply Ho. induction props as [|[k x] l IHl]; constructor; [apply IH|exact IHl].
Qed.

Lemma plain_lookup (k : string) (props : list (string * value)) (x : value) :
  forallb (fun kv => plain (snd kv)) props = true -> lookup k props = Some x ->
  plain x = true.
Proof.
  induction props as [|[k' y] props IH]; simpl; [discriminate|].
  intros H. apply andb_true_iff in H. destruct H as [Hy Hl].
  destruct (String.eqb k k'); [|now apply IH].
  intros E. now inversion E; subst.
Qed.

Lemma plain_get (v : value) (k : string) : plain v = true -> plain (get v k) = true.
Proof.
  destruct v as [| | | | | |props]; try reflexivity. simpl. intros H.
  apply andb_true_iff in H. destruct H as [_ H].
  destruct (lookup k props) as [x|] eqn:E; [|reflexivity].
  eapply plain_lookup; eassumption.
Qed.

Lemma plain_nth (elems : list value) (i : nat) :
  forallb plain elems = true -> plain (nth i elems VUndefined) = true.
Proof.
  revert i. induction elems as [|x l IH]; intros [|i]; simpl; intros H; try reflexivity;
    apply andb_true_iff in H; destruct H as [Hx Hl]; [assumption|now apply IH].
Qed.

Lemma plain_coalesce (a b : value) :
  plain a = true -> plain b = true -> plain (a ?? b) = true.
Proof. unfold coalesce. now destruct (nullish a). Qed.

Section Total.

Variable StringToNumber : string -> number.
Variable NumberToString : number -> string.

Lemma ToString_plain (v : value) :
  plain v = true -> exists s, ToString NumberToString v = Ok s.
Proof.
  induction v as [| |b|n|s|elems IH|props IH] using value_ind_nested; intros H;
    try (eexists; reflexivity).
  - destruct b; eexists; reflexivity.
  - simpl in H. cbn [ToString].
    induction elems as [|x l IHl]; [eexists; reflexivity|].
    simpl in H. apply andb_true_iff in H. destruct H as [Hx Hl].
    inversion IH as [|? ? Px Pl]; subst.
    destruct (IHl Pl Hl) as [t Ht].
    assert (Hs : exists s, (if nullish x then Ok "" else ToString NumberToString x) = Ok s).
    { destruct (nullish x); [eexists; reflexivity|now apply Px]. }
    destruct Hs as [s Hs]. rewrite Hs. cbn [bind].
    destruct l as [|y l']; [eexists; reflexivity|].
    rewrite Ht. eexists; reflexivity.
  - simpl in H. apply andb_true_iff in H. destruct H as [H _].
    cbn [ToString]. apply negb_true_iff in H. rewrite H. eexists; reflexivity.
Qed.

Lemma ToNumber_plain (v : value) :
  plain v = true -> exists n, ToNumber StringToNumber NumberToString v = Ok n.
Proof.
  intros H. destruct v as [| |b|n|s|elems|props]; try (eexists; reflexivity).
  - destruct b; eexists; reflexivity.
  - unfold ToNumber. destruct (ToString_plain _ H) as [s ->]. eexists; reflexivity.
  - unfold ToNumber. destruct (ToString_plain _ H) as [s ->]. eexists; reflexivity.
Qed.

Lemma math_max0_plain (v : value) :
  plain v = true -> exists n, math_max0 StringToNumber NumberToString v = Ok n.
Proof.
  intros H. unfold math_max0. destruct (ToNumber_plain v H) as [n ->]. eexists; reflexivity.
Qed.

Lemma minus_plain (a b : value) :
  plain a = true -> plain b = true ->
  exists n, minus StringToNumber NumberToString a b = Ok n.
Proof.
  intros Ha Hb. unfold minus.
  destruct (ToNumber_plain a Ha) as [x ->]. destruct (ToNumber_plain b Hb) as [y ->].
  eexists; reflexivity.
Qed.

Lemma normalizeBBox_plain (bbox : option BBox) (fs : FrameSize) :
  (forall b, bbox = Some b -> plain_bbox b) ->
  exists r, normalizeBBox StringToNumber NumberToString bbox fs = Ok r.
Proof.
  intros H. destruct bbox as [b|]; [|eexists; reflexivity].
  destruct (H b eq_refl) as [_ [_ [Hw Hh]]]. unfold normalizeBBox.
  destruct (math_max0_plain _ Hw) as [w ->]. destruct (math_max0_plain _ Hh) as [h ->].
  cbn [bind].
  destruct (normalizeValue (raw_x b) (fs_width fs)), (normalizeValue (raw_y b) (fs_height fs)),
    (normalizeValue (VNum w) (fs_width fs)), (normalizeValue (VNum h) (fs_height fs));
    eexists; reflexivity.
Qed.

Lemma plain_box_source (c : value) : plain c = true -> plain (box_source c) = true.
Proof.
  intros H. unfold box_source. repeat apply plain_coalesce; try apply plain_get; assumption.
Qed.

Lemma extract_plain (c : value) :
  plain c = true ->
  exists r, extractBoxFromCandidate StringToNumber NumberToString c = Ok r /\
            forall b, r = Some b -> plain_bbox b.
Proof.
  intros H. unfold extractBoxFromCandidate.
  destruct (negb (truthy c)); [exists None; split; [reflexivity|discriminate]|].
  pose proof (plain_box_source c H) as Hs.
  destruct (box_source c) as [| |b|n|s|elems|props] eqn:Es;
    try (exists None; split; [reflexivity|discriminate]).
  - destruct ((4 <=? List.length elems)%nat && forallb typeof_number (firstn 4 elems));
      [|exists None; split; [reflexivity|discriminate]].
    eexists. split; [reflexivity|]. intros b Hb. inversion Hb; subst.
    simpl in Hs. repeat split; now apply plain_nth.
  - cbv zeta.
    assert (Px : plain (source_x (VObj props)) = true)
      by (unfold source_x; repeat apply plain_coalesce; now apply plain_get).
    assert (Py : plain (source_y (VObj props)) = true)
      by (unfold source_y; repeat apply plain_coalesce; now apply plain_get).
    assert (Pw : plain (source_width (VObj props)) = true)
      by (unfold source_width; repeat apply plain_coalesce; now apply plain_get).
    assert (Ph : plain (source_height (VObj props)) = true)
      by (unfold source_height; repeat apply plain_coalesce; now apply plain_get).
    assert (Px2 : plain (source_x2 (VObj props)) = true)
      by (unfold source_x2; repeat apply plain_coalesce; now apply plain_get).
    assert (Py2 : plain (source_y2 (VObj props)) = true)
      by (unfold source_y2; repeat apply plain_coalesce; now apply plain_get).
    destruct (minus_plain _ _ Px2 Px) as [dw Hdw]. destruct (minus_plain _ _ Py2 Py) as [dh Hdh].
    rewrite Hdw, Hdh. cbn [bind].
    destruct (negb (nullish (source_x (VObj props))) && nullish (source_width (VObj props))
              && negb (nullish (source_x2 (VObj props))));
      destruct (negb (nullish (source_y (VObj props))) && nullish (source_height (VObj props))
                && negb (nullish (source_y2 (VObj props))));
      cbn [bind];
      match goal with |- exists r, (if ?c then _ else _) = _ /\ _ => destruct c end;
      eexists; (split; [reflexivity|]); intros b Hb; inversion Hb; subst;
      repeat split; assumption || reflexivity.
Qed.

Lemma bbox_of_box_plain (e : value) :
  plain e = true ->
  exists r, bbox_of_box StringToNumber NumberToString e = Ok r /\
            forall b, r = Some b -> plain_bbox b.
Proof.
  intros H. destruct e as [| |b|n|s|elems|props];
    try (exists None; split; [reflexivity|discriminate]).
  - unfold bbox_of_box. destruct (4 <=? List.length elems)%nat; [|now apply extract_plain].
    eexists. split; [reflexivity|]. intros b Hb. inversion Hb; subst.
    simpl in H. repeat split; now apply plain_nth.
  - now apply extract_plain.
Qed.

Lemma ofBox_plain (p : value) (fs : FrameSize) (i : nat) (e : value) :
  plain e = true ->
  exists r, detection_of_box StringToNumber NumberToString p fs (i, e) = Ok r.
Proof.
  intros H. unfold detection_of_box.
  destruct (bbox_of_box_plain e H) as [bb [-> Hb]]. cbn [bind].
  destruct (normalizeBBox_plain bb fs Hb) as [[nb|] ->]; eexists; reflexivity.
Qed.

Lemma ofCandidate_plain (fs : FrameSize) (i : nat) (e : value) :
  plain e = true ->
  exists r, detection_of_candidate StringToNumber NumberToString fs (i, e) = Ok r.
Proof.
  intros H. unfold detection_of_candidate.
  destruct (extract_plain e H) as [bb [-> Hb]]. cbn [bind].
  destruct (normalizeBBox_plain bb fs Hb) as [[nb|] ->]; eexists; reflexivity.
Qed.

Lemma mapM_total (A B : Type) (f : A -> result B) (xs : list A) :
  (forall x, In x xs -> exists y, f x = Ok y) -> exists ys, mapM f xs = Ok ys.
Proof.
  induction xs as [|x xs IH]; intros H; [eexists; reflexivity|].
  destruct (H x (or_introl eq_refl)) as [y Hy].
  destruct IH as [ys Hys]; [intros z Hz; apply H; now right|].
  simpl. rewrite Hy, Hys. eexists; reflexivity.
Qed.

Lemma plain_boxes (p e : value) : plain p = true -> In e (boxes_of p) -> plain e = true.
Proof.
  intros H. unfold boxes_of. pose proof (plain_get p "boxes" H) as Hb.
  destruct (get p "boxes") as [| | | | |elems|]; try contradiction.
  simpl in Hb. rewrite forallb_forall in Hb. apply Hb.
Qed.

Lemma plain_candidates (p e : value) :
  plain p = true -> In e (candidates_of p) -> plain e = true.
Proof.
  intros H. unfold candidates_of.
  destruct p as [| | | | |elems|props]; try contradiction.
  - simpl in H. rewrite forallb_forall in H. apply H.
  - pose proof (plain_get (VObj props) "detections" H) as Hd.
    pose proof (plain_get (VObj props) "objects" H) as Ho.
    destruct (get (VObj props) "detections") as [| | | | |elems|];
      try (destruct (get (VObj props) "objects") as [| | | | |elems'|]; try contradiction;
           simpl in Ho; rewrite forallb_forall in Ho; apply Ho).
    simpl in Hd. rewrite forallb_forall in Hd. apply Hd.
Qed.

(** On a payload none of whose objects has an own [toString] property,
    the normalizer returns: it does not throw, and its output is no longer
    than the list of entries it was built from. *)
Lemma parse_total (p : value) :
  plain p = true ->
  exists ds,
    parseDetections StringToNumber NumberToString p = Ok ds /\
    (List.length ds <= Nat.max (List.length (boxes_of p)) (List.length (candidates_of p)))%nat.
Proof.
  intros H.
  assert (Hex : exists ds, parseDetections StringToNumber NumberToString p = Ok ds).
  { unfold parseDetections. destruct (negb (truthy p)); [eexists; reflexivity|].
    rewrite build_spec.
    destruct (mapM_total _ _ (detection_of_box StringToNumber NumberToString p (inferFrameSize p))
                (indexed (boxes_of p))) as [mapped ->].
    { intros [i e] Hin. apply ofBox_plain.
      apply indexed_In in Hin. apply nth_error_In in Hin. eapply plain_boxes; eassumption. }
    cbn [bind]. destruct (filter_some mapped); [|eexists; reflexivity].
    destruct (mapM_total _ _ (detection_of_candidate StringToNumber NumberToString (inferFrameSize p))
                (indexed (candidates_of p))) as [mapped' ->].
    { intros [i e] Hin. apply ofCandidate_plain.
      apply indexed_In in Hin. apply nth_error_In in Hin. eapply plain_candidates; eassumption. }
    eexists; reflexivity. }
  destruct Hex as [ds Hds]. exists ds. split; [assumption|].
  eapply parse_length; eassumption.
Qed.

End Total.

(** ** The range of the normalized coordinates *)

(** What [normalizeValue] returns: a number of the unit interval, or NaN
    when an infinite value is divided by an infinite dimension. *)
Lemma normalizeValue_range (v dimension : value) (r : number) :
  normalizeValue v dimension = Some r ->
  in_unit r \/
  (r = NaN /\ safeDimension dimension = Infinity /\ exists s, v = VNum (S754_infinity s)).
Proof.
  intros H. destruct (normalizeValue_some_num v dimension r H) as [n [-> Hn]].
  rewrite normalizeValue_num, Hn in H. inversion H; subst r. clear H.
  unfold scaled. destruct (gt (safeDimension dimension) one) eqn:Hg.
  - destruct (isNaN (div n (safeDimension dimension))) eqn:Hd.
    + right. destruct (safeDimension dimension) as [s|s| |s m e]; try discriminate;
        destruct n as [sn|sn| |sn mn en]; try discriminate;
        try (destruct s; discriminate).
      * destruct s; [discriminate|]. repeat split. now exists sn.
      * rewrite (RoundFacts.signed_not_nan _ _ (RoundFacts.div_finite_signed sn s mn m en e)) in Hd.
        discriminate.
    + left. now apply NumFacts.clamp01_in_unit.
  - left. now apply NumFacts.clamp01_in_unit.
Qed.

Section RangeFacts.

Variable StringToNumber : string -> number.
Variable NumberToString : number -> string.

Lemma normalizeValue_ok (v dimension : value) (r : number) :
  normalizeValue v dimension = Some r -> coordinate_ok r dimension.
Proof.
  intros H. destruct (normalizeValue_range v dimension r H) as [H'|[H1 [H2 _]]];
    [now left|now right].
Qed.

Lemma normalizeBBox_range (bbox : option BBox) (fs : FrameSize) (nb : Box) :
  normalizeBBox StringToNumber NumberToString bbox fs = Ok (Some nb) ->
  coordinate_ok (box_x nb) (fs_width fs) /\ coordinate_ok (box_y nb) (fs_height fs) /\
  coordinate_ok (box_width nb) (fs_width fs) /\ coordinate_ok (box_height nb) (fs_height fs).
Proof.
  unfold normalizeBBox. destruct bbox as [b|]; [|discriminate].
  destruct (math_max0 StringToNumber NumberToString (raw_width b)) as [w|]; [|discriminate].
  cbn [bind].
  destruct (math_max0 StringToNumber NumberToString (raw_height b)) as [h|]; [|discriminate].
  cbn [bind].
  destruct (normalizeValue (raw_x b) (fs_width fs)) as [x'|] eqn:Ex; [|discriminate].
  destruct (normalizeValue (raw_y b) (fs_height fs)) as [y'|] eqn:Ey; [|discriminate].
  destruct (normalizeValue (VNum w) (fs_width fs)) as [w'|] eqn:Ew; [|discriminate].
  destruct (normalizeValue (VNum h) (fs_height fs)) as [h'|] eqn:Eh; [|discriminate].
  intros H. inversion H; subst nb. cbn [box_x box_y box_width box_height].
  repeat split; eapply normalizeValue_ok; eassumption.
Qed.

(** Every coordinate of every box the normalizer returns lies within
    [0, 1], unless the frame dimension it was divided by is infinite. *)
Lemma parse_box_range (p : value) (ds : list Detection) (d : Detection) :
  parseDetections StringToNumber NumberToString p = Ok ds -> In d ds ->
  let fs := inferFrameSize p in
  coordinate_ok (box_x (box d)) (fs_width fs) /\
  coordinate_ok (box_y (box d)) (fs_height fs) /\
  coordinate_ok (box_width (box d)) (fs_width fs) /\
  coordinate_ok (box_height (box d)) (fs_height fs).
Proof.
  intros Hp Hin fs.
  destruct (parse_inv StringToNumber NumberToString p ds d Hp Hin)
    as [[i [e [_ Hd]]]|[i [e [_ Hd]]]].
  - unfold detection_of_box in Hd.
    destruct (bbox_of_box StringToNumber NumberToString e) as [bb|]; [|discriminate].
    cbn [bind] in Hd.
    destruct (normalizeBBox StringToNumber NumberToString bb (inferFrameSize p))
      as [[nb|]|] eqn:En; try discriminate.
    cbn [bind] in Hd. inversion Hd; subst d. cbn [box].
    eapply normalizeBBox_range; eassumption.
  - unfold detection_of_candidate in Hd.
    destruct (extractBoxFromCandidate StringToNumber NumberToString e) as [bb|]; [|discriminate].
    cbn [bind] in Hd.
    destruct (normalizeBBox StringToNumber NumberToString bb (inferFrameSize p))
      as [[nb|]|] eqn:En; try discriminate.
    cbn [bind] in Hd. inversion Hd; subst d. cbn [box].
    eapply normalizeBBox_range; eassumption.
Qed.

End RangeFacts.

(** ** Flooring before or after the division *)

Lemma clamp01_negative (r : number) : signed_as true r -> clamp01 r = zero.
Proof.
  intros H. unfold clamp01. now rewrite (RoundFacts.max_negative r H).
Qed.

(** Dividing [max(w, 0)] or [w] itself gives the same clamped quotient,
    except for [-Infinity] over [Infinity]. *)
Lemma floor_then_divide_agrees (w W : number) :
  isNaN w = false -> gt W one = true ->
  ~ (w = NegInfinity /\ W = Infinity) ->
  clamp01 (div (Num.max w zero) W) = clamp01 (div w W).
Proof.
  intros Hw HW Hex.
  destruct W as [sW|sW| |sW mW eW]; try discriminate;
    destruct sW; try discriminate;
    destruct w as [sw|sw| |sw mw ew]; try discriminate;
    try (destruct sw; reflexivity).
  - destruct sw; [|reflexivity]. exfalso. apply Hex. now split.
  - destruct sw; [|reflexivity].
    change (Num.max (S754_finite true mw ew) zero) with zero.
    change (div zero (S754_finite false mW eW)) with zero.
    symmetry. apply clamp01_negative.
    apply (RoundFacts.div_finite_signed true false mw mW ew eW).
Qed.

(** ** The normalizer on the payloads of the specification *)

Section Examples.

Variable StringToNumber : string -> number.
Variable NumberToString : number -> string.

Abbreviation parse := (parseDetections StringToNumber NumberToString).
Abbreviation extract := (extractBoxFromCandidate StringToNumber NumberToString).

(** C1.  The payload
    [{"boxes":[[100,50,40,40,0,0.91]],"labels":["person"],"resolution":[1280,720]}]
    normalizes to exactly one detection, labelled ["person"], whose box
    is, to three decimals, [{x:0.078, y:0.069, width:0.031, height:0.056}].
    Its confidence is the fifth element of the tuple, [0], and not the
    sixth, [0.91]. *)
Theorem hailo_payload_normalized :
  exists d,
    parse Sample.hailo_payload = Ok [d] /\
    label d = VStr "person" /\
    milli (box_x (box d)) = Some 78 /\
    milli (box_y (box d)) = Some 69 /\
    milli (box_width (box d)) = Some 31 /\
    milli (box_height (box d)) = Some 56 /\
    confidence d = VNum zero /\
    confidence d <> VNum (of_ratio 91 100).
Proof.
  eexists. split; [vm_compute; reflexivity|].
  repeat split; try (vm_compute; reflexivity).
  vm_compute. discriminate.
Qed.

(** C7.  The corner-form entry [{"x1":10,"y1":10,"x2":110,"y2":60}] is
    extracted by subtraction to [{x:10, y:10, width:100, height:50}];
    in a payload without resolution (a bare list of entries, or a list
    under [detections] or [objects]) it normalizes to the box
    [{x:1, y:1, width:1, height:1}]. *)
Theorem corner_entry_clamped :
  let unit_box := {| box_x := one; box_y := one; box_width := one; box_height := one |} in
  let d := {| label := VStr "object-1"; confidence := VNull; box := unit_box |} in
  extract Sample.corner_entry =
    Ok (Some {| raw_x := Sample.int 10; raw_y := Sample.int 10;
                raw_width := Sample.int 100; raw_height := Sample.int 50 |}) /\
  inferFrameSize (VArr [Sample.corner_entry]) =
    {| fs_width := VNum one; fs_height := VNum one |} /\
  parse (VArr [Sample.corner_entry]) = Ok [d] /\
  parse (VObj [("detections", VArr [Sample.corner_entry])]) = Ok [d] /\
  parse (VObj [("objects", VArr [Sample.corner_entry])]) = Ok [d].
Proof.
  repeat split; vm_compute; reflexivity.
Qed.

(** C6.  In [{"boxes":[[1,2,null,3]]}] the entry has no numeric width, yet
    it is kept, with width [0]: [Math.max(null, 0)] is [0].  The same
    entry under [detections] is omitted.  With an object whose own
    [toString] is not callable in the width slot, the call throws. *)
Theorem null_width_entry_kept :
  parse Sample.null_width_boxes =
    Ok [{| label := VStr "object-1"; confidence := VNull;
           box := {| box_x := one; box_y := one; box_width := zero; box_height := one |} |}] /\
  parse Sample.null_width_detections = Ok [] /\
  parse Sample.opaque_width_boxes = Throw.
Proof.
  repeat split; vm_compute; reflexivity.
Qed.

(** C3.  In [{"boxes":[[1e999,0,0,0]],"resolution":[1e999,1e999]}] the
    entry is kept and its [x] is [Infinity / Infinity], that is NaN, which
    is not within [0, 1]. *)
Theorem infinite_payload_box_is_nan :
  exists d,
    parse Sample.infinite_payload = Ok [d] /\
    box_x (box d) = NaN /\
    ~ in_unit (box_x (box d)).
Proof.
  eexists. split; [vm_compute; reflexivity|].
  split; [reflexivity|]. intros [H _]. vm_compute in H. discriminate.
Qed.

End Examples.

(** ** The claims about the normalizer *)

Section NormalizerClaims.

Variable StringToNumber : string -> number.
Variable NumberToString : number -> string.

Abbreviation normalize := (normalizeBBox StringToNumber NumberToString).
Abbreviation extract := (extractBoxFromCandidate StringToNumber NumberToString).
Abbreviation ofBox := (detection_of_box StringToNumber NumberToString).
Abbreviation ofCandidate := (detection_of_candidate StringToNumber NumberToString).
Abbreviation parse := (parseDetections StringToNumber NumberToString).





(** Both callbacks on an entry whose raw box holds four numbers. *)
Lemma ofBox_numbers (p : value) (fs : FrameSize) (i : nat) (e : value) (x y w h : number) :
  bbox_of_box StringToNumber NumberToString e =
    Ok (Some {| raw_x := VNum x; raw_y := VNum y; raw_width := VNum w; raw_height := VNum h |}) ->
  isNaN x = false -> isNaN y = false -> isNaN w = false -> isNaN h = false ->
  exists d, ofBox p fs (i, e) = Ok (Some d) /\
    box d = box_of (clamp01 (scaled x (fs_width fs))) (clamp01 (scaled y (fs_height fs)))
                   (clamp01 (scaled (Num.max w zero) (fs_width fs)))
                   (clamp01 (scaled (Num.max h zero) (fs_height fs))).
Proof.
  intros He Hx Hy Hw Hh. unfold detection_of_box. rewrite He. cbn [bind].
  rewrite (normalizeBBox_numbers StringToNumber NumberToString _ _ _ _ _ Hx Hy Hw Hh). cbn [bind].
  eexists. split; reflexivity.
Qed.

Lemma ofCandidate_numbers (fs : FrameSize) (i : nat) (e : value) (x y w h : number) :
  extract e =
    Ok (Some {| raw_x := VNum x; raw_y := VNum y; raw_width := VNum w; raw_height := VNum h |}) ->
  isNaN x = false -> isNaN y = false -> isNaN w = false -> isNaN h = false ->
  exists d, ofCandidate fs (i, e) = Ok (Some d) /\
    box d = box_of (clamp01 (scaled x (fs_width fs))) (clamp01 (scaled y (fs_height fs)))
                   (clamp01 (scaled (Num.max w zero) (fs_width fs)))
                   (clamp01 (scaled (Num.max h zero) (fs_height fs))).
Proof.
  intros He Hx Hy Hw Hh. unfold detection_of_candidate. rewrite He. cbn [bind].
  rewrite (normalizeBBox_numbers StringToNumber NumberToString _ _ _ _ _ Hx Hy Hw Hh). cbn [bind].
  eexists. split; reflexivity.
Qed.


End NormalizerClaims.



(** ** Where the confidence comes from *)

Section ConfidenceClaim.

Variable StringToNumber : string -> number.
Variable NumberToString : number -> string.

(** The confidence the callback of [boxes.map] attaches. *)
Lemma ofBox_confidence (p : value) (fs : FrameSize) (i : nat) (e : value) (d : Detection) :
  detection_of_box StringToNumber NumberToString p fs (i, e) = Ok (Some d) ->
  confidence d =
  if typeof_number (get_index e 4) then get_index e 4
  else get e "confidence" ?? get e "score" ?? VNull.
Proof.
  unfold detection_of_box.
  destruct (bbox_of_box StringToNumber NumberToString e) as [bb|]; [|discriminate].
  cbn [bind].
  destruct (normalizeBBox StringToNumber NumberToString bb fs) as [[nb|]|]; try discriminate.
  cbn [bind]. intros H. inversion H; subst. reflexivity.
Qed.

(** The confidence the callback of [candidates.map] attaches. *)
Lemma ofCandidate_confidence (fs : FrameSize) (i : nat) (e : value) (d : Detection) :
  detection_of_candidate StringToNumber NumberToString fs (i, e) = Ok (Some d) ->
  confidence d =
  get e "confidence" ?? get e "score" ?? get e "probability"
  ?? get e "confidence_score" ?? VNull.
Proof.
  unfold detection_of_candidate.
  destruct (extractBoxFromCandidate StringToNumber NumberToString e) as [bb|]; [|discriminate].
  cbn [bind].
  destruct (normalizeBBox StringToNumber NumberToString bb fs) as [[nb|]|]; try discriminate.
  cbn [bind]. intros H. inversion H; subst. reflexivity.
Qed.

(** C5 (amended).  The confidence of every detection the normalizer
    returns is read from the entry the detection was built from and
    handed over as it is, with no range imposed and no check that it is a
    number.  For an entry of the fall-back list it is the first of the
    properties [confidence], [score], [probability], [confidence_score]
    that is not null or undefined, else null.  For an entry of [boxes]
    with no number at index 4 it is the first of [confidence], [score]
    that is not null or undefined, else null.  (With a number at index 4
    the code returns that element: the read of the first claim, recorded
    here as the code has it and left out of the amended claim.) *)
Theorem confidence_passed_through (p : value) (ds : list Detection) (d : Detection) :
  parseDetections StringToNumber NumberToString p = Ok ds -> In d ds ->
  exists i e,
    (nth_error (boxes_of p) i = Some e /\
     detection_of_box StringToNumber NumberToString p (inferFrameSize p) (i, e)
       = Ok (Some d) /\
     confidence d =
     if typeof_number (get_index e 4) then get_index e 4
     else get e "confidence" ?? get e "score" ?? VNull) \/
    (nth_error (candidates_of p) i = Some e /\
     detection_of_candidate StringToNumber NumberToString (inferFrameSize p) (i, e)
       = Ok (Some d) /\
     confidence d =
     get e "confidence" ?? get e "score" ?? get e "probability"
     ?? get e "confidence_score" ?? VNull).
Proof.
  intros Hp Hin.
  destruct (parse_inv StringToNumber NumberToString p ds d Hp Hin)
    as [[i [e [Hn Hd]]]|[i [e [Hn Hd]]]]; exists i, e.
  - left. split; [exact Hn|]. split; [exact Hd|].
    exact (ofBox_confidence p (inferFrameSize p) i e d Hd).
  - right. split; [exact Hn|]. split; [exact Hd|].
    exact (ofCandidate_confidence (inferFrameSize p) i e d Hd).
Qed.

End ConfidenceClaim.

(** C5, as stated, fails on
    [{"detections":[{"x":0,"y":0,"width":1,"height":1,"confidence":87}]}]:
    the detection carries the confidence [87], which is neither null nor
    within [0, 1]. *)
Lemma confidence_range_counterexample :
  exists d,
    (forall s2n n2s, parseDetections s2n n2s Sample.percent_payload = Ok [d]) /\
    confidence d = VNum (of_Z 87) /\
    confidence d <> VNull /\
    le (of_Z 87) one = false.
Proof.
  eexists. split; [intros; vm_compute; reflexivity|].
  split; [reflexivity|]. split; [discriminate|reflexivity].
Qed.

(** [confidence_passed_through] on the payload above: the detection comes
    from the entry at index 0 of the fall-back list, and its confidence
    is the [confidence] property of that entry. *)
Lemma confidence_passed_through_witness :
  let d := {| label := VStr "object-1"; confidence := VNum (of_Z 87);
              box := box_of zero zero one one |} in
  exists i e,
    (nth_error (boxes_of Sample.percent_payload) i = Some e /\
     detection_of_box Sample.StringToNumber Sample.NumberToString Sample.percent_payload
       (inferFrameSize Sample.percent_payload) (i, e) = Ok (Some d) /\
     confidence d =
     if typeof_number (get_index e 4) then get_index e 4
     else get e "confidence" ?? get e "score" ?? VNull) \/
    (nth_error (candidates_of Sample.percent_payload) i = Some e /\
     detection_of_candidate Sample.StringToNumber Sample.NumberToString
       (inferFrameSize Sample.percent_payload) (i, e) = Ok (Some d) /\
     confidence d =
     get e "confidence" ?? get e "score" ?? get e "probability"
     ?? get e "confidence_score" ?? VNull).
Proof.
  exact (confidence_passed_through Sample.StringToNumber Sample.NumberToString
           Sample.percent_payload _ _ eq_refl (or_introl eq_refl)).
Defined.

(** ** Boxes already in the unit square, centre form, swapped corners *)




(** Zero stays zero through [normalizeValue], whatever the dimension. *)
Lemma clamp01_scaled_zero (dimension : value) : clamp01 (scaled zero dimension) = zero.
Proof.
  unfold scaled.
  destruct (safeDimension dimension) as [s|s| |s m e];
    try destruct s; try reflexivity;
    destruct (gt _ one); reflexivity.
Qed.

Lemma box_source_object (c : value) (o : list (string * value)) :
  box_source c = VObj o -> truthy c = true.
Proof.
  destruct c; try reflexivity; intros H; vm_compute in H; discriminate.
Qed.

Lemma real_number_not_nullish (v : value) : is_real_number v = true -> nullish v = false.
Proof. destruct v; simpl; auto; discriminate. Qed.

Section ShapeClaims.

Variable StringToNumber : string -> number.
Variable NumberToString : number -> string.

Abbreviation normalize := (normalizeBBox StringToNumber NumberToString).
Abbreviation extract := (extractBoxFromCandidate StringToNumber NumberToString).
Abbreviation ofBox := (detection_of_box StringToNumber NumberToString).
Abbreviation ofCandidate := (detection_of_candidate StringToNumber NumberToString).


(** C9.  An object that exposes [cx] and [cy] with a width and a height,
    and none of [x], [left], [x_min], [x1], [y], [top], [y_min], [y1], is
    extracted with [cx] and [cy] as its [x] and [y]: half the width and
    height is not subtracted. *)
Theorem center_used_as_corner (c : value) (o : list (string * value)) :
  box_source c = VObj o ->
  center_form (VObj o) = true ->
  extract c =
    Ok (Some {| raw_x := get (VObj o) "cx"; raw_y := get (VObj o) "cy";
                raw_width := source_width (VObj o);
                raw_height := source_height (VObj o) |}).
Proof.
  intros Hs Hc. unfold extractBoxFromCandidate.
  rewrite (box_source_object c o Hs), Hs. cbn [negb].
  unfold center_form in Hc. rewrite !andb_true_iff in Hc.
  destruct Hc as [[[[[[[[[[[X0 X1] X2] X3] Y0] Y1] Y2] Y3] CX] CY] CW] CH].
  assert (Ex : source_x (VObj o) = get (VObj o) "cx").
  { unfold source_x, coalesce. rewrite X0, X1, X2, X3.
    now rewrite (real_number_not_nullish _ CX). }
  assert (Ey : source_y (VObj o) = get (VObj o) "cy").
  { unfold source_y, coalesce. rewrite Y0, Y1, Y2, Y3.
    now rewrite (real_number_not_nullish _ CY). }
  cbv zeta. rewrite Ex, Ey.
  rewrite (real_number_not_nullish _ CW), (real_number_not_nullish _ CH).
  rewrite !andb_false_r. cbn [andb bind forallb].
  now rewrite CX, CY, CW, CH.
Qed.

End ShapeClaims.

Section CornerClaim.

Variable StringToNumber : string -> number.
Variable NumberToString : number -> string.

Abbreviation normalize := (normalizeBBox StringToNumber NumberToString).
Abbreviation extract := (extractBoxFromCandidate StringToNumber NumberToString).
Abbreviation ofBox := (detection_of_box StringToNumber NumberToString).
Abbreviation ofCandidate := (detection_of_candidate StringToNumber NumberToString).
Abbreviation build := (buildDetectionsFromInference StringToNumber NumberToString).
Abbreviation parse := (parseDetections StringToNumber NumberToString).

(** The box of an object given by its corners: width and height by
    subtraction. *)
Lemma extract_corners (c : value) (o : list (string * value)) (x1 y1 x2 y2 : number) :
  box_source c = VObj o ->
  corner_form (VObj o) x1 y1 x2 y2 ->
  isNaN x1 = false -> isNaN y1 = false ->
  isNaN (sub x2 x1) = false -> isNaN (sub y2 y1) = false ->
  extractBoxFromCandidate StringToNumber NumberToString c =
    Ok (Some {| raw_x := VNum x1; raw_y := VNum y1;
                raw_width := VNum (sub x2 x1); raw_height := VNum (sub y2 y1) |}).
Proof.
  intros Hs [Ex [Ey [Ex2 [Ey2 [Ew Eh]]]]] Nx Ny Nw Nh.
  unfold extractBoxFromCandidate.
  rewrite (box_source_object c o Hs), Hs. cbn [negb]. cbv zeta.
  rewrite Ex, Ey, Ex2, Ey2, Ew, Eh.
  cbn [nullish negb andb minus ToNumber bind forallb is_real_number].
  now rewrite Nx, Ny, Nw, Nh.
Qed.

(** A width or height with the minus sign is normalized to [0]. *)
Lemma negative_extent_zero (v : number) (dimension : value) :
  signed_as true v -> clamp01 (scaled (Num.max v zero) dimension) = zero.
Proof.
  intros H. rewrite (RoundFacts.max_negative v H). apply clamp01_scaled_zero.
Qed.

(** A number below [0] carries the minus sign. *)
Lemma lt_zero_signed (v : number) : lt v zero = true -> signed_as true v.
Proof. destruct v as [[]|[]| |[] m e]; try discriminate; reflexivity. Qed.

(** What [normalizeBBox] returns on a box whose [x] and [y] are numbers
    and whose width and height convert to numbers, none of them NaN. *)
Lemma normalizeBBox_floored (b : BBox) (fs : FrameSize) (x y w h : number) :
  raw_x b = VNum x -> raw_y b = VNum y ->
  ToNumber StringToNumber NumberToString (raw_width b) = Ok w ->
  ToNumber StringToNumber NumberToString (raw_height b) = Ok h ->
  isNaN x = false -> isNaN y = false -> isNaN w = false -> isNaN h = false ->
  normalize (Some b) fs =
  Ok (Some (box_of (clamp01 (scaled x (fs_width fs))) (clamp01 (scaled y (fs_height fs)))
                   (clamp01 (scaled (Num.max w zero) (fs_width fs)))
                   (clamp01 (scaled (Num.max h zero) (fs_height fs))))).
Proof.
  intros Ex Ey Ew Eh Nx Ny Nw Nh. unfold normalizeBBox, math_max0.
  rewrite Ex, Ey, Ew, Eh. cbn [bind]. rewrite !normalizeValue_num.
  rewrite !NumFacts.isNaN_max, Nx, Ny, Nw, Nh. reflexivity.
Qed.

(** C10.  [normalizeBBox] floors the width and the height of every box it
    is given at [0] before it normalizes them, and hands [x] and [y] to
    [normalizeValue] as they are: a box with a negative width or height
    is kept, with width [0] or height [0], whether it was extracted from
    an entry of [boxes] or of the fall-back list, and the detection is in
    the output.  In particular an object given by two corners with
    [x2 < x1] or [y2 < y1] yields, on both paths, a detection whose box
    has width [0] or height [0]. *)
Theorem negative_extent_clamped (p : value) (i : nat) (e : value) :
  let fs := inferFrameSize p in
  (forall (b : BBox) (x y w h : number),
     raw_x b = VNum x -> raw_y b = VNum y ->
     ToNumber StringToNumber NumberToString (raw_width b) = Ok w ->
     ToNumber StringToNumber NumberToString (raw_height b) = Ok h ->
     isNaN x = false -> isNaN y = false -> isNaN w = false -> isNaN h = false ->
     let nb := box_of (clamp01 (scaled x (fs_width fs)))
                      (clamp01 (scaled y (fs_height fs)))
                      (clamp01 (scaled (Num.max w zero) (fs_width fs)))
                      (clamp01 (scaled (Num.max h zero) (fs_height fs))) in
     normalize (Some b) fs = Ok (Some nb) /\
     (lt w zero = true -> box_width nb = zero) /\
     (lt h zero = true -> box_height nb = zero) /\
     (nth_error (boxes_of p) i = Some e ->
      bbox_of_box StringToNumber NumberToString e = Ok (Some b) ->
      exists d, ofBox p fs (i, e) = Ok (Some d) /\ box d = nb /\
                forall ds, parse p = Ok ds -> In d ds) /\
     (nth_error (candidates_of p) i = Some e -> extract e = Ok (Some b) ->
      exists d, ofCandidate fs (i, e) = Ok (Some d) /\ box d = nb /\
                forall ds, build p = Ok [] -> parse p = Ok ds -> In d ds)) /\
  (forall (o : list (string * value)) (x1 y1 x2 y2 : number),
     box_source e = VObj o ->
     corner_form (VObj o) x1 y1 x2 y2 ->
     binary64 x1 -> binary64 y1 -> binary64 x2 -> binary64 y2 ->
     isNaN x1 = false -> isNaN y1 = false ->
     isNaN (sub x2 x1) = false -> isNaN (sub y2 y1) = false ->
     exists d1 d2,
       extract e = Ok (Some {| raw_x := VNum x1; raw_y := VNum y1;
                               raw_width := VNum (sub x2 x1);
                               raw_height := VNum (sub y2 y1) |}) /\
       ofBox p fs (i, e) = Ok (Some d1) /\ ofCandidate fs (i, e) = Ok (Some d2) /\
       box d1 = box d2 /\
       box_x (box d2) = clamp01 (scaled x1 (fs_width fs)) /\
       box_y (box d2) = clamp01 (scaled y1 (fs_height fs)) /\
       (lt x2 x1 = true -> box_width (box d2) = zero) /\
       (lt y2 y1 = true -> box_height (box d2) = zero) /\
       (nth_error (boxes_of p) i = Some e -> forall ds, parse p = Ok ds -> In d1 ds) /\
       (nth_error (candidates_of p) i = Some e ->
        forall ds, build p = Ok [] -> parse p = Ok ds -> In d2 ds)).
Proof.
  intros fs. split.
  - intros b x y w h Ex Ey Ew Eh Nx Ny Nw Nh nb.
    pose proof (normalizeBBox_floored b fs x y w h Ex Ey Ew Eh Nx Ny Nw Nh) as Hn.
    fold nb in Hn.
    split; [exact Hn|].
    split; [intros L; cbn [nb box_of box_width];
            exact (negative_extent_zero w _ (lt_zero_signed w L))|].
    split; [intros L; cbn [nb box_of box_height];
            exact (negative_extent_zero h _ (lt_zero_signed h L))|].
    split.
    + intros Hi Hb.
      assert (Hd : ofBox p fs (i, e)
                   = Ok (Some {| label :=
                                   or_else (get_index (get p "labels") i)
                                     (or_else (get e "label")
                                        (or_else (get e "name") (object_label i)));
                                 confidence :=
                                   if typeof_number (get_index e 4) then get_index e 4
                                   else get e "confidence" ?? get e "score" ?? VNull;
                                 box := nb |})).
      { unfold detection_of_box. rewrite Hb. cbn [bind]. rewrite Hn. reflexivity. }
      eexists. split; [exact Hd|]. split; [reflexivity|].
      intros ds Hp.
      exact (parse_boxes_member StringToNumber NumberToString p i e _ ds Hi Hd Hp).
    + intros Hi Hb.
      assert (Hd : ofCandidate fs (i, e)
                   = Ok (Some {| label :=
                                   get e "label" ?? get e "name" ?? get e "class"
                                   ?? get e "category" ?? object_label i;
                                 confidence :=
                                   get e "confidence" ?? get e "score"
                                   ?? get e "probability" ?? get e "confidence_score"
                                   ?? VNull;
                                 box := nb |})).
      { unfold detection_of_candidate. rewrite Hb. cbn [bind]. rewrite Hn. reflexivity. }
      eexists. split; [exact Hd|]. split; [reflexivity|].
      intros ds Hb0 Hp.
      exact (parse_candidates_member StringToNumber NumberToString p i e _ ds Hb0 Hi Hd Hp).
  - intros o x1 y1 x2 y2 Hs Hc Vx1 Vy1 Vx2 Vy2 Nx Ny Nw Nh.
    pose proof (extract_corners e o x1 y1 x2 y2 Hs Hc Nx Ny Nw Nh) as He.
    pose proof (bbox_of_box_extract StringToNumber NumberToString e _ He) as Hb.
    destruct (ofBox_numbers StringToNumber NumberToString p fs i e
                x1 y1 (sub x2 x1) (sub y2 y1) Hb Nx Ny Nw Nh) as [d1 [Hd1 B1]].
    destruct (ofCandidate_numbers StringToNumber NumberToString fs i e
                x1 y1 (sub x2 x1) (sub y2 y1) He Nx Ny Nw Nh) as [d2 [Hd2 B2]].
    exists d1, d2.
    split; [exact He|]. split; [exact Hd1|]. split; [exact Hd2|]. split; [congruence|].
    rewrite B2. cbn [box_of box_x box_y box_width box_height].
    split; [reflexivity|]. split; [reflexivity|].
    split; [|split; [|split]].
    + intros L. apply negative_extent_zero. now apply RoundFacts.sub_lt_signed.
    + intros L. apply negative_extent_zero. now apply RoundFacts.sub_lt_signed.
    + intros Hi ds Hp.
      exact (parse_boxes_member StringToNumber NumberToString p i e d1 ds Hi Hd1 Hp).
    + intros Hi ds Hb0 Hp.
      exact (parse_candidates_member StringToNumber NumberToString p i e d2 ds Hb0 Hi Hd2 Hp).
Qed.

End CornerClaim.


(** [center_used_as_corner] on
    [{"cx":0.5,"cy":0.25,"width":0.5,"height":0.25}]. *)
Lemma center_used_as_corner_witness :
  extractBoxFromCandidate Sample.StringToNumber Sample.NumberToString Sample.center_entry =
    Ok (Some {| raw_x := VNum (of_ratio 1 2); raw_y := VNum (of_ratio 1 4);
                raw_width := VNum (of_ratio 1 2); raw_height := VNum (of_ratio 1 4) |}).
Proof.
  exact (center_used_as_corner Sample.StringToNumber Sample.NumberToString
           Sample.center_entry
           [("cx", VNum (of_ratio 1 2)); ("cy", VNum (of_ratio 1 4));
            ("width", VNum (of_ratio 1 2)); ("height", VNum (of_ratio 1 4))]
           eq_refl eq_refl).
Defined.

(** [negative_extent_clamped] on [[{"x1":110,"y1":10,"x2":10,"y2":60}]]
    and on [{"boxes":[[0.5,0.25,-1,0.25]]}]: in both the one detection of
    the output has width [0]. *)
Lemma negative_extent_clamped_witness :
  lt (of_Z 10) (of_Z 110) = true /\
  (exists d,
     parseDetections Sample.StringToNumber Sample.NumberToString
       (VArr [Sample.swapped_entry]) = Ok [d] /\
     box_width (box d) = zero /\
     box d = box_of one one zero one) /\
  lt (of_Z (-1)) zero = true /\
  (exists d,
     parseDetections Sample.StringToNumber Sample.NumberToString
       (VObj [("boxes", VArr [VArr [VNum (of_ratio 1 2); VNum (of_ratio 1 4);
                                    VNum (of_Z (-1)); VNum (of_ratio 1 4)]])]) = Ok [d] /\
     box_width (box d) = zero /\
     box d = box_of (of_ratio 1 2) (of_ratio 1 4) zero (of_ratio 1 4)).
Proof.
  split; [reflexivity|]. split; [|split; [reflexivity|]].
  - destruct (proj2 (negative_extent_clamped Sample.StringToNumber Sample.NumberToString
                       (VArr [Sample.swapped_entry]) 0%nat Sample.swapped_entry)
                [("x1", Sample.int 110); ("y1", Sample.int 10);
                 ("x2", Sample.int 10); ("y2", Sample.int 60)]
                (of_Z 110) (of_Z 10) (of_Z 10) (of_Z 60)
                eq_refl
                (conj eq_refl (conj eq_refl (conj eq_refl (conj eq_refl (conj eq_refl eq_refl)))))
                eq_refl eq_refl eq_refl eq_refl eq_refl eq_refl eq_refl eq_refl)
      as (d1 & d2 & _ & _ & _ & _ & _ & _ & Hw & _ & _ & Hin).
    eexists. split; [vm_compute; reflexivity|].
    split; [|reflexivity].
    destruct (Hin eq_refl _ eq_refl eq_refl) as [E|[]].
    subst d2. exact (Hw eq_refl).
  - destruct (proj1 (negative_extent_clamped Sample.StringToNumber Sample.NumberToString
                       (VObj [("boxes", VArr [VArr [VNum (of_ratio 1 2); VNum (of_ratio 1 4);
                                                    VNum (of_Z (-1)); VNum (of_ratio 1 4)]])])
                       0%nat
                       (VArr [VNum (of_ratio 1 2); VNum (of_ratio 1 4);
                              VNum (of_Z (-1)); VNum (of_ratio 1 4)]))
                {| raw_x := VNum (of_ratio 1 2); raw_y := VNum (of_ratio 1 4);
                   raw_width := VNum (of_Z (-1)); raw_height := VNum (of_ratio 1 4) |}
                (of_ratio 1 2) (of_ratio 1 4) (of_Z (-1)) (of_ratio 1 4)
                eq_refl eq_refl eq_refl eq_refl eq_refl eq_refl eq_refl eq_refl)
      as (_ & Hw & _ & Hboxes & _).
    destruct (Hboxes eq_refl eq_refl) as (d & _ & Hb & Hin).
    eexists. split; [vm_compute; reflexivity|].
    split; [|reflexivity].
    destruct (Hin _ eq_refl) as [E|[]].
    subst d. exact (Hw eq_refl).
Defined.

(** ** The viewer session *)

Module SessionFacts.

Import Session.
Local Open Scope nat_scope.

Lemma phase_open_inv (s : State) :
  phase s = Open ->
  unmounted s = false /\
  exists ws, wsRef s = Some ws /\ nth_error (sockets s) ws = Some OPEN.
Proof.
  unfold phase. destruct (unmounted s); [discriminate|].
  destruct (wsRef s) as [ws|]; [|discriminate].
  destruct (nth_error (sockets s) ws) as [[]|] eqn:E; try discriminate.
  intros _. split; [reflexivity|]. now exists ws.
Qed.

Lemma nth_error_set_socket (ws : nat) (r r0 : ReadyState) (l : list ReadyState) :
  nth_error l ws = Some r0 -> nth_error (set_socket ws r l) ws = Some r.
Proof.
  intros H. unfold set_socket.
  assert (Hlen : ws < List.length l) by (apply nth_error_Some; congruence).
  rewrite nth_error_app2; rewrite firstn_length_le by lia; [|lia].
  now rewrite Nat.sub_diag.
Qed.

Lemma set_socket_length (ws : nat) (r r0 : ReadyState) (l : list ReadyState) :
  nth_error l ws = Some r0 -> List.length (set_socket ws r l) = List.length l.
Proof.
  intros H. unfold set_socket.
  assert (Hlen : ws < List.length l) by (apply nth_error_Some; congruence).
  rewrite length_app. cbn [List.length]. rewrite firstn_length_le, length_skipn by lia. lia.
Qed.

Lemma close_length (ws : nat) (l : list ReadyState) :
  List.length (close ws l) = List.length l.
Proof.
  unfold close. destruct (nth_error l ws) as [[]|] eqn:E; try reflexivity;
    eapply set_socket_length; eassumption.
Qed.

Lemma nth_error_last (A : Type) (l : list A) (a : A) :
  nth_error (l ++ [a]) (List.length l) = Some a.
Proof.
  rewrite nth_error_app2 by lia. now rewrite Nat.sub_diag.
Qed.

(** A close of the transport of an open session arms exactly one timeout,
    due [RECONNECT_DELAY] later, and creates no socket. *)
Lemma close_while_open (s : State) (ws : nat) :
  phase s = Open -> wsRef s = Some ws ->
  exists s',
    step s (Closed ws) = Some s' /\
    timers s' = (timers s ++ [clock s + RECONNECT_DELAY])%list /\
    attempts s' = attempts s /\
    connected s' = false /\
    clock s' = clock s /\
    unmounted s' = false /\
    phase s' = Reconnecting.
Proof.
  intros Hp Hw. destruct (phase_open_inv s Hp) as [Hu [ws' [Hw' Hn]]].
  assert (ws' = ws) by congruence. subst ws'.
  eexists. split; [cbn [step]; rewrite Hn; reflexivity|].
  cbn [onclose with_sockets timers sockets clock connected unmounted wsRef].
  repeat split; try assumption.
  - unfold attempts. cbn [sockets]. eapply set_socket_length; eassumption.
  - unfold phase. cbn [onclose with_sockets unmounted wsRef sockets]. rewrite Hu, Hw.
    now rewrite (nth_error_set_socket ws CLOSED OPEN _ Hn).
Qed.

(** The cleanup touches neither the timeouts nor the number of sockets. *)
Lemma unmount_keeps_timers (s : State) :
  unmounted s = false ->
  exists s',
    step s Unmount = Some s' /\
    timers s' = timers s /\ attempts s' = attempts s /\
    clock s' = clock s /\ unmounted s' = true.
Proof.
  intros Hu. eexists. split; [cbn [step]; rewrite Hu; reflexivity|].
  unfold cleanup, attempts. cbn [timers sockets clock unmounted].
  repeat split. destruct (wsRef s); [apply close_length|reflexivity].
Qed.

(** A due timeout runs [connectWebSocket], mounted or not. *)
Lemma fired_connects (s : State) (k due : nat) :
  nth_error (timers s) k = Some due -> due <= clock s ->
  exists s',
    step s (Fired k false) = Some s' /\
    attempts s' = S (attempts s) /\
    wsRef s' = Some (attempts s) /\
    timers s' = remove_at k (timers s) /\
    unmounted s' = unmounted s.
Proof.
  intros Hn Hd. eexists. split.
  - cbn [step]. rewrite Hn. apply Nat.leb_le in Hd. rewrite Hd. reflexivity.
  - unfold connectWebSocket, attempts. cbn [sockets wsRef timers unmounted].
    repeat split. rewrite length_app. cbn [List.length]. lia.
Qed.

(** C2.  First half, as claimed: when the transport of an open session
    closes, exactly one reconnect is scheduled, [RECONNECT_DELAY] = 3000 ms
    later, and no connection is made meanwhile.  Second half, where the
    code departs from the claim: the cleanup of a session that is not yet
    torn down, in whatever phase and at whatever moment of the delay,
    leaves every pending timeout in place; the timeout cannot run before
    it is due, and once it is due it runs [connectWebSocket] and a new
    connection attempt is made, after the teardown. *)
Theorem close_then_teardown (s : State) :
  (forall ws, phase s = Open -> wsRef s = Some ws ->
     exists s1,
       step s (Closed ws) = Some s1 /\
       timers s1 = (timers s ++ [clock s + 3000])%list /\
       attempts s1 = attempts s /\
       phase s1 = Reconnecting /\
       (forall ms throws, ms < 3000 ->
          run s1 [Tick ms; Fired (List.length (timers s)) throws] = None)) /\
  (forall k due, unmounted s = false -> nth_error (timers s) k = Some due ->
     exists s1,
       step s Unmount = Some s1 /\
       unmounted s1 = true /\
       phase s1 = Closing /\
       timers s1 = timers s /\
       attempts s1 = attempts s /\
       (forall ms throws, clock s + ms < due ->
          run s1 [Tick ms; Fired k throws] = None) /\
       (forall ms, due <= clock s + ms ->
          exists s2,
            run s1 [Tick ms; Fired k false] = Some s2 /\
            unmounted s2 = true /\
            attempts s2 = S (attempts s) /\
            wsRef s2 = Some (attempts s) /\
            nth_error (sockets s2) (attempts s) = Some CONNECTING)).
Proof.
  split.
  - intros ws Hp Hw.
    destruct (close_while_open s ws Hp Hw) as [s1 [E1 [T1 [A1 [_ [C1 [U1 P1]]]]]]].
    exists s1. repeat split; try assumption.
    intros ms throws Hms. cbn [run step timers clock].
    rewrite T1, nth_error_last, C1.
    destruct (Nat.leb_spec (clock s + RECONNECT_DELAY) (clock s + ms)) as [Hle|_];
      [|reflexivity].
    unfold RECONNECT_DELAY in Hle. lia.
  - intros k due Hu Hk.
    destruct (unmount_keeps_timers s Hu) as [s1 [E1 [T1 [A1 [C1 U1]]]]].
    exists s1. repeat split; try assumption.
    + unfold phase. now rewrite U1.
    + intros ms throws Hms. cbn [run step timers clock].
      rewrite T1, Hk, C1.
      destruct (Nat.leb_spec due (clock s + ms)) as [Hle|_]; [lia|reflexivity].
    + intros ms Hms.
      set (s1' := {| sockets := sockets s1; wsRef := wsRef s1; timers := timers s1;
                     clock := clock s1 + ms; connected := connected s1;
                     error := error s1; unmounted := unmounted s1 |}).
      destruct (fired_connects s1' k due) as [s2 [E2 [A2 [W2 [_ U2]]]]].
      { cbn [s1' timers]. now rewrite T1. }
      { cbn [s1' clock]. lia. }
      assert (As : attempts s1' = attempts s) by (unfold attempts in *; exact A1).
      exists s2. repeat split.
      * change (run s1 [Tick ms; Fired k false])
          with (match step s1' (Fired k false) with
                | Some s' => Some s'
                | None => None
                end).
        now rewrite E2.
      * rewrite U2. exact U1.
      * now rewrite A2, As.
      * now rewrite W2, As.
      * cbn [step] in E2.
        replace (nth_error (timers s1') k) with (Some due) in E2
          by (cbn [s1' timers]; now rewrite T1).
        replace (due <=? clock s1') with true in E2
          by (symmetry; apply Nat.leb_le; cbn [s1' clock]; lia).
        injection E2 as <-. cbn [connectWebSocket sockets].
        rewrite <- A1. unfold attempts. cbn [s1' sockets].
        apply nth_error_last.
Qed.

End SessionFacts.

(** [close_then_teardown] on three sessions: the one whose first socket
    has opened; the one torn down right after that socket closed; and the
    one whose handshake failed, torn down one second into the delay.  In
    the last two a second socket is created after the teardown. *)
Lemma close_then_teardown_witness :
  (Session.step (Session.mount false) (Session.Opened 0) = Some Session.opened /\
   exists s1,
     Session.step Session.opened (Session.Closed 0) = Some s1 /\
     Session.timers s1 = [3000%nat] /\
     Session.attempts s1 = 1%nat /\
     Session.phase s1 = Session.Reconnecting /\
     (forall ms throws, (ms < 3000)%nat ->
        Session.run s1 [Session.Tick ms; Session.Fired 0 throws] = None)) /\
  (exists s s1 s2,
     Session.run (Session.mount false) [Session.Opened 0; Session.Closed 0] = Some s /\
     Session.phase s = Session.Reconnecting /\
     Session.timers s = [3000%nat] /\
     Session.step s Session.Unmount = Some s1 /\
     Session.timers s1 = [3000%nat] /\
     Session.run s1 [Session.Tick 3000; Session.Fired 0 false] = Some s2 /\
     Session.unmounted s2 = true /\
     Session.attempts s = 1%nat /\
     Session.attempts s2 = 2%nat) /\
  (exists s s1 s2,
     Session.run (Session.mount false)
       [Session.Errored 0; Session.Closed 0; Session.Tick 1000] = Some s /\
     Session.phase s = Session.Reconnecting /\
     Session.step s Session.Unmount = Some s1 /\
     Session.run s1 [Session.Tick 2000; Session.Fired 0 false] = Some s2 /\
     Session.unmounted s2 = true /\
     Session.attempts s = 1%nat /\
     Session.attempts s2 = 2%nat).
Proof.
  split; [split; [reflexivity|]|split].
  - exact (proj1 (SessionFacts.close_then_teardown Session.opened) 0%nat eq_refl eq_refl).
  - pose (s := Session.onclose
                 (Session.with_sockets
                    (Session.set_socket 0 Session.CLOSED (Session.sockets Session.opened))
                    Session.opened)).
    destruct (proj2 (SessionFacts.close_then_teardown s) 0%nat 3000%nat eq_refl eq_refl)
      as (s1 & E1 & _ & _ & T1 & _ & _ & F).
    destruct (F 3000%nat (le_n _)) as (s2 & E2 & U2 & A2 & _).
    exists s, s1, s2.
    repeat split; try reflexivity; assumption.
  - pose (s := {| Session.sockets := [Session.CLOSED]; Session.wsRef := Some 0%nat;
                  Session.timers := [3000%nat]; Session.clock := 1000%nat;
                  Session.connected := false;
                  Session.error := Some Session.ConnectionError;
                  Session.unmounted := false |}).
    destruct (proj2 (SessionFacts.close_then_teardown s) 0%nat 3000%nat eq_refl eq_refl)
      as (s1 & E1 & _ & _ & T1 & _ & _ & F).
    destruct (F 2000%nat (le_n _)) as (s2 & E2 & U2 & A2 & _).
    exists s, s1, s2.
    repeat split; try reflexivity; assumption.
Defined.

(** ** More about what [parseDetections] returns *)

Section MoreParseFacts.

Variable StringToNumber : string -> number.
Variable NumberToString : number -> string.

Abbreviation normalize := (normalizeBBox StringToNumber NumberToString).
Abbreviation extract := (extractBoxFromCandidate StringToNumber NumberToString).
Abbreviation ofBox := (detection_of_box StringToNumber NumberToString).
Abbreviation ofCandidate := (detection_of_candidate StringToNumber NumberToString).
Abbreviation build := (buildDetectionsFromInference StringToNumber NumberToString).
Abbreviation parse := (parseDetections StringToNumber NumberToString).

Lemma get_falsy (v : value) (k : string) : truthy v = false -> get v k = VUndefined.
Proof. destruct v; try reflexivity; discriminate. Qed.

Lemma coordinate_ok_unit (r : number) (dimension : value) :
  coordinate_ok r dimension -> safeDimension dimension <> Infinity -> in_unit r.
Proof. intros [H|[_ H]] N; [exact H|contradiction]. Qed.

(** X1.  Unless a dimension of the frame is [Infinity], the four
    coordinates of every detection [parseDetections] returns lie within
    [0, 1]. *)
Theorem boxes_within_unit_square (p : value) (ds : list Detection) (d : Detection) :
  parse p = Ok ds -> In d ds ->
  safeDimension (fs_width (inferFrameSize p)) <> Infinity ->
  safeDimension (fs_height (inferFrameSize p)) <> Infinity ->
  in_unit (box_x (box d)) /\ in_unit (box_y (box d)) /\
  in_unit (box_width (box d)) /\ in_unit (box_height (box d)).
Proof.
  intros P I W H.
  destruct (parse_box_range StringToNumber NumberToString p ds d P I) as (X & Y & Wd & Ht).
  repeat split;
    first [ exact (proj1 (coordinate_ok_unit _ _ X W))
          | exact (proj2 (coordinate_ok_unit _ _ X W))
          | exact (proj1 (coordinate_ok_unit _ _ Y H))
          | exact (proj2 (coordinate_ok_unit _ _ Y H))
          | exact (proj1 (coordinate_ok_unit _ _ Wd W))
          | exact (proj2 (coordinate_ok_unit _ _ Wd W))
          | exact (proj1 (coordinate_ok_unit _ _ Ht H))
          | exact (proj2 (coordinate_ok_unit _ _ Ht H)) ].
Qed.

(** *** The order of the detections *)

Lemma increasing_cons (k : nat) (idx : list nat) :
  Forall (fun i => (S k <= i)%nat) idx -> increasing idx = true ->
  increasing (k :: idx) = true.
Proof.
  intros F I. destruct idx as [|b t]; [reflexivity|].
  cbn [increasing] in *. rewrite I. inversion F; subst.
  destruct (Nat.ltb_spec k b); [reflexivity|lia].
Qed.

Lemma kept_indices (f : nat * value -> result (option Detection)) (xs : list value) :
  forall (k : nat) (ys : list (option Detection)),
    mapM f (indexed_from k xs) = Ok ys ->
    exists idx,
      increasing idx = true /\ Forall (fun i => (k <= i)%nat) idx /\
      Forall2 (fun d i => exists x, nth_error xs (i - k) = Some x /\ f (i, x) = Ok (Some d))
        (filter_some ys) idx.
Proof.
  induction xs as [|x r IH]; intros k ys M.
  - injection M as <-. exists []. repeat split; constructor.
  - cbn [indexed_from mapM] in M.
    destruct (f (k, x)) as [y|] eqn:Fx; [|discriminate]. cbn [bind] in M.
    destruct (mapM f (indexed_from (S k) r)) as [ys'|] eqn:Mr; [|discriminate].
    cbn [bind] in M. injection M as <-.
    destruct (IH (S k) ys' Mr) as (idx & Inc & Ge & F2).
    assert (F2' : Forall2
                    (fun d i => exists x0, nth_error (x :: r) (i - k) = Some x0 /\
                                           f (i, x0) = Ok (Some d))
                    (filter_some ys') idx).
    { clear Inc. revert Ge. induction F2 as [|d i ds' is' [x0 [Hn Hf]] F2 IHF]; intros Ge.
      - constructor.
      - inversion Ge; subst. constructor; [|now apply IHF].
        exists x0. split; [|exact Hf].
        replace (i - k)%nat with (S (i - S k)) by lia. exact Hn. }
    assert (Ge' : Forall (fun i => (k <= i)%nat) idx).
    { eapply Forall_impl; [|exact Ge]. cbn. intros; lia. }
    destruct y as [d|]; cbn [filter_some].
    + exists (k :: idx). split; [now apply increasing_cons|]. split.
      * constructor; [lia|exact Ge'].
      * constructor; [|exact F2']. exists x. rewrite Nat.sub_diag. now split.
    + exists idx. now repeat split.
Qed.

Lemma kept_indices_0 (f : nat * value -> result (option Detection)) (xs : list value)
  (ys : list (option Detection)) :
  mapM f (indexed xs) = Ok ys ->
  exists idx,
    increasing idx = true /\
    Forall2 (fun d i => exists x, nth_error xs i = Some x /\ f (i, x) = Ok (Some d))
      (filter_some ys) idx.
Proof.
  intros M. destruct (kept_indices f xs 0%nat ys M) as (idx & Inc & _ & F2).
  exists idx. split; [exact Inc|].
  eapply Forall2_impl; [|exact F2]. cbn. intros d i [x [Hn Hf]].
  exists x. now rewrite Nat.sub_0_r in Hn.
Qed.

(** X2.  The detections [parseDetections] returns are in the order of the
    entries they were built from: there are strictly growing indices, one
    per detection, all into [boxes] or all into the fall-back list, and
    each detection is what the callback gives on the entry at its
    index. *)
Theorem detections_keep_order (p : value) (ds : list Detection) :
  parse p = Ok ds ->
  exists idx,
    increasing idx = true /\
    (Forall2 (fun d i => exists e, nth_error (boxes_of p) i = Some e /\
                                   ofBox p (inferFrameSize p) (i, e) = Ok (Some d)) ds idx \/
     Forall2 (fun d i => exists e, nth_error (candidates_of p) i = Some e /\
                                   ofCandidate (inferFrameSize p) (i, e) = Ok (Some d)) ds idx).
Proof.
  unfold parseDetections. destruct (truthy p); cbn [negb].
  2:{ intros H. injection H as <-. exists []. split; [reflexivity|]. left. constructor. }
  rewrite (build_spec StringToNumber NumberToString p).
  destruct (mapM (ofBox p (inferFrameSize p)) (indexed (boxes_of p))) as [mb|] eqn:Mb;
    [|discriminate].
  cbn [bind]. destruct (filter_some mb) as [|d0 r0] eqn:Fb.
  - destruct (mapM (ofCandidate (inferFrameSize p)) (indexed (candidates_of p)))
      as [mc|] eqn:Mc; [|discriminate].
    cbn [bind]. intros H. injection H as <-.
    destruct (kept_indices_0 _ _ _ Mc) as (idx & Inc & F2).
    exists idx. split; [exact Inc|]. right. exact F2.
  - intros H. injection H as <-.
    destruct (kept_indices_0 _ _ _ Mb) as (idx & Inc & F2).
    exists idx. split; [exact Inc|]. left. rewrite <- Fb. exact F2.
Qed.

(** *** The label *)

Lemma truthy_not_nullish (v : value) : truthy v = true -> nullish v = false.
Proof. destruct v; try reflexivity; discriminate. Qed.

Lemma coalesce_not_nullish (a b : value) : nullish b = false -> nullish (a ?? b) = false.
Proof. intros H. unfold coalesce. destruct (nullish a) eqn:E; assumption. Qed.

Lemma or_else_truthy (a b : value) : truthy b = true -> truthy (or_else a b) = true.
Proof. intros H. unfold or_else. destruct (truthy a) eqn:E; assumption. Qed.

Lemma ofBox_label (p : value) (fs : FrameSize) (i : nat) (e : value) (d : Detection) :
  ofBox p fs (i, e) = Ok (Some d) -> truthy (label d) = true.
Proof.
  unfold detection_of_box.
  destruct (bbox_of_box StringToNumber NumberToString e) as [bb|]; [|discriminate].
  cbn [bind].
  destruct (normalize bb fs) as [[nb|]|]; try discriminate.
  cbn [bind]. intros H. inversion H; subst. clear H. cbn [label].
  repeat apply or_else_truthy. reflexivity.
Qed.

Lemma ofCandidate_label (fs : FrameSize) (i : nat) (e : value) (d : Detection) :
  ofCandidate fs (i, e) = Ok (Some d) -> nullish (label d) = false.
Proof.
  unfold detection_of_candidate.
  destruct (extract e) as [bb|]; [|discriminate].
  cbn [bind].
  destruct (normalize bb fs) as [[nb|]|]; try discriminate.
  cbn [bind]. intros H. inversion H; subst. clear H. cbn [label].
  repeat apply coalesce_not_nullish. reflexivity.
Qed.

(** X3.  The label of a returned detection is never null or undefined; on
    the [boxes] path it is truthy as well.  (On the fall-back path an
    empty string, [0] or [false] is passed through, and nothing makes the
    label a string.) *)
Theorem label_never_missing (p : value) (ds : list Detection) (d : Detection) :
  parse p = Ok ds -> In d ds ->
  nullish (label d) = false /\
  (build p = Ok ds -> truthy (label d) = true).
Proof.
  intros P I. split.
  - destruct (parse_inv StringToNumber NumberToString p ds d P I)
      as [(i & e & _ & H)|(i & e & _ & H)].
    + apply truthy_not_nullish. exact (ofBox_label _ _ _ _ _ H).
    + exact (ofCandidate_label _ _ _ _ H).
  - intros B. rewrite (build_spec StringToNumber NumberToString p) in B.
    destruct (mapM (ofBox p (inferFrameSize p)) (indexed (boxes_of p))) as [mb|] eqn:Mb;
      [|discriminate].
    cbn [bind] in B. injection B as <-.
    apply filter_some_In in I.
    destruct (mapM_In_inv _ _ _ _ Mb I) as ((i & e) & _ & H).
    exact (ofBox_label _ _ _ _ _ H).
Qed.

(** *** Which entries of the fall-back list are kept *)

Lemma normalizeValue_num_some (n : number) (dimension : value) (r : number) :
  normalizeValue (VNum n) dimension = Some r -> isNaN n = false.
Proof.
  intros H. destruct (normalizeValue_some_num _ _ _ H) as (m & E & N).
  injection E as ->. exact N.
Qed.

(** X4.  An entry of the fall-back list yields a detection exactly when
    [extractBoxFromCandidate] finds four numbers in it and none of them is
    NaN. *)
Theorem candidate_kept_iff (fs : FrameSize) (i : nat) (e : value) :
  (exists d, ofCandidate fs (i, e) = Ok (Some d)) <->
  (exists x y w h,
     extract e = Ok (Some {| raw_x := VNum x; raw_y := VNum y;
                             raw_width := VNum w; raw_height := VNum h |}) /\
     isNaN x = false /\ isNaN y = false /\ isNaN w = false /\ isNaN h = false).
Proof.
  split.
  - intros [d H]. unfold detection_of_candidate in H.
    destruct (extract e) as [[b|]|] eqn:E; try discriminate.
    destruct (extract_some_numbers StringToNumber NumberToString e b E) as (X & Y & W & Hh).
    destruct b as [x y w h]. cbn [raw_x raw_y raw_width raw_height] in *.
    destruct x as [| | |x| | |]; try discriminate X.
    destruct y as [| | |y| | |]; try discriminate Y.
    destruct w as [| | |w| | |]; try discriminate W.
    destruct h as [| | |h| | |]; try discriminate Hh.
    exists x, y, w, h. split; [reflexivity|].
    cbn [bind] in H. unfold normalizeBBox in H.
    cbn [raw_x raw_y raw_width raw_height] in H.
    rewrite !(math_max0_num StringToNumber NumberToString) in H. cbn [bind] in H.
    destruct (normalizeValue (VNum x) (fs_width fs)) as [rx|] eqn:Nx; [|discriminate].
    destruct (normalizeValue (VNum y) (fs_height fs)) as [ry|] eqn:Ny; [|discriminate].
    destruct (normalizeValue (VNum (Num.max w zero)) (fs_width fs)) as [rw|] eqn:Nw;
      [|discriminate].
    destruct (normalizeValue (VNum (Num.max h zero)) (fs_height fs)) as [rh|] eqn:Nh;
      [|discriminate].
    apply normalizeValue_num_some in Nx, Ny, Nw, Nh.
    rewrite NumFacts.isNaN_max in Nw, Nh. apply orb_false_iff in Nw, Nh.
    repeat split; tauto.
  - intros (x & y & w & h & E & X & Y & W & H).
    destruct (ofCandidate_numbers StringToNumber NumberToString fs i e x y w h E X Y W H)
      as (d & Hd & _).
    now exists d.
Qed.

(** *** A box given under [bbox], [box], [rect] or [region] *)

(** X5.  A box nested under [bbox], [box], [rect] or [region] is read
    exactly as that value is read on its own, provided the nested value
    has none of these four keys itself (nesting is followed one level
    only). *)
Theorem nested_box_read_as_flat (c : value) :
  box_source (box_source c) = box_source c ->
  extract c = extract (box_source c).
Proof.
  intros H. unfold extractBoxFromCandidate. rewrite H.
  destruct (truthy c) eqn:T; cbn [negb].
  - destruct (box_source c); try reflexivity;
      match goal with |- context [negb ?t] => destruct (negb t) end; reflexivity.
  - assert (E : box_source c = c).
    { unfold box_source. rewrite !(get_falsy c _ T). destruct c; reflexivity. }
    rewrite E, T. reflexivity.
Qed.

(** *** The memo on a payload that cannot throw *)

Lemma plain_inferenceSource (aiData : value) :
  plain aiData = true -> plain (inferenceSource aiData) = true.
Proof.
  intros P. unfold inferenceSource.
  pose proof (plain_get aiData "payload" P) as Pp.
  destruct (negb (truthy (get aiData "payload"))); [reflexivity|].
  destruct (truthy (get (get aiData "payload") "inference")); [now apply plain_get|].
  destruct (truthy (get (get aiData "payload") "data")); [now apply plain_get|exact Pp].
Qed.

(** X6.  On a message none of whose objects has an own [toString], the
    [detections] memo returns, with no more detections than the longer of
    the two lists of entries of the inference it selected. *)
Theorem detections_total (aiData : value) :
  plain aiData = true ->
  exists ds,
    detections StringToNumber NumberToString aiData = Ok ds /\
    (List.length ds <=
     Nat.max (List.length (boxes_of (inferenceSource aiData)))
             (List.length (candidates_of (inferenceSource aiData))))%nat.
Proof.
  intros P. unfold detections.
  exact (parse_total StringToNumber NumberToString _ (plain_inferenceSource aiData P)).
Qed.

End MoreParseFacts.

(** [boxes_within_unit_square] on a payload of two boxes under a
    resolution of 640 by 480. *)
Lemma boxes_within_unit_square_witness :
  exists d1 d2,
    parseDetections Sample.StringToNumber Sample.NumberToString Frames.two_boxes
    = Ok [d1; d2] /\
    in_unit (box_x (box d2)) /\ in_unit (box_y (box d2)) /\
    in_unit (box_width (box d2)) /\ in_unit (box_height (box d2)).
Proof.
  eexists. eexists. split; [vm_compute; reflexivity|].
  eapply (boxes_within_unit_square Sample.StringToNumber Sample.NumberToString
            Frames.two_boxes);
    [vm_compute; reflexivity | right; left; reflexivity | vm_compute; discriminate
    | vm_compute; discriminate].
Defined.

(** [detections_keep_order] on three objects of which the second has no
    box. *)
Lemma detections_keep_order_witness :
  exists d1 d3 idx,
    parseDetections Sample.StringToNumber Sample.NumberToString Frames.three_objects
    = Ok [d1; d3] /\
    increasing idx = true /\
    (Forall2
       (fun d i =>
          exists e, nth_error (boxes_of Frames.three_objects) i = Some e /\
                    detection_of_box Sample.StringToNumber Sample.NumberToString
                      Frames.three_objects (inferFrameSize Frames.three_objects) (i, e)
                    = Ok (Some d)) [d1; d3] idx \/
     Forall2
       (fun d i =>
          exists e, nth_error (candidates_of Frames.three_objects) i = Some e /\
                    detection_of_candidate Sample.StringToNumber Sample.NumberToString
                      (inferFrameSize Frames.three_objects) (i, e)
                    = Ok (Some d)) [d1; d3] idx).
Proof.
  eexists. eexists.
  destruct (detections_keep_order Sample.StringToNumber Sample.NumberToString
              Frames.three_objects [_; _] eq_refl) as [idx H].
  exists idx. split; [reflexivity|exact H].
Defined.

(** [label_never_missing] on the same objects: the first has no label and
    is called [object-1], the third keeps its empty label; and on
    [Frames.two_boxes], whose detections come from [boxes]: the second has
    no label in [labels] and is called [object-2]. *)
Lemma label_never_missing_witness :
  (exists d1 d3,
     parseDetections Sample.StringToNumber Sample.NumberToString Frames.three_objects
     = Ok [d1; d3] /\
     label d1 = VStr "object-1" /\ label d3 = VStr "" /\
     nullish (label d3) = false /\
     (buildDetectionsFromInference Sample.StringToNumber Sample.NumberToString
        Frames.three_objects = Ok [d1; d3] ->
      truthy (label d3) = true)) /\
  (exists d1 d2,
     parseDetections Sample.StringToNumber Sample.NumberToString Frames.two_boxes
     = Ok [d1; d2] /\
     buildDetectionsFromInference Sample.StringToNumber Sample.NumberToString
       Frames.two_boxes = Ok [d1; d2] /\
     label d1 = VStr "car" /\ label d2 = VStr "object-2" /\
     nullish (label d2) = false /\
     truthy (label d2) = true).
Proof.
  split.
  - eexists. eexists. split; [vm_compute; reflexivity|].
    split; [reflexivity|]. split; [reflexivity|].
    eapply (label_never_missing Sample.StringToNumber Sample.NumberToString
              Frames.three_objects);
      [vm_compute; reflexivity | right; left; reflexivity].
  - eexists. eexists. split; [vm_compute; reflexivity|].
    lazymatch goal with
    | |- _ = Ok [?a; ?b] /\ _ =>
        destruct (label_never_missing Sample.StringToNumber Sample.NumberToString
                    Frames.two_boxes [a; b] b) as [N T];
          [vm_compute; reflexivity | right; left; reflexivity |]
    end.
    split; [vm_compute; reflexivity|].
    split; [reflexivity|]. split; [reflexivity|].
    split; [exact N|apply T; vm_compute; reflexivity].
Defined.

(** [nested_box_read_as_flat] on [{"bbox":[1,2,3,4]}]. *)
Lemma nested_box_read_as_flat_witness :
  extractBoxFromCandidate Sample.StringToNumber Sample.NumberToString
    (VObj [("bbox", VArr [Sample.int 1; Sample.int 2; Sample.int 3; Sample.int 4])]) =
  extractBoxFromCandidate Sample.StringToNumber Sample.NumberToString
    (VArr [Sample.int 1; Sample.int 2; Sample.int 3; Sample.int 4]).
Proof.
  exact (nested_box_read_as_flat Sample.StringToNumber Sample.NumberToString
           (VObj [("bbox", VArr [Sample.int 1; Sample.int 2; Sample.int 3; Sample.int 4])])
           eq_refl).
Defined.

(** [detections_total] on a message that wraps the two boxes as
    [{"payload":{"inference":...}}]. *)
Lemma detections_total_witness :
  exists ds,
    detections Sample.StringToNumber Sample.NumberToString Frames.ai_data = Ok ds /\
    (List.length ds <= Nat.max 2 0)%nat.
Proof.
  exact (detections_total Sample.StringToNumber Sample.NumberToString Frames.ai_data eq_refl).
Defined.

(** ** From a frame message to the overlay and the prompt *)

Section FrameFacts.

Variable StringToNumber : string -> number.
Variable NumberToString : number -> string.

Lemma inferenceSource_truthy (aiData : value) :
  truthy (inferenceSource aiData) = truthy (get aiData "payload").
Proof.
  unfold inferenceSource. destruct (truthy (get aiData "payload")) eqn:P; [|reflexivity].
  cbn [negb].
  destruct (truthy (get (get aiData "payload") "inference")) eqn:I; [exact I|].
  destruct (truthy (get (get aiData "payload") "data")) eqn:D; [exact D|exact P].
Qed.

Lemma is_frame_not_null (data : value) : is_frame data = true -> nullish data = false.
Proof. destruct data; try reflexivity; discriminate. Qed.

(** X7.  [onmessage] leaves [aiData] as it was when the message does not
    parse, when it is not a frame with data, and when showing the image
    throws.  A frame it accepts stores [data.ai_data || null]: with a
    truthy [payload] in [ai_data] the inference selected is truthy; with
    any other [ai_data] it is [null] and no detection is left to draw. *)
Theorem frame_without_payload_clears_overlay (image : bool) (aiData data : value) :
  let next := onmessage NumberToString image aiData (Ok data) in
  onmessage NumberToString image aiData Throw = aiData /\
  (is_frame data = false -> next = aiData) /\
  (is_frame data = true -> image = true ->
   ToString NumberToString (get data "data") = Throw -> next = aiData) /\
  (is_frame data = true ->
   (image = true -> exists s, ToString NumberToString (get data "data") = Ok s) ->
   next = or_else (get data "ai_data") VNull /\
   if truthy (get (get data "ai_data") "payload")
   then truthy (inferenceSource next) = true
   else inferenceSource next = VNull /\
        detections StringToNumber NumberToString next = Ok []).
Proof.
  intros next. split; [reflexivity|]. split; [|split].
  - intros F. unfold next, onmessage. rewrite F. now destruct (nullish data).
  - intros F I T. unfold next, onmessage.
    rewrite (is_frame_not_null data F), F, I, T. reflexivity.
  - intros F S.
    assert (N : next = or_else (get data "ai_data") VNull).
    { unfold next, onmessage. rewrite (is_frame_not_null data F), F.
      destruct image; [|reflexivity].
      destruct (S eq_refl) as [s E]. now rewrite E. }
    split; [exact N|].
    assert (E : get next "payload" = get (get data "ai_data") "payload").
    { rewrite N. unfold or_else.
      destruct (truthy (get data "ai_data")) eqn:T; [reflexivity|].
      now rewrite (get_falsy _ "payload" T). }
    destruct (truthy (get (get data "ai_data") "payload")) eqn:P.
    + now rewrite inferenceSource_truthy, E.
    + unfold detections, inferenceSource. rewrite E, P. split; reflexivity.
Qed.



End FrameFacts.

(** [frame_without_payload_clears_overlay] on two messages received while
    [Frames.ai_data] is shown: [{"type":"frame","data":""}] is ignored and
    the overlay stays; [{"type":"frame","data":"/9j/"}], which carries no
    [ai_data], clears it. *)
Lemma frame_without_payload_clears_overlay_witness :
  onmessage Sample.NumberToString true Frames.ai_data
    (Ok (VObj [("type", VStr "frame"); ("data", VStr "")])) = Frames.ai_data /\
  onmessage Sample.NumberToString true Frames.ai_data
    (Ok (VObj [("type", VStr "frame"); ("data", VStr "/9j/")])) = VNull /\
  detections Sample.StringToNumber Sample.NumberToString VNull = Ok [].
Proof.
  split.
  - exact (proj1 (proj2 (frame_without_payload_clears_overlay
                           Sample.StringToNumber Sample.NumberToString true Frames.ai_data
                           (VObj [("type", VStr "frame"); ("data", VStr "")])))
             eq_refl).
  - destruct (proj2 (proj2 (proj2 (frame_without_payload_clears_overlay
                                     Sample.StringToNumber Sample.NumberToString true
                                     Frames.ai_data
                                     (VObj [("type", VStr "frame"); ("data", VStr "/9j/")]))))
                eq_refl (fun _ => ex_intro _ "/9j/" eq_refl)) as [N H].
    split; [exact N|exact (proj2 (H : _ /\ _))].
Defined.

(** ** Where the caption of a box is anchored *)

Module CanvasFacts.

Lemma min_le_r (a b : number) :
  isNaN a = false -> isNaN b = false -> le (Num.min a b) b = true.
Proof.
  intros Ha Hb. unfold Num.min. rewrite Ha, Hb. cbn [orb].
  destruct (is_neg_zero b && is_pos_zero a) eqn:Z.
  - unfold le, SFleb. now rewrite (NumFacts.compare_refl b Hb).
  - destruct (lt b a) eqn:L.
    + unfold le, SFleb. now rewrite (NumFacts.compare_refl b Hb).
    + exact (NumFacts.not_lt_le a b Ha Hb L).
Qed.

Lemma le_min (c a b : number) :
  le c a = true -> le c b = true -> le c (Num.min a b) = true.
Proof.
  intros Ha Hb. unfold Num.min.
  rewrite (NumFacts.le_not_nan_r c a Ha), (NumFacts.le_not_nan_r c b Hb). cbn [orb].
  destruct (is_neg_zero b && is_pos_zero a); [assumption|].
  now destruct (lt b a).
Qed.

Lemma le_max_r (a b : number) :
  isNaN a = false -> isNaN b = false -> le b (Num.max a b) = true.
Proof.
  intros Ha Hb. unfold Num.max. rewrite Ha, Hb. cbn [orb].
  destruct (is_pos_zero b && is_neg_zero a) eqn:Z.
  - unfold le, SFleb. now rewrite (NumFacts.compare_refl b Hb).
  - destruct (gt b a) eqn:L.
    + unfold le, SFleb. now rewrite (NumFacts.compare_refl b Hb).
    + exact (NumFacts.not_lt_le b a Hb Ha L).
Qed.

(** A fraction of a finite length is a number. *)
Lemma mul_unit_not_nan (v width : number) :
  in_unit v -> is_finite width = true -> isNaN (mul v width) = false.
Proof.
  intros [H0 H1] Hw.
  destruct v as [sv|sv| |sv mv ev]; try discriminate H0.
  - destruct width; try discriminate Hw; reflexivity.
  - destruct sv; discriminate.
  - destruct width as [sw|sw| |sw mw ew]; try discriminate Hw; [reflexivity|].
    apply (RoundFacts.signed_not_nan (xorb sv sw)).
    apply RoundFacts.binary_round_aux_signed. lia.
Qed.

Lemma sub_finite_not_nan (width : number) (z : Z) :
  is_finite width = true -> isNaN (sub width (of_Z z)) = false.
Proof.
  intros Hw. apply RoundFacts.sub_not_nan.
  - destruct width; try discriminate Hw; reflexivity.
  - apply RoundFacts.binary_normalize_not_nan.
  - intros s E. subst width. discriminate Hw.
Qed.

End CanvasFacts.

(** X9.  For a box whose [x] lies within [0, 1], on a canvas of finite
    width, the caption is anchored no further right than [width - 4], and
    no further left than [4] when [width - 4] is at least [4]. *)
Theorem caption_within_canvas (b : Box) (width : number) :
  in_unit (box_x b) -> is_finite width = true ->
  let x := rect_x b width in
  le (textX x width) (sub width (of_Z 4)) = true /\
  (le (of_Z 4) (sub width (of_Z 4)) = true -> le (of_Z 4) (textX x width) = true).
Proof.
  intros Hb Hw x.
  assert (Hx : isNaN x = false) by exact (CanvasFacts.mul_unit_not_nan _ _ Hb Hw).
  assert (Hs : isNaN (sub width (of_Z 4)) = false)
    by exact (CanvasFacts.sub_finite_not_nan width 4 Hw).
  assert (Hm : isNaN (Num.max x (of_Z 4)) = false).
  { rewrite NumFacts.isNaN_max, Hx. reflexivity. }
  unfold textX. split.
  - exact (CanvasFacts.min_le_r _ _ Hm Hs).
  - intros H4. apply CanvasFacts.le_min; [|exact H4].
    apply CanvasFacts.le_max_r; [exact Hx|reflexivity].
Qed.

(** [caption_within_canvas] for a box at [x = 0.5] on a canvas 640 wide. *)
Lemma caption_within_canvas_witness :
  let b := box_of (of_ratio 1 2) zero one one in
  let x := rect_x b (of_Z 640) in
  le (textX x (of_Z 640)) (sub (of_Z 640) (of_Z 4)) = true /\
  (le (of_Z 4) (sub (of_Z 640) (of_Z 4)) = true -> le (of_Z 4) (textX x (of_Z 640)) = true).
Proof.
  exact (caption_within_canvas (box_of (of_ratio 1 2) zero one one) (of_Z 640)
           (conj eq_refl eq_refl) eq_refl).
Defined.

(** ** Products of fractions and lengths *)

Module RectFacts.

Lemma mul_unit_nonneg (v w : number) :
  in_unit v -> is_finite w = true -> le zero w = true -> le zero (mul v w) = true.
Proof.
  intros [H0 H1] Fw Hw.
  destruct v as [sv|sv| |sv mv ev]; try discriminate H0.
  - destruct w as [sw|sw| |sw mw ew]; try discriminate Fw; reflexivity.
  - destruct sv; discriminate.
  - destruct sv; [discriminate H0|].
    destruct w as [sw|sw| |sw mw ew]; try discriminate Fw; [reflexivity|].
    destruct sw; [discriminate Hw|].
    pose proof (RoundFacts.binary_round_aux_signed false (Z.pos (mv * mw)) (ev + ew)
                  loc_Exact (Pos2Z.is_nonneg _)) as S.
    unfold mul. cbn [SFmul xorb].
    destruct (binary_round_aux prec emax false (Z.pos (mv * mw)) (ev + ew) loc_Exact)
      as [s|s| |s m e]; cbn in S; try contradiction; subst; reflexivity.
Qed.

End RectFacts.

(** X10.  For a box within the unit square, on a canvas whose width and
    height are finite and not negative, the four numbers handed to
    [strokeRect] are not negative (nor NaN). *)
Theorem rectangle_is_nonnegative (b : Box) (width height : number) :
  in_unit (box_x b) -> in_unit (box_y b) ->
  in_unit (box_width b) -> in_unit (box_height b) ->
  is_finite width = true -> le zero width = true ->
  is_finite height = true -> le zero height = true ->
  le zero (rect_x b width) = true /\ le zero (rect_y b height) = true /\
  le zero (rect_w b width) = true /\ le zero (rect_h b height) = true.
Proof.
  intros X Y W H Fw Pw Fh Ph. unfold rect_x, rect_y, rect_w, rect_h.
  repeat split; apply RectFacts.mul_unit_nonneg; assumption.
Qed.

(** [rectangle_is_nonnegative] for the box [(0.5, 0, 1, 1)] on a canvas of
    640 by 480. *)
Lemma rectangle_is_nonnegative_witness :
  let b := box_of (of_ratio 1 2) zero one one in
  le zero (rect_x b (of_Z 640)) = true /\ le zero (rect_y b (of_Z 480)) = true /\
  le zero (rect_w b (of_Z 640)) = true /\ le zero (rect_h b (of_Z 480)) = true.
Proof.
  exact (rectangle_is_nonnegative (box_of (of_ratio 1 2) zero one one) (of_Z 640) (of_Z 480)
           (conj eq_refl eq_refl) (conj eq_refl eq_refl)
           (conj eq_refl eq_refl) (conj eq_refl eq_refl)
           eq_refl eq_refl eq_refl eq_refl).
Defined.

(** ** The analysis request *)

Module AnalysisFacts.

Import Analysis.
Local Open Scope nat_scope.

Lemma step_bound (k : nat) (s s' : State) (e : Event) :
  pending s <= k + match analysisStatus s with loading => 1 | _ => 0 end ->
  step s e = Some s' ->
  pending s' <= k + resets [e] + match analysisStatus s' with loading => 1 | _ => 0 end.
Proof.
  unfold resets. intros H E.
  destruct e as [throws|data|message|]; cbn in E |- *.
  - injection E as <-. unfold handleOpenAIAnalysis.
    destruct (analysisStatus s) eqn:St; cbn [pending analysisStatus];
      try rewrite St; destruct throws; lia.
  - destruct (pending s) as [|n] eqn:P; [discriminate|]. injection E as <-.
    cbn [pending analysisStatus]. destruct (analysisStatus s); lia.
  - destruct (pending s) as [|n] eqn:P; [discriminate|]. injection E as <-.
    cbn [pending analysisStatus]. destruct (analysisStatus s); lia.
  - injection E as <-. cbn [pending analysisStatus]. destruct (analysisStatus s); lia.
Qed.

Lemma resets_cons (e : Event) (r : list Event) : resets (e :: r) = resets [e] + resets r.
Proof. unfold resets. cbn [filter]. destruct e; reflexivity. Qed.

Lemma run_bound (trace : list Event) :
  forall (k : nat) (s s' : State),
    pending s <= k + match analysisStatus s with loading => 1 | _ => 0 end ->
    run s trace = Some s' ->
    pending s' <= k + resets trace + match analysisStatus s' with loading => 1 | _ => 0 end.
Proof.
  induction trace as [|e r IH]; intros k s s' H E.
  - injection E as <-. unfold resets. cbn [filter List.length]. now rewrite Nat.add_0_r.
  - cbn [run] in E. destruct (step s e) as [s1|] eqn:S1; [|discriminate].
    pose proof (IH _ _ _ (step_bound k s s1 e H S1) E) as H'.
    rewrite resets_cons. lia.
Qed.

End AnalysisFacts.

(** X11.  The analysis requests in flight never exceed one plus the
    number of resets: the guard on [analysisStatus] keeps a second click
    from sending a second request, but a reset puts the status back to
    idle while the request it leaves behind is still pending. *)
Theorem analysis_requests_bounded (trace : list Analysis.Event) (s : Analysis.State) :
  Analysis.run Analysis.initial trace = Some s ->
  (Analysis.pending s <= 1 + Analysis.resets trace)%nat.
Proof.
  intros E.
  pose proof (AnalysisFacts.run_bound trace 0%nat Analysis.initial s (Nat.le_0_l _) E) as H.
  destruct (Analysis.analysisStatus s); lia.
Qed.

(** [analysis_requests_bounded] on click, click, reset, click: two
    requests are in flight. *)
Lemma analysis_requests_bounded_witness :
  exists s,
    Analysis.run Analysis.initial
      [Analysis.Click false; Analysis.Click false; Analysis.Reset; Analysis.Click false]
    = Some s /\
    Analysis.pending s = 2%nat /\
    (Analysis.pending s <= 1 + 1)%nat.
Proof.
  eexists. split; [reflexivity|]. split; [reflexivity|].
  exact (analysis_requests_bounded
           [Analysis.Click false; Analysis.Click false; Analysis.Reset; Analysis.Click false]
           _ eq_refl).
Defined.

(** ** What every state of the viewer session satisfies *)

Module LifecycleFacts.

Import Session Lifecycle.
Local Open Scope nat_scope.

Lemma nth_error_set_socket_other (ws i : nat) (r : ReadyState) (l : list ReadyState) :
  ws < List.length l -> i <> ws -> nth_error (set_socket ws r l) i = nth_error l i.
Proof.
  intros Hlen Hne. unfold set_socket.
  destruct (Nat.lt_ge_cases i ws) as [Hlt|Hge].
  - rewrite nth_error_app1 by (rewrite firstn_length_le; lia).
    rewrite nth_error_firstn. destruct (Nat.ltb_spec i ws); [reflexivity|lia].
  - rewrite nth_error_app2 by (rewrite firstn_length_le; lia).
    rewrite firstn_length_le by lia.
    destruct (i - ws) as [|d] eqn:D; [lia|]. cbn [nth_error].
    rewrite nth_error_skipn. f_equal. lia.
Qed.

Lemma nth_error_lt (l : list ReadyState) (i : nat) (r : ReadyState) :
  nth_error l i = Some r -> i < List.length l.
Proof. intros H. apply nth_error_Some. congruence. Qed.

Ltac invariant_goals :=
  split;
  [ intros i0 r0 Hn0 Hl0
  | split;
    [ | split;
        [ | split;
            [ intros Hc0
            | split;
              [ intros Hu0 i0
              | intros Hu0; split; [ intros Hc0 | intros [w0 [Hw0 Ho0]] ] ] ] ] ] ].

Lemma invariant_mount (throws : bool) : invariant (mount throws).
Proof.
  destruct throws; unfold invariant, mount, connectWebSocket;
    cbn [sockets timers wsRef connected unmounted]; invariant_goals;
    try discriminate; try reflexivity; try (cbn; lia).
  - destruct i0; discriminate.
  - destruct i0; discriminate.
  - destruct i0 as [|[|i0]]; try discriminate. split; reflexivity.
  - destruct i0 as [|[|i0]]; discriminate.
  - injection Hw0 as <-. discriminate.
Qed.

Lemma wsRef_newest (s : State) (ws : nat) (r : ReadyState) :
  invariant s -> nth_error (sockets s) ws = Some r -> live r = true ->
  wsRef s = Some ws /\ timers s = [].
Proof.
  intros (I4 & _ & I2 & _) Hn Hl. destruct (I4 ws r Hn Hl) as [Hlen Ht].
  split; [|exact Ht]. destruct (wsRef s) as [w|].
  - f_equal. lia.
  - rewrite I2 in Hn. destruct ws; discriminate.
Qed.

Lemma step_invariant (s s' : State) (e : Event) :
  invariant s -> step s e = Some s' -> invariant s'.
Proof.
  intros I E. pose proof I as (I4 & I1 & I2 & I3a & I5 & I3).
  destruct e as [ws|ws|ws|k throws|ms|]; cbn [step] in E.
  - (* Opened *)
    destruct (nth_error (sockets s) ws) as [[]|] eqn:N; try discriminate.
    injection E as <-.
    destruct (wsRef_newest s ws CONNECTING I N eq_refl) as [W T].
    destruct (I4 ws CONNECTING N eq_refl) as [Hlen _].
    assert (Lt : ws < List.length (sockets s)) by lia.
    unfold invariant. cbn [onopen with_sockets sockets timers wsRef connected unmounted].
    rewrite (SessionFacts.set_socket_length ws OPEN CONNECTING _ N).
    invariant_goals.
    + split; [|exact T]. destruct (Nat.eq_dec i0 ws) as [->|Hne]; [lia|].
      rewrite (nth_error_set_socket_other ws i0 OPEN _ Lt Hne) in Hn0.
      exact (proj1 (I4 i0 r0 Hn0 Hl0)).
    + exact I1.
    + rewrite W. exact Hlen.
    + exists ws, OPEN. rewrite W.
      now rewrite (SessionFacts.nth_error_set_socket ws OPEN CONNECTING _ N).
    + destruct (Nat.eq_dec i0 ws) as [->|Hne].
      * rewrite (SessionFacts.nth_error_set_socket ws OPEN CONNECTING _ N). discriminate.
      * rewrite (nth_error_set_socket_other ws i0 OPEN _ Lt Hne). exact (I5 Hu0 i0).
    + exists ws. rewrite W.
      now rewrite (SessionFacts.nth_error_set_socket ws OPEN CONNECTING _ N).
    + reflexivity.
  - (* Errored *)
    destruct (nth_error (sockets s) ws) as [[]|] eqn:N; try discriminate;
      injection E as <-; exact I.
  - (* Closed *)
    assert (H : exists r, nth_error (sockets s) ws = Some r /\ live r = true /\
                          s' = onclose (with_sockets (set_socket ws CLOSED (sockets s)) s)).
    { destruct (nth_error (sockets s) ws) as [[]|] eqn:N; try discriminate;
        injection E as <-; eexists; repeat split. }
    destruct H as (r & N & L & ->).
    destruct (wsRef_newest s ws r I N L) as [W T].
    destruct (I4 ws r N L) as [Hlen _].
    assert (Lt : ws < List.length (sockets s)) by lia.
    assert (Dead : forall i r', nth_error (set_socket ws CLOSED (sockets s)) i = Some r' ->
                                live r' = true -> False).
    { intros i r' H Hl. destruct (Nat.eq_dec i ws) as [->|Hne].
      - rewrite (SessionFacts.nth_error_set_socket ws CLOSED r _ N) in H.
        injection H as <-. discriminate.
      - rewrite (nth_error_set_socket_other ws i CLOSED _ Lt Hne) in H.
        destruct (I4 i r' H Hl) as [Hi _]. lia. }
    unfold invariant. cbn [onclose with_sockets sockets timers wsRef connected unmounted].
    rewrite (SessionFacts.set_socket_length ws CLOSED r _ N), T.
    invariant_goals; try discriminate.
    + elim (Dead i0 r0 Hn0 Hl0).
    + cbn. lia.
    + rewrite W. exact Hlen.
    + destruct (Nat.eq_dec i0 ws) as [->|Hne].
      * rewrite (SessionFacts.nth_error_set_socket ws CLOSED r _ N). discriminate.
      * rewrite (nth_error_set_socket_other ws i0 CLOSED _ Lt Hne). exact (I5 Hu0 i0).
    + rewrite W in Hw0. injection Hw0 as <-.
      rewrite (SessionFacts.nth_error_set_socket ws CLOSED r _ N) in Ho0. discriminate.
  - (* Fired *)
    destruct (nth_error (timers s) k) as [due|] eqn:N; [|discriminate].
    destruct (due <=? clock s); [|discriminate]. injection E as <-.
    assert (T : timers s = [due] /\ k = 0).
    { destruct (timers s) as [|a [|b t]]; cbn in I1.
      - destruct k; discriminate.
      - destruct k as [|[|k]]; try discriminate. injection N as ->. now split.
      - lia. }
    destruct T as [T ->].
    assert (Dead : forall i r, nth_error (sockets s) i = Some r -> live r = true -> False).
    { intros i r H Hl. destruct (I4 i r H Hl) as [_ Ht]. congruence. }
    assert (C : connected s = false).
    { destruct (connected s) eqn:C; [|reflexivity].
      destruct (I3a eq_refl) as (w & r & _ & Hn & Hl). elim (Dead w r Hn Hl). }
    unfold invariant. rewrite T. cbn [remove_at].
    destruct throws; unfold connectWebSocket;
      cbn [sockets timers wsRef connected unmounted clock error]; rewrite C.
    + invariant_goals; try discriminate.
      * elim (Dead i0 r0 Hn0 Hl0).
      * cbn. lia.
      * exact I2.
      * exact (I5 Hu0 i0).
      * elim (Dead w0 OPEN Ho0 eq_refl).
    + rewrite length_app. cbn [List.length].
      invariant_goals; try discriminate.
      * destruct (Nat.lt_ge_cases i0 (List.length (sockets s))) as [Hlt|Hge].
        -- rewrite nth_error_app1 in Hn0 by exact Hlt. elim (Dead i0 r0 Hn0 Hl0).
        -- apply nth_error_lt in Hn0. rewrite length_app in Hn0. cbn in Hn0.
           split; [lia|reflexivity].
      * cbn. lia.
      * lia.
      * destruct (Nat.lt_ge_cases i0 (List.length (sockets s))) as [Hlt|Hge].
        -- rewrite nth_error_app1 by exact Hlt. exact (I5 Hu0 i0).
        -- rewrite nth_error_app2 by exact Hge.
           destruct (i0 - List.length (sockets s)) as [|[|d]]; discriminate.
      * injection Hw0 as <-.
        rewrite SessionFacts.nth_error_last in Ho0. discriminate.
  - (* Tick *)
    injection E as <-. exact I.
  - (* Unmount *)
    destruct (unmounted s) eqn:U; [discriminate|]. injection E as <-.
    unfold invariant, cleanup. cbn [sockets timers wsRef connected unmounted].
    assert (Hlen : List.length
                     match wsRef s with Some ws => close ws (sockets s) | None => sockets s end
                   = List.length (sockets s)).
    { destruct (wsRef s); [apply SessionFacts.close_length|reflexivity]. }
    rewrite Hlen.
    assert (Same : forall i r,
               nth_error match wsRef s with Some ws => close ws (sockets s) | None => sockets s end i
               = Some r -> live r = true ->
               exists r0, nth_error (sockets s) i = Some r0 /\ live r0 = true).
    { intros i r H Hl. destruct (wsRef s) as [ws|]; [|now exists r].
      unfold close in H.
      destruct (nth_error (sockets s) ws) as [r0|] eqn:N; [|now exists r].
      assert (Lt : ws < List.length (sockets s)) by exact (nth_error_lt _ _ _ N).
      destruct (Nat.eq_dec i ws) as [->|Hne].
      - exists r0. split; [exact N|]. destruct r0; try reflexivity.
        rewrite N in H. injection H as <-. exact Hl.
      - exists r. split; [|exact Hl].
        destruct r0; try exact H;
          now rewrite (nth_error_set_socket_other ws i CLOSING _ Lt Hne) in H. }
    invariant_goals; try discriminate.
    + destruct (Same i0 r0 Hn0 Hl0) as (r1 & H1 & H2). exact (I4 i0 r1 H1 H2).
    + exact I1.
    + destruct (wsRef s); exact I2.
    + destruct (I3a Hc0) as (w & r & Hw & Hn & Hl). rewrite Hw.
      unfold close. rewrite Hn.
      destruct r; try discriminate Hl.
      * exists w, CLOSING. repeat split.
        exact (SessionFacts.nth_error_set_socket w CLOSING CONNECTING _ Hn).
      * exists w, CLOSING. repeat split.
        exact (SessionFacts.nth_error_set_socket w CLOSING OPEN _ Hn).
      * exists w, CLOSING. repeat split. exact Hn.
Qed.

Lemma run_invariant (trace : list Event) :
  forall s s', invariant s -> run s trace = Some s' -> invariant s'.
Proof.
  induction trace as [|e r IH]; intros s s' I E.
  - injection E as <-. exact I.
  - cbn [run] in E. destruct (step s e) as [s1|] eqn:S1; [|discriminate].
    exact (IH s1 s' (step_invariant s s1 e I S1) E).
Qed.

Lemma reachable_invariant (throws : bool) (trace : list Event) (s : State) :
  run (mount throws) trace = Some s -> invariant s.
Proof. exact (run_invariant trace _ _ (invariant_mount throws)). Qed.

End LifecycleFacts.

Module LifecycleMore.

Import Session Lifecycle.
Local Open Scope nat_scope.

Lemma filter_live_nil (l : list ReadyState) :
  (forall i r, nth_error l i = Some r -> live r = false) -> filter live l = [].
Proof.
  induction l as [|a l IH]; intros H; [reflexivity|].
  cbn [filter]. rewrite (H 0 a eq_refl). apply IH.
  intros i r Hn. exact (H (S i) r Hn).
Qed.

Lemma newest_only_live (l : list ReadyState) :
  (forall i r, nth_error l i = Some r -> live r = true -> S i = List.length l) ->
  List.length (filter live l) <= 1.
Proof.
  destruct l as [|a l] using rev_ind; intros H; [cbn; lia|].
  rewrite filter_app, length_app.
  rewrite (filter_live_nil l).
  - cbn [filter List.length]. destruct (live a); cbn; lia.
  - intros i r Hn. destruct (live r) eqn:L; [|reflexivity].
    assert (Hi : i < List.length l) by (apply nth_error_Some; congruence).
    assert (Hn' : nth_error (l ++ [a]) i = Some r) by (now rewrite nth_error_app1).
    pose proof (H i r Hn' L) as E. rewrite length_app in E. cbn in E. lia.
Qed.

Lemma filter_live_In (l : list ReadyState) :
  filter live l = [] -> forall i r, nth_error l i = Some r -> live r = false.
Proof.
  intros F i r Hn. destruct (live r) eqn:L; [|reflexivity].
  assert (In r (filter live l)) by (apply filter_In; split; [eapply nth_error_In; eassumption|exact L]).
  rewrite F in H. contradiction.
Qed.

(** A session with no live socket and no pending timeout is at rest. *)
Lemma at_rest (trace : list Event) :
  forall s s',
    filter live (sockets s) = [] -> timers s = [] -> run s trace = Some s' ->
    filter live (sockets s') = [] /\ timers s' = [] /\
    attempts s' = attempts s /\ connected s' = connected s.
Proof.
  induction trace as [|e r IH]; intros s s' F T E.
  - injection E as <-. repeat split; assumption.
  - cbn [run] in E. destruct (step s e) as [s1|] eqn:S1; [|discriminate].
    assert (H1 : sockets s1 = sockets s /\ timers s1 = [] /\ connected s1 = connected s).
    { destruct e as [ws|ws|ws|k throws|ms|]; cbn [step] in S1.
      - destruct (nth_error (sockets s) ws) as [r0|] eqn:N; [|discriminate].
        pose proof (filter_live_In _ F ws r0 N). destruct r0; discriminate.
      - destruct (nth_error (sockets s) ws) as [r0|] eqn:N; [|discriminate].
        pose proof (filter_live_In _ F ws r0 N). destruct r0; discriminate.
      - destruct (nth_error (sockets s) ws) as [r0|] eqn:N; [|discriminate].
        pose proof (filter_live_In _ F ws r0 N). destruct r0; discriminate.
      - rewrite T in S1. destruct k; discriminate.
      - injection S1 as <-. repeat split; assumption.
      - destruct (unmounted s); [discriminate|]. injection S1 as <-.
        unfold cleanup. cbn [sockets timers connected]. repeat split; [|assumption].
        destruct (wsRef s) as [ws|]; [|reflexivity]. unfold close.
        destruct (nth_error (sockets s) ws) as [r0|] eqn:N; [|reflexivity].
        pose proof (filter_live_In _ F ws r0 N). destruct r0; try discriminate; reflexivity. }
    destruct H1 as (Hs & Ht & Hc).
    assert (F1 : filter live (sockets s1) = []) by (now rewrite Hs).
    destruct (IH s1 s' F1 Ht E) as (A & B & C & D).
    repeat split; try assumption.
    + rewrite C. unfold attempts. now rewrite Hs.
    + congruence.
Qed.

End LifecycleMore.

(** X12.  Within one run of the effect, whatever the browser does, the
    sockets that are not CLOSED and the pending reconnect timeouts number
    at most one together: never two live sockets, never two pending
    reconnects, never a live socket and a pending reconnect. *)
Theorem one_connection_at_a_time (throws : bool) (trace : list Session.Event)
  (s : Session.State) :
  Session.run (Session.mount throws) trace = Some s ->
  (List.length (filter Lifecycle.live (Session.sockets s))
   + List.length (Session.timers s) <= 1)%nat.
Proof.
  intros R.
  destruct (LifecycleFacts.reachable_invariant throws trace s R) as (I4 & I1 & _).
  assert (L : (List.length (filter Lifecycle.live (Session.sockets s)) <= 1)%nat).
  { apply LifecycleMore.newest_only_live. intros i r Hn Hl. exact (proj1 (I4 i r Hn Hl)). }
  destruct (filter Lifecycle.live (Session.sockets s)) as [|a t] eqn:F; [cbn; lia|].
  assert (Ha : In a (filter Lifecycle.live (Session.sockets s))) by (rewrite F; now left).
  apply filter_In in Ha. destruct Ha as [Hin Hl].
  destruct (In_nth_error _ _ Hin) as [i Hn].
  rewrite (proj2 (I4 i a Hn Hl)). cbn in L |- *. lia.
Qed.

(** [one_connection_at_a_time] after the first reconnect. *)
Lemma one_connection_at_a_time_witness :
  exists s,
    Session.run (Session.mount false)
      [Session.Opened 0; Session.Closed 0; Session.Tick 3000; Session.Fired 0 false]
    = Some s /\
    Session.attempts s = 2%nat /\
    (List.length (filter Lifecycle.live (Session.sockets s))
     + List.length (Session.timers s) <= 1)%nat.
Proof.
  eexists. split; [reflexivity|]. split; [reflexivity|].
  exact (one_connection_at_a_time false
           [Session.Opened 0; Session.Closed 0; Session.Tick 3000; Session.Fired 0 false]
           _ eq_refl).
Defined.

(** X13.  Until the cleanup runs, [connected] is set exactly when the
    socket [wsRef] holds is OPEN. *)
Theorem connected_iff_open (throws : bool) (trace : list Session.Event)
  (s : Session.State) :
  Session.run (Session.mount throws) trace = Some s ->
  Session.unmounted s = false ->
  (Session.connected s = true <-> Session.phase s = Session.Open).
Proof.
  intros R U.
  destruct (LifecycleFacts.reachable_invariant throws trace s R) as (_ & _ & _ & _ & _ & I3).
  rewrite (I3 U). split.
  - intros [ws [Hw Hn]]. unfold Session.phase. now rewrite U, Hw, Hn.
  - intros P. exact (proj2 (SessionFacts.phase_open_inv s P)).
Qed.

(** [connected_iff_open] after the socket opened and reported an error. *)
Lemma connected_iff_open_witness :
  exists s,
    Session.run (Session.mount false) [Session.Opened 0; Session.Errored 0] = Some s /\
    (Session.connected s = true <-> Session.phase s = Session.Open).
Proof.
  eexists. split; [reflexivity|].
  exact (connected_iff_open false [Session.Opened 0; Session.Errored 0] _ eq_refl eq_refl).
Defined.

(** X14.  When [new WebSocket] throws, on mount or when a reconnect
    timeout fires, the session never connects again: the [catch] arms no
    timeout, so no event that can still happen creates a socket. *)
Theorem failed_constructor_ends_reconnection (s1 s2 : Session.State)
  (later : list Session.Event) :
  (s1 = Session.mount true \/
   exists throws trace k s,
     Session.run (Session.mount throws) trace = Some s /\
     Session.step s (Session.Fired k true) = Some s1) ->
  Session.run s1 later = Some s2 ->
  Session.attempts s2 = Session.attempts s1 /\
  Session.timers s2 = [] /\
  Session.connected s2 = false.
Proof.
  intros [->|(throws & trace & k & s & R & F)] L.
  - destruct (LifecycleMore.at_rest later (Session.mount true) s2 eq_refl eq_refl L)
      as (_ & B & A & D).
    repeat split; [exact A|exact B|exact D].
  - destruct (LifecycleFacts.reachable_invariant throws trace s R)
      as (I4 & I1 & _ & I3a & _).
    cbn [Session.step] in F.
    destruct (nth_error (Session.timers s) k) as [due|] eqn:N; [|discriminate].
    destruct (due <=? Session.clock s)%nat; [|discriminate]. injection F as <-.
    assert (T : Session.timers s = [due] /\ k = 0%nat).
    { destruct (Session.timers s) as [|a [|b t]]; cbn in I1.
      - destruct k; discriminate.
      - destruct k as [|[|k]]; try discriminate. injection N as ->. now split.
      - lia. }
    destruct T as [T ->].
    assert (Dead : filter Lifecycle.live (Session.sockets s) = []).
    { apply LifecycleMore.filter_live_nil. intros i r Hn.
      destruct (Lifecycle.live r) eqn:Hl; [|reflexivity].
      destruct (I4 i r Hn Hl) as [_ Ht]. congruence. }
    assert (C : Session.connected s = false).
    { destruct (Session.connected s) eqn:C; [|reflexivity].
      destruct (I3a eq_refl) as (w & r & _ & Hn & Hl).
      pose proof (LifecycleMore.filter_live_In _ Dead w r Hn). congruence. }
    unfold Session.connectWebSocket in L |- *. rewrite T in L |- *.
    cbn [Session.remove_at] in L |- *.
    match type of L with
    | Session.run ?s1 _ = _ =>
        destruct (LifecycleMore.at_rest later s1 s2 Dead eq_refl L) as (_ & B & A & D)
    end.
    repeat split; [exact A|exact B|]. rewrite D. exact C.
Qed.

(** [failed_constructor_ends_reconnection] on open, close, three seconds,
    a throwing reconnect, then four more seconds and the cleanup. *)
Lemma failed_constructor_ends_reconnection_witness :
  exists s s1 s2,
    Session.run (Session.mount false)
      [Session.Opened 0; Session.Closed 0; Session.Tick 3000] = Some s /\
    Session.step s (Session.Fired 0 true) = Some s1 /\
    Session.run s1 [Session.Tick 4000; Session.Unmount] = Some s2 /\
    Session.attempts s = 1%nat /\
    Session.attempts s2 = Session.attempts s1 /\
    Session.timers s2 = [] /\
    Session.connected s2 = false.
Proof.
  eexists. eexists. eexists.
  split; [reflexivity|]. split; [reflexivity|]. split; [reflexivity|].
  split; [reflexivity|].
  eapply (failed_constructor_ends_reconnection _ _ [Session.Tick 4000; Session.Unmount]);
    [|reflexivity].
  right. exists false, [Session.Opened 0; Session.Closed 0; Session.Tick 3000], 0%nat.
  eexists. split; reflexivity.
Defined.

(** ** Attempts and closes *)

Module AttemptFacts.

Import Session Lifecycle.
Local Open Scope nat_scope.

Lemma closes_cons (e : Event) (r : list Event) : closes (e :: r) = closes [e] + closes r.
Proof. unfold closes. cbn [filter]. destruct e; reflexivity. Qed.

Lemma length_remove_at (k : nat) (l : list nat) (d : nat) :
  nth_error l k = Some d -> S (List.length (remove_at k l)) = List.length l.
Proof.
  revert k. induction l as [|a l IH]; intros [|k] H; try discriminate H.
  - reflexivity.
  - cbn [remove_at List.length]. f_equal. exact (IH k H).
Qed.

Lemma step_attempts (s s' : State) (e : Event) :
  step s e = Some s' ->
  attempts s' + List.length (timers s') <= attempts s + List.length (timers s) + closes [e].
Proof.
  unfold attempts, closes. intros E.
  destruct e as [ws|ws|ws|k throws|ms|]; cbn [step] in E; cbn [filter List.length].
  - destruct (nth_error (sockets s) ws) as [[]|] eqn:N; try discriminate.
    injection E as <-. cbn [onopen with_sockets sockets timers].
    rewrite (SessionFacts.set_socket_length ws OPEN CONNECTING _ N). lia.
  - destruct (nth_error (sockets s) ws) as [[]|] eqn:N; try discriminate;
      injection E as <-; cbn [onerror sockets timers]; lia.
  - destruct (nth_error (sockets s) ws) as [r|] eqn:N; [|discriminate].
    assert (E' : s' = onclose (with_sockets (set_socket ws CLOSED (sockets s)) s))
      by (destruct r; try discriminate; now injection E as <-).
    subst s'. cbn [onclose with_sockets sockets timers].
    rewrite (SessionFacts.set_socket_length ws CLOSED r _ N), length_app. cbn. lia.
  - destruct (nth_error (timers s) k) as [due|] eqn:N; [|discriminate].
    destruct (due <=? clock s); [|discriminate]. injection E as <-.
    pose proof (length_remove_at k (timers s) due N) as L.
    destruct throws; unfold connectWebSocket; cbn [sockets timers].
    + lia.
    + rewrite length_app. cbn. lia.
  - injection E as <-. cbn [sockets timers]. lia.
  - destruct (unmounted s); [discriminate|]. injection E as <-.
    unfold cleanup. cbn [sockets timers].
    destruct (wsRef s); [rewrite SessionFacts.close_length|]; lia.
Qed.

Lemma run_attempts (trace : list Event) :
  forall s s', run s trace = Some s' ->
    attempts s' + List.length (timers s') <= attempts s + List.length (timers s) + closes trace.
Proof.
  induction trace as [|e r IH]; intros s s' E.
  - injection E as <-. unfold closes. cbn. lia.
  - cbn [run] in E. destruct (step s e) as [s1|] eqn:S1; [|discriminate].
    pose proof (step_attempts s s1 e S1). pose proof (IH s1 s' E).
    rewrite closes_cons. lia.
Qed.

End AttemptFacts.

(** X15.  The connection attempts made and the reconnects pending never
    exceed, together, one plus the number of transports that closed: a
    close causes at most one new attempt. *)
Theorem one_attempt_per_close (throws : bool) (trace : list Session.Event)
  (s : Session.State) :
  Session.run (Session.mount throws) trace = Some s ->
  (Session.attempts s + List.length (Session.timers s) <= 1 + Lifecycle.closes trace)%nat.
Proof.
  intros R. pose proof (AttemptFacts.run_attempts trace _ _ R) as H.
  destruct throws; cbn in H; lia.
Qed.

(** [one_attempt_per_close] after two closes. *)
Lemma one_attempt_per_close_witness :
  exists s,
    Session.run (Session.mount false)
      [Session.Opened 0; Session.Closed 0; Session.Tick 3000; Session.Fired 0 false;
       Session.Errored 1; Session.Closed 1]
    = Some s /\
    Session.attempts s = 2%nat /\
    (Session.attempts s + List.length (Session.timers s) <= 1 + 2)%nat.
Proof.
  eexists. split; [reflexivity|]. split; [reflexivity|].
  exact (one_attempt_per_close false
           [Session.Opened 0; Session.Closed 0; Session.Tick 3000; Session.Fired 0 false;
            Session.Errored 1; Session.Closed 1] _ eq_refl).
Defined.

(** ** The order of numbers is transitive *)

Module OrderFacts.

Ltac order_cases :=
  repeat match goal with
         | |- context [(?x ?= ?y)%Z] => destruct (Z.compare_spec x y)
         | |- context [Pos.compare_cont Eq ?x ?y] =>
             change (Pos.compare_cont Eq x y) with (Pos.compare x y)
         | |- context [(?x ?= ?y)%positive] => destruct (Pos.compare_spec x y)
         end;
  simpl; try discriminate; try reflexivity; try (exfalso; lia).

Ltac by_order a b c :=
  unfold lt, le, SFltb, SFleb;
  destruct a as [[]|[]| |[] ? ?], b as [[]|[]| |[] ? ?], c as [[]|[]| |[] ? ?];
  simpl; try discriminate; try reflexivity; order_cases.

Lemma lt_le_trans (a b c : number) :
  lt a b = true -> le b c = true -> lt a c = true.
Proof. by_order a b c. Qed.

Lemma le_lt_trans (a b c : number) :
  le a b = true -> lt b c = true -> lt a c = true.
Proof. by_order a b c. Qed.

Lemma le_trans (a b c : number) :
  le a b = true -> le b c = true -> le a c = true.
Proof. by_order a b c. Qed.

Lemma lt_not_nan_l (a b : number) : lt a b = true -> isNaN a = false.
Proof. destruct a; [reflexivity|reflexivity|discriminate|reflexivity]. Qed.

Lemma lt_nan_l (b : number) : lt NaN b = false.
Proof. reflexivity. Qed.

End OrderFacts.

(** ** The colour bands of the device panel *)

Section ColorFacts.

Import DeviceInfo.

Variable StringToNumber : string -> number.
Variable NumberToString : number -> string.

Abbreviation toNumber := (ToNumber StringToNumber NumberToString).

Abbreviation banded := (DeviceInfo.banded StringToNumber NumberToString).

Lemma getTempColor_banded (temp : value) :
  getTempColor StringToNumber NumberToString temp = banded (of_Z 60) (of_Z 75) temp.
Proof.
  unfold getTempColor, DeviceInfo.banded, less_than. destruct (truthy temp); [|reflexivity].
  cbn [negb]. destruct (toNumber temp) as [n|]; [|reflexivity].
  cbn [bind]. destruct (lt n (of_Z 60)); [reflexivity|]. now destruct (lt n (of_Z 75)).
Qed.

Lemma getMemoryColor_banded (percent : value) :
  getMemoryColor StringToNumber NumberToString percent = banded (of_Z 70) (of_Z 85) percent.
Proof.
  unfold getMemoryColor, DeviceInfo.banded, less_than. destruct (truthy percent); [|reflexivity].
  cbn [negb]. destruct (toNumber percent) as [n|]; [|reflexivity].
  cbn [bind]. destruct (lt n (of_Z 70)); [reflexivity|]. now destruct (lt n (of_Z 85)).
Qed.

Lemma banded_spec (lo hi : number) (v : value) (n : number) :
  lt lo hi = true -> toNumber v = Ok n ->
  (banded lo hi v = Ok "text-gray-400" <-> truthy v = false) /\
  (banded lo hi v = Ok "text-green-400" <-> truthy v = true /\ lt n lo = true) /\
  (banded lo hi v = Ok "text-yellow-400" <->
     truthy v = true /\ le lo n = true /\ lt n hi = true) /\
  (banded lo hi v = Ok "text-red-400" <->
     truthy v = true /\ (le hi n = true \/ isNaN n = true)).
Proof.
  intros Hlh Hn. unfold DeviceInfo.banded. rewrite Hn. cbn [bind].
  assert (Hlo : isNaN lo = false) by exact (OrderFacts.lt_not_nan_l lo hi Hlh).
  assert (Hhi : isNaN hi = false) by exact (NumFacts.le_not_nan_r lo hi (NumFacts.lt_le lo hi Hlh)).
  destruct (truthy v); cbn [negb]; [|intuition congruence].
  destruct (isNaN n) eqn:Enan.
  { destruct n; try discriminate Enan. cbn [lt SFltb SFcompare].
    change (le lo S754_nan) with (SFleb lo S754_nan).
    change (le hi S754_nan) with (SFleb hi S754_nan).
    unfold SFleb. rewrite !(proj2 (NumFacts.compare_nan_iff _ S754_nan)) by (now right).
    intuition congruence. }
  destruct (lt n lo) eqn:E1.
  { assert (E2 : le hi n = false).
    { destruct (le hi n) eqn:E; [|reflexivity].
      pose proof (OrderFacts.lt_le_trans lo hi n Hlh E) as H.
      pose proof (NumFacts.le_not_lt lo n (NumFacts.lt_le lo n H)). congruence. }
    assert (E3 : le lo n = false).
    { destruct (le lo n) eqn:E; [|reflexivity].
      pose proof (NumFacts.le_not_lt lo n E). congruence. }
    rewrite E2, E3. intuition congruence. }
  assert (E3 : le lo n = true) by exact (NumFacts.not_lt_le lo n Hlo Enan E1).
  destruct (lt n hi) eqn:E2.
  { assert (E4 : le hi n = false).
    { destruct (le hi n) eqn:E; [|reflexivity].
      pose proof (NumFacts.le_not_lt hi n E). congruence. }
    rewrite E3, E4. intuition congruence. }
  assert (E4 : le hi n = true) by exact (NumFacts.not_lt_le hi n Hhi Enan E2).
  rewrite E3, E4. intuition congruence.
Qed.

(** X16.  [getTempColor] by the number [n] its argument converts to: grey
    exactly for a falsy reading ([0] included); otherwise green below 60,
    yellow from 60 up to 75, red from 75 on and also when [n] is NaN. *)
Theorem getTempColor_bands (temp : value) (n : number) :
  toNumber temp = Ok n ->
  let color := getTempColor StringToNumber NumberToString temp in
  (color = Ok "text-gray-400" <-> truthy temp = false) /\
  (color = Ok "text-green-400" <-> truthy temp = true /\ lt n (of_Z 60) = true) /\
  (color = Ok "text-yellow-400" <->
     truthy temp = true /\ le (of_Z 60) n = true /\ lt n (of_Z 75) = true) /\
  (color = Ok "text-red-400" <->
     truthy temp = true /\ (le (of_Z 75) n = true \/ isNaN n = true)).
Proof.
  intros Hn color. unfold color. rewrite getTempColor_banded.
  apply banded_spec; [reflexivity|exact Hn].
Qed.

(** X17.  [getMemoryColor] by the number [n] its argument converts to:
    grey exactly for a falsy reading ([0] included); otherwise green below
    70, yellow from 70 up to 85, red from 85 on and also when [n] is
    NaN. *)
Theorem getMemoryColor_bands (percent : value) (n : number) :
  toNumber percent = Ok n ->
  let color := getMemoryColor StringToNumber NumberToString percent in
  (color = Ok "text-gray-400" <-> truthy percent = false) /\
  (color = Ok "text-green-400" <-> truthy percent = true /\ lt n (of_Z 70) = true) /\
  (color = Ok "text-yellow-400" <->
     truthy percent = true /\ le (of_Z 70) n = true /\ lt n (of_Z 85) = true) /\
  (color = Ok "text-red-400" <->
     truthy percent = true /\ (le (of_Z 85) n = true \/ isNaN n = true)).
Proof.
  intros Hn color. unfold color. rewrite getMemoryColor_banded.
  apply banded_spec; [reflexivity|exact Hn].
Qed.

Lemma banded_monotone (lo hi a b : number) :
  truthy (VNum a) = true -> truthy (VNum b) = true -> le a b = true ->
  exists ca cb,
    banded lo hi (VNum a) = Ok ca /\ banded lo hi (VNum b) = Ok cb /\
    (severity ca <= severity cb)%nat.
Proof.
  intros Ta Tb Hab. unfold DeviceInfo.banded. rewrite Ta, Tb. cbn [negb ToNumber bind].
  eexists. eexists. split; [reflexivity|]. split; [reflexivity|].
  destruct (lt b lo) eqn:Eb1.
  - rewrite (OrderFacts.le_lt_trans a b lo Hab Eb1). cbn. lia.
  - destruct (lt b hi) eqn:Eb2.
    + rewrite (OrderFacts.le_lt_trans a b hi Hab Eb2).
      destruct (lt a lo); cbn; lia.
    + destruct (lt a lo); [cbn; lia|]. destruct (lt a hi); cbn; lia.
Qed.

(** X18.  Both colour functions are monotone on the readings they do not
    grey out: of two non-zero numbers, the larger never gets the calmer
    colour. *)
Theorem color_monotone (a b : number) :
  truthy (VNum a) = true -> truthy (VNum b) = true -> le a b = true ->
  (exists ca cb,
     getTempColor StringToNumber NumberToString (VNum a) = Ok ca /\
     getTempColor StringToNumber NumberToString (VNum b) = Ok cb /\
     (severity ca <= severity cb)%nat) /\
  (exists ca cb,
     getMemoryColor StringToNumber NumberToString (VNum a) = Ok ca /\
     getMemoryColor StringToNumber NumberToString (VNum b) = Ok cb /\
     (severity ca <= severity cb)%nat).
Proof.
  intros Ta Tb Hab. rewrite !getTempColor_banded, !getMemoryColor_banded.
  split; apply banded_monotone; assumption.
Qed.

End ColorFacts.

(** [getTempColor_bands] on a reading of 80 degrees. *)
Lemma getTempColor_bands_witness :
  let color :=
    DeviceInfo.getTempColor Sample.StringToNumber Sample.NumberToString (Sample.int 80) in
  (color = Ok "text-gray-400" <-> truthy (Sample.int 80) = false) /\
  (color = Ok "text-green-400" <->
     truthy (Sample.int 80) = true /\ lt (of_Z 80) (of_Z 60) = true) /\
  (color = Ok "text-yellow-400" <->
     truthy (Sample.int 80) = true /\ le (of_Z 60) (of_Z 80) = true /\
     lt (of_Z 80) (of_Z 75) = true) /\
  (color = Ok "text-red-400" <->
     truthy (Sample.int 80) = true /\
     (le (of_Z 75) (of_Z 80) = true \/ isNaN (of_Z 80) = true)).
Proof.
  exact (getTempColor_bands Sample.StringToNumber Sample.NumberToString
           (Sample.int 80) (of_Z 80) eq_refl).
Defined.

(** [getMemoryColor_bands] on a use of 72 percent. *)
Lemma getMemoryColor_bands_witness :
  let color :=
    DeviceInfo.getMemoryColor Sample.StringToNumber Sample.NumberToString (Sample.int 72) in
  (color = Ok "text-gray-400" <-> truthy (Sample.int 72) = false) /\
  (color = Ok "text-green-400" <->
     truthy (Sample.int 72) = true /\ lt (of_Z 72) (of_Z 70) = true) /\
  (color = Ok "text-yellow-400" <->
     truthy (Sample.int 72) = true /\ le (of_Z 70) (of_Z 72) = true /\
     lt (of_Z 72) (of_Z 85) = true) /\
  (color = Ok "text-red-400" <->
     truthy (Sample.int 72) = true /\
     (le (of_Z 85) (of_Z 72) = true \/ isNaN (of_Z 72) = true)).
Proof.
  exact (getMemoryColor_bands Sample.StringToNumber Sample.NumberToString
           (Sample.int 72) (of_Z 72) eq_refl).
Defined.

(** [color_monotone] on the readings 55 and 80. *)
Lemma color_monotone_witness :
  (exists ca cb,
     DeviceInfo.getTempColor Sample.StringToNumber Sample.NumberToString (Sample.int 55)
     = Ok ca /\
     DeviceInfo.getTempColor Sample.StringToNumber Sample.NumberToString (Sample.int 80)
     = Ok cb /\
     (DeviceInfo.severity ca <= DeviceInfo.severity cb)%nat) /\
  (exists ca cb,
     DeviceInfo.getMemoryColor Sample.StringToNumber Sample.NumberToString (Sample.int 55)
     = Ok ca /\
     DeviceInfo.getMemoryColor Sample.StringToNumber Sample.NumberToString (Sample.int 80)
     = Ok cb /\
     (DeviceInfo.severity ca <= DeviceInfo.severity cb)%nat).
Proof.
  exact (color_monotone Sample.StringToNumber Sample.NumberToString
           (of_Z 55) (of_Z 80) eq_refl eq_refl eq_refl).
Defined.

(** ** The address of the device endpoint *)

Module UrlFacts.

Import DeviceInfo.

Lemma split_head_host (host rest : string) :
  no_slash host = true -> split_head "/ws" (host ++ "/ws" ++ rest) = host.
Proof.
  induction host as [|c r IH]; intros H.
  - reflexivity.
  - cbn [no_slash] in H. apply andb_true_iff in H. destruct H as [Hc Hr].
    cbn [append split_head startsWith].
    rewrite Ascii.eqb_sym. apply negb_true_iff in Hc. rewrite Hc. cbn [andb].
    f_equal. exact (IH Hr).
Qed.

Lemma startsWith_ws_host (host rest : string) :
  startsWith host "ws" = false -> startsWith (host ++ "/" ++ rest) "ws" = false.
Proof.
  destruct host as [|c [|d r]]; intros H.
  - reflexivity.
  - cbn [append startsWith]. destruct (Ascii.eqb "w" c); reflexivity.
  - exact H.
Qed.

Lemma split_head_cons (separator : string) (c : ascii) (r : string) :
  split_head separator (String c r) =
  if startsWith (String c r) separator then EmptyString
  else String c (split_head separator r).
Proof. reflexivity. Qed.

Lemma startsWith_cons (a b : ascii) (s p : string) :
  startsWith (String b s) (String a p) = Ascii.eqb a b && startsWith s p.
Proof. reflexivity. Qed.

Lemma split_head_slash_host (host rest : string) :
  no_slash host = true -> startsWith host "ws" = false ->
  split_head "/ws" ("/" ++ host ++ "/ws" ++ rest) = "/" ++ host.
Proof.
  intros Hs Hp.
  change ("/" ++ host ++ "/ws" ++ rest) with (String "/" (host ++ "/" ++ ("ws" ++ rest))).
  rewrite split_head_cons, startsWith_cons.
  rewrite (startsWith_ws_host host ("ws" ++ rest) Hp).
  change (host ++ "/" ++ ("ws" ++ rest)) with (host ++ "/ws" ++ rest).
  rewrite (split_head_host host rest Hs). reflexivity.
Qed.

End UrlFacts.

(** X19.  With no [VITE_API_URL], a socket address [ws://HOST/ws...] or
    [wss://HOST/ws...] whose host holds no [/] and does not begin with
    [ws] makes the panel poll [http://HOST/device-info], respectively
    [https://HOST/device-info]. *)
Theorem device_url_from_socket_url (VITE_WS_URL : option string)
  (location_host host path : string) (secure : bool) :
  DeviceInfo.wsUrl VITE_WS_URL location_host =
    (if secure then "wss://" else "ws://") ++ host ++ "/ws" ++ path ->
  DeviceInfo.no_slash host = true -> DeviceInfo.startsWith host "ws" = false ->
  DeviceInfo.url None VITE_WS_URL location_host =
    (if secure then "https://" else "http://") ++ host ++ "/device-info".
Proof.
  intros Hu Hs Hp. unfold DeviceInfo.url, DeviceInfo.baseUrl. cbn [DeviceInfo.env_or].
  rewrite Hu. destruct secure.
  - change (DeviceInfo.startsWith ("wss://" ++ host ++ "/ws" ++ path) "ws://") with false.
    change (DeviceInfo.startsWith ("wss://" ++ host ++ "/ws" ++ path) "wss://") with true.
    cbv iota.
    change (DeviceInfo.replace "wss://" "https://" ("wss://" ++ host ++ "/ws" ++ path))
      with ("https://" ++ host ++ "/ws" ++ path).
    change (DeviceInfo.split_head "/ws" ("https://" ++ host ++ "/ws" ++ path))
      with ("https:/" ++ DeviceInfo.split_head "/ws" ("/" ++ host ++ "/ws" ++ path)).
    rewrite (UrlFacts.split_head_slash_host host path Hs Hp). reflexivity.
  - change (DeviceInfo.startsWith ("ws://" ++ host ++ "/ws" ++ path) "ws://") with true.
    cbv iota.
    change (DeviceInfo.replace "ws://" "http://" ("ws://" ++ host ++ "/ws" ++ path))
      with ("http://" ++ host ++ "/ws" ++ path).
    change (DeviceInfo.split_head "/ws" ("http://" ++ host ++ "/ws" ++ path))
      with ("http:/" ++ DeviceInfo.split_head "/ws" ("/" ++ host ++ "/ws" ++ path)).
    rewrite (UrlFacts.split_head_slash_host host path Hs Hp). reflexivity.
Qed.

(** [device_url_from_socket_url] with nothing configured, served from
    [pi.local:9200]. *)
Lemma device_url_from_socket_url_witness :
  DeviceInfo.url None None "pi.local:9200" = "http://pi.local:9200/device-info".
Proof.
  exact (device_url_from_socket_url None "pi.local:9200" "pi.local:9200" "" false
           eq_refl eq_refl eq_refl).
Defined.

(** X20.  When the host begins with [ws], [split('/ws')] cuts at the
    second slash of the scheme: the address polled is [http://device-info]
    (or [https://device-info]), whatever the host. *)
Theorem device_url_of_ws_host (VITE_WS_URL : option string)
  (location_host tail : string) (secure : bool) :
  DeviceInfo.wsUrl VITE_WS_URL location_host =
    (if secure then "wss://" else "ws://") ++ "ws" ++ tail ->
  DeviceInfo.url None VITE_WS_URL location_host =
    (if secure then "https:/" else "http:/") ++ "/device-info".
Proof.
  intros Hu. unfold DeviceInfo.url, DeviceInfo.baseUrl. cbn [DeviceInfo.env_or].
  rewrite Hu. destruct secure; reflexivity.
Qed.

(** [device_url_of_ws_host] with nothing configured, served from
    [wsl.local:5173]. *)
Lemma device_url_of_ws_host_witness :
  DeviceInfo.url None None "wsl.local:5173" = "http://device-info".
Proof.
  exact (device_url_of_ws_host None "wsl.local:5173" "l.local:5173/ws" false eq_refl).
Defined.

(** ** The polling of the device endpoint *)

Module PollingFacts.

Import DeviceInfo.
Local Open Scope nat_scope.

Lemma cleared_stays (trace : list Event) :
  forall s s', interval s = false -> run s trace = Some s' ->
               interval s' = false /\ fetches s' = fetches s.
Proof.
  induction trace as [|e r IH]; intros s s' H E.
  - injection E as <-. now split.
  - cbn [run] in E. destruct (step s e) as [s1|] eqn:S1; [|discriminate].
    assert (H1 : interval s1 = false /\ fetches s1 = fetches s).
    { destruct e; cbn [step] in S1.
      - rewrite H in S1. discriminate.
      - destruct (pending s); [discriminate|]. injection S1 as <-. now split.
      - destruct (pending s); [discriminate|]. injection S1 as <-. now split.
      - rewrite H in S1. discriminate. }
    destruct H1 as [Hi Hf]. destruct (IH s1 s' Hi E) as [Hi' Hf'].
    split; [exact Hi'|congruence].
Qed.

Lemma loading_after (trace : list Event) :
  forall s s', run s trace = Some s' ->
               loading s' = loading s && negb (existsb settled trace).
Proof.
  induction trace as [|e r IH]; intros s s' E.
  - injection E as <-. cbn. now rewrite andb_true_r.
  - cbn [run] in E. destruct (step s e) as [s1|] eqn:S1; [|discriminate].
    rewrite (IH s1 s' E). cbn [existsb].
    destruct e; cbn [step settled] in S1 |- *.
    + destruct (interval s); [|discriminate]. injection S1 as <-. reflexivity.
    + destruct (pending s); [discriminate|]. injection S1 as <-.
      cbn [loading]. now rewrite andb_false_r.
    + destruct (pending s); [discriminate|]. injection S1 as <-.
      cbn [loading]. now rewrite andb_false_r.
    + destruct (interval s); [|discriminate]. injection S1 as <-. reflexivity.
Qed.

End PollingFacts.

(** X21.  Once the cleanup has run, no request is sent again: the
    interval is cleared, so whatever responses still arrive, the number of
    fetches stays what it was and the interval cannot call back. *)
Theorem no_fetch_after_cleanup (s s1 s2 : DeviceInfo.State)
  (trace : list DeviceInfo.Event) :
  DeviceInfo.step s DeviceInfo.Unmount = Some s1 ->
  DeviceInfo.run s1 trace = Some s2 ->
  DeviceInfo.fetches s2 = DeviceInfo.fetches s /\
  DeviceInfo.run s2 [DeviceInfo.Interval] = None.
Proof.
  intros U R.
  assert (H1 : DeviceInfo.interval s1 = false /\ DeviceInfo.fetches s1 = DeviceInfo.fetches s).
  { cbn [DeviceInfo.step] in U. destruct (DeviceInfo.interval s); [|discriminate].
    injection U as <-. now split. }
  destruct H1 as [Hi Hf].
  destruct (PollingFacts.cleared_stays trace s1 s2 Hi R) as [Hi2 Hf2].
  split; [congruence|]. cbn [DeviceInfo.run DeviceInfo.step]. now rewrite Hi2.
Qed.

(** [no_fetch_after_cleanup] when the first request fails after the
    cleanup. *)
Lemma no_fetch_after_cleanup_witness :
  exists s1 s2,
    DeviceInfo.step DeviceInfo.mount DeviceInfo.Unmount = Some s1 /\
    DeviceInfo.run s1 [DeviceInfo.Rejected "Failed to fetch"] = Some s2 /\
    DeviceInfo.fetches s2 = DeviceInfo.fetches DeviceInfo.mount /\
    DeviceInfo.run s2 [DeviceInfo.Interval] = None.
Proof.
  eexists. eexists. split; [reflexivity|]. split; [reflexivity|].
  exact (no_fetch_after_cleanup DeviceInfo.mount _ _
           [DeviceInfo.Rejected "Failed to fetch"] eq_refl eq_refl).
Defined.

(** X22.  The panel shows the spinner exactly until the first response
    settles, well or badly, and never again. *)
Theorem spinner_until_first_response (trace : list DeviceInfo.Event)
  (s : DeviceInfo.State) :
  DeviceInfo.run DeviceInfo.mount trace = Some s ->
  (DeviceInfo.render s = DeviceInfo.Spinner <->
   existsb DeviceInfo.settled trace = false).
Proof.
  intros R. pose proof (PollingFacts.loading_after trace _ _ R) as L.
  change (DeviceInfo.loading DeviceInfo.mount) with true in L. cbn [andb] in L.
  unfold DeviceInfo.render. rewrite L.
  destruct (existsb DeviceInfo.settled trace); cbn [negb].
  - split; [|discriminate].
    destruct (DeviceInfo.error s) as [m|].
    + destruct (negb (String.eqb m "")); [discriminate|].
      destruct (negb (truthy (DeviceInfo.deviceInfo s))); discriminate.
    + destruct (negb (truthy (DeviceInfo.deviceInfo s))); discriminate.
  - split; reflexivity.
Qed.

(** [spinner_until_first_response] after a second request was sent and
    one failed. *)
Lemma spinner_until_first_response_witness :
  exists s,
    DeviceInfo.run DeviceInfo.mount [DeviceInfo.Interval; DeviceInfo.Rejected "Failed to fetch"]
    = Some s /\
    (DeviceInfo.render s = DeviceInfo.Spinner <->
     existsb DeviceInfo.settled [DeviceInfo.Interval; DeviceInfo.Rejected "Failed to fetch"]
     = false).
Proof.
  eexists. split; [reflexivity|].
  exact (spinner_until_first_response
           [DeviceInfo.Interval; DeviceInfo.Rejected "Failed to fetch"] _ eq_refl).
Defined.

(** ** The cells of the device panel *)

Section CellFacts.

Variable NumberToString : number -> string.
Variable toFixed : number -> string.

Lemma degrees_is_not_NA (s : string) : s ++ DeviceInfo.degrees_C <> "N/A".
Proof.
  destruct s as [|a [|b [|c [|d s]]]]; cbn; intros H; inversion H.
Qed.

(** X23.  The header shows ["N/A"] for the temperature exactly when
    [cpu_temp_c] is null; a missing field is undefined, not null, and is
    shown as the text [undefined] followed by the unit. *)
Theorem temperature_text_absent_iff_null (deviceInfo : value) :
  (DeviceInfo.tempText NumberToString deviceInfo = Ok "N/A" <->
   get deviceInfo "cpu_temp_c" = VNull) /\
  (get deviceInfo "cpu_temp_c" = VUndefined ->
   DeviceInfo.tempText NumberToString deviceInfo = Ok ("undefined" ++ DeviceInfo.degrees_C)).
Proof.
  unfold DeviceInfo.tempText. split; [split|].
  - destruct (get deviceInfo "cpu_temp_c") eqn:G; try reflexivity; cbn [DeviceInfo.not_null];
      intros H;
      match type of H with
      | bind ?t _ = _ => destruct t as [text|]; cbn [bind] in H; [|discriminate H]
      end;
      injection H as H; elim (degrees_is_not_NA _ H).
  - intros ->. reflexivity.
  - intros ->. reflexivity.
Qed.

(** X24.  The load cell renders only when [cpu_load] is null or a
    number: on every other value, a missing field included, the call of
    [toFixed] throws. *)
Theorem load_cell_needs_number_or_null (deviceInfo : value) :
  (exists s, DeviceInfo.cpuLoadText toFixed deviceInfo = Ok s) <->
  get deviceInfo "cpu_load" = VNull \/ typeof_number (get deviceInfo "cpu_load") = true.
Proof.
  unfold DeviceInfo.cpuLoadText. split.
  - intros [s H]. destruct (get deviceInfo "cpu_load"); try discriminate H.
    + now left.
    + now right.
  - intros [->|T].
    + now exists "N/A".
    + destruct (get deviceInfo "cpu_load"); try discriminate T. eexists. reflexivity.
Qed.

End CellFacts.

(** [temperature_text_absent_iff_null] on [{"hostname":"pi"}], which has
    no [cpu_temp_c]. *)
Lemma temperature_text_absent_iff_null_witness :
  DeviceInfo.tempText Sample.NumberToString (VObj [("hostname", VStr "pi")]) =
  Ok ("undefined" ++ DeviceInfo.degrees_C).
Proof.
  exact (proj2 (temperature_text_absent_iff_null Sample.NumberToString
                  (VObj [("hostname", VStr "pi")])) eq_refl).
Defined.
